(** * Course-data validation: a shallow embedding of
      document-scanner-editor/validators.py, io_file.py, the
      validation run and the result views of main.py and the row view
      of progresswindow.py, with the properties of the written
      specification stated and settled against them.

    Conventions of the embedding.
    - A Python [str] is a [string]: the sequence of its code points, for
      text whose code points lie below 256 (ASCII and the Latin-1
      supplement). A character is the [ascii] with the number of the code
      point. On this range the classes of characters are Python's own
      (CPython 3.11, Unicode 14): white space is 9-13, 28-32, U+0085 and
      U+00A0; the capitals are A-Z, U+00C0-U+00D6 and U+00D8-U+00DE, and
      [lower] moves exactly these by 32; the decimal digits are 0-9. Text
      with a code point from 256 on is outside the model.
    - A string literal stands for the Python text it shows: it is read as
      UTF-8 and each code point becomes one character; a literal with a
      code point from 256 on is refused.
    - A cell of a pandas frame is a [pyval]: the missing value (NaN), a
      text, or an integer. Floating-point cells are not modelled.
    - A Python exception is a [Raise] in the [result] monad.
    - The two library calls that reach outside the program, [urlparse] and
      [requests.head], are fields of a [web] record handed to the
      validators. *)

From Stdlib Require Import ZArith NArith Ascii String DecimalString.
From Stdlib.Strings Require Import Byte.
From stdpp Require Import gmap strings list sorting.

Local Open Scope bool_scope.

(** ** Text literals *)

(** The text of a literal given as UTF-8 bytes: a byte below 128 is its own
    code point, the lead bytes 194 and 195 with their continuation byte
    give the code points 128 to 255, anything else is refused. *)
Fixpoint text_of_bytes (l : list byte) : option string :=
  match l with
  | [] => Some EmptyString
  | b :: r =>
      let n := Byte.to_N b in
      if (n <? 128)%N then
        option_map (String (ascii_of_N n)) (text_of_bytes r)
      else if (n =? 194)%N || (n =? 195)%N then
        match r with
        | b' :: r' =>
            let m := Byte.to_N b' in
            if (128 <=? m)%N && (m <? 192)%N then
              option_map (String (ascii_of_N ((n - 192) * 64 + (m - 128))))
                (text_of_bytes r')
            else None
        | [] => None
        end
      else None
  end.

Definition byte_of_code (n : N) : byte :=
  match Byte.of_N n with Some b => b | None => Byte.x00 end.

Fixpoint bytes_of_text (s : string) : list byte :=
  match s with
  | EmptyString => []
  | String c r =>
      let n := N_of_ascii c in
      if (n <? 128)%N then byte_of_code n :: bytes_of_text r
      else byte_of_code (192 + n / 64) :: byte_of_code (128 + n mod 64)
             :: bytes_of_text r
  end.

String Notation string text_of_bytes bytes_of_text : string_scope.

(** ** Python built-ins used by the program *)
Module Py.

(** Exceptions that the modelled code can meet: the two its own
    operations raise, and any other exception, which comes from a library
    call and is known by its text [str(e)]. *)
Inductive exn : Type :=
| IndexError
| ValueError
| OtherException (text : string).

Inductive result (A : Type) : Type :=
| Ok (a : A)
| Raise (e : exn).
Arguments Ok {A} a.
Arguments Raise {A} e.

Definition bind {A B} (m : result A) (k : A → result B) : result B :=
  match m with
  | Ok a => k a
  | Raise e => Raise e
  end.

Definition returns {A} (m : result A) : bool :=
  match m with Ok _ => true | Raise _ => false end.

Global Instance result_bind : MBind result := λ A B k m, bind m k.
Global Instance result_ret : MRet result := λ A a, Ok a.

(** *** Characters *)

Definition code (c : ascii) : N := N_of_ascii c.

(** [c.isspace()], the white space of [strip] and [split]: TAB, LF, VT,
    FF, CR, the four separators FS, GS, RS, US, the space, NEL (U+0085)
    and the no-break space (U+00A0). *)
Definition is_space (c : ascii) : bool :=
  ((9 <=? code c) && (code c <=? 13) || (28 <=? code c) && (code c <=? 32)
   || (code c =? 133) || (code c =? 160))%N.

(** [c.isupper()] for one character: A-Z, and the capitals U+00C0-U+00D6
    and U+00D8-U+00DE of the Latin-1 supplement. *)
Definition is_upper (c : ascii) : bool :=
  ((65 <=? code c) && (code c <=? 90) || (192 <=? code c) && (code c <=? 214)
   || (216 <=? code c) && (code c <=? 222))%N.

Definition is_digit (c : ascii) : bool :=
  ((48 <=? code c) && (code c <=? 57))%N.

Definition digit_val (c : ascii) : nat := N.to_nat (code c - 48).

Definition to_lower (c : ascii) : ascii :=
  if is_upper c then ascii_of_N (code c + 32) else c.

Definition ascii_eqb (a b : ascii) : bool := bool_decide (a = b).

(** *** Strings *)

(** [s.lower()] *)
Fixpoint lower (s : string) : string :=
  match s with
  | "" => ""
  | String c s' => String (to_lower c) (lower s')
  end.

(** [s.lstrip()] *)
Fixpoint lstrip (s : string) : string :=
  match s with
  | "" => ""
  | String c s' => if is_space c then lstrip s' else s
  end.

(** [s.rstrip()] *)
Fixpoint rstrip (s : string) : string :=
  match s with
  | "" => ""
  | String c s' =>
      match rstrip s' with
      | "" => if is_space c then "" else String c ""
      | r => String c r
      end
  end.

(** [s.strip()] *)
Definition strip (s : string) : string := rstrip (lstrip s).

(** [s.startswith(p)] *)
Fixpoint startswith (s p : string) : bool :=
  match p, s with
  | "", _ => true
  | String _ _, "" => false
  | String a p', String b s' => ascii_eqb a b && startswith s' p'
  end.

(** [sub in s] *)
Fixpoint contains (sub s : string) : bool :=
  startswith s sub ||
  match s with
  | "" => false
  | String _ s' => contains sub s'
  end.

(** [s.split(sep)] for a one-character separator; never the empty list. *)
Fixpoint split_on (sep : ascii) (s : string) : list string :=
  match s with
  | "" => [""]
  | String c s' =>
      if ascii_eqb c sep then "" :: split_on sep s'
      else match split_on sep s' with
           | [] => [String c ""]
           | h :: t => String c h :: t
           end
  end.

(** [s.split()]: the maximal runs of non-blank characters. *)
Fixpoint split_ws (s : string) : list string :=
  match s with
  | "" => []
  | String c s' =>
      if is_space c then split_ws s'
      else match s' with
           | "" => [String c ""]
           | String c' _ =>
               if is_space c' then String c "" :: split_ws s'
               else match split_ws s' with
                    | [] => [String c ""]
                    | h :: t => String c h :: t
                    end
           end
  end.

(** [sep.join(l)] *)
Definition join (sep : string) (l : list string) : string :=
  String.concat sep l.

(** [x in l] for a list of strings *)
Definition in_list (x : string) (l : list string) : bool :=
  bool_decide (x ∈ l).

(** [s[0]] *)
Definition index0 (s : string) : result ascii :=
  match s with
  | "" => Raise IndexError
  | String c _ => Ok c
  end.

(** [l.count(x)] *)
Definition count `{EqDecision A} (x : A) (l : list A) : nat :=
  length (filter (λ y, y = x) l).

(** [str(n)] for a non-negative and for a signed integer *)
Definition str_of_nat (n : nat) : string :=
  NilZero.string_of_uint (Nat.to_uint n).
Definition str_of_Z (z : Z) : string :=
  NilZero.string_of_int (Z.to_int z).

(** *** [float(s)]: does the text parse as a floating-point literal?

    [float] first turns every white-space character above 127 into a
    space and leaves the characters up to 127 alone, then drops the C
    white space (TAB, LF, VT, FF, CR, space) around the text; the
    separators FS, GS, RS and US, which [strip] drops, are not dropped.
    What is left must follow the grammar of the language reference:
    [sign] (floatnumber | "inf" | "infinity" | "nan"), the three words
    in any letter case, where
    digitpart   ::= digit (["_"] digit)*
    number      ::= [digitpart] "." digitpart | digitpart ["."]
    floatnumber ::= number [("e" | "E") [sign] digitpart]. *)

(** The characters [float] drops around the number. *)
Definition is_float_space (c : ascii) : bool :=
  ((9 <=? code c) && (code c <=? 13) || (code c =? 32)
   || (code c =? 133) || (code c =? 160))%N.

Fixpoint float_lstrip (s : string) : string :=
  match s with
  | "" => ""
  | String c s' => if is_float_space c then float_lstrip s' else s
  end.

Fixpoint float_rstrip (s : string) : string :=
  match s with
  | "" => ""
  | String c s' =>
      match float_rstrip s' with
      | "" => if is_float_space c then "" else String c ""
      | r => String c r
      end
  end.

(** The rest of [s] after the longest [(["_"] digit)*]. *)
Fixpoint digits_tail (s : string) : string :=
  match s with
  | "" => ""
  | String c s' =>
      if is_digit c then digits_tail s'
      else if ascii_eqb c "_" then
        match s' with
        | String d s'' => if is_digit d then digits_tail s'' else s
        | "" => s
        end
      else s
  end.

Definition digitpart (s : string) : option string :=
  match s with
  | String c s' => if is_digit c then Some (digits_tail s') else None
  | "" => None
  end.

Definition drop_sign (s : string) : string :=
  match s with
  | String c s' =>
      if ascii_eqb c "+" || ascii_eqb c "-" then s' else s
  | "" => ""
  end.

Definition number (s : string) : option string :=
  match digitpart s with
  | Some r =>
      match r with
      | String c r' =>
          if ascii_eqb c "." then
            match digitpart r' with
            | Some r'' => Some r''
            | None => Some r'
            end
          else Some r
      | "" => Some r
      end
  | None =>
      match s with
      | String c r' => if ascii_eqb c "." then digitpart r' else None
      | "" => None
      end
  end.

Definition exponent_ok (r : string) : bool :=
  match r with
  | "" => true
  | String c r' =>
      if ascii_eqb c "e" || ascii_eqb c "E" then
        match digitpart (drop_sign r') with
        | Some "" => true
        | _ => false
        end
      else false
  end.

Definition float_literal (s : string) : bool :=
  let body := drop_sign (float_rstrip (float_lstrip s)) in
  in_list (lower body) ["inf"; "infinity"; "nan"] ||
  match number body with
  | Some r => exponent_ok r
  | None => false
  end.

(** [float(s)], of which the program only uses whether it raises. *)
Definition float (s : string) : result unit :=
  if float_literal s then Ok () else Raise ValueError.

(** *** [datetime.strptime(s, '%Y-%m-%d')]

    CPython compiles the format to the regular expression
    [(\d\d\d\d)-(1[0-2]|0[1-9]|[1-9])-(3[0-1]|[1-2]\d|0[1-9]|[1-9]| [1-9])],
    matches it at the start of the text, refuses text left over, and
    builds the date, which refuses year 0 and a day the month lacks.
    An alternative of a group is tried in the order written; a later
    alternative of the month never rescues a match, as the character
    after it would have to be the dash. *)

Definition in_range (lo hi : N) (c : ascii) : bool :=
  ((lo <=? code c) && (code c <=? hi))%N.

Definition parse_year (s : string) : option (nat * string) :=
  match s with
  | String a (String b (String c (String d r))) =>
      if is_digit a && is_digit b && is_digit c && is_digit d
      then Some (digit_val a * 1000 + digit_val b * 100
                 + digit_val c * 10 + digit_val d, r)
      else None
  | _ => None
  end.

Definition parse_dash (s : string) : option string :=
  match s with
  | String c r => if ascii_eqb c "-" then Some r else None
  | "" => None
  end.

Definition parse_month (s : string) : option (nat * string) :=
  match s with
  | String a r =>
      match r with
      | String b r' =>
          if ascii_eqb a "1" && in_range 48 50 b
          then Some (10 + digit_val b, r')
          else if ascii_eqb a "0" && in_range 49 57 b
          then Some (digit_val b, r')
          else if in_range 49 57 a then Some (digit_val a, r)
          else None
      | "" => if in_range 49 57 a then Some (digit_val a, r) else None
      end
  | "" => None
  end.

Definition parse_day (s : string) : option (nat * string) :=
  match s with
  | String a r =>
      match r with
      | String b r' =>
          if ascii_eqb a "3" && in_range 48 49 b
          then Some (30 + digit_val b, r')
          else if in_range 49 50 a && is_digit b
          then Some (digit_val a * 10 + digit_val b, r')
          else if ascii_eqb a "0" && in_range 49 57 b
          then Some (digit_val b, r')
          else if in_range 49 57 a then Some (digit_val a, r)
          else if ascii_eqb a " " && in_range 49 57 b
          then Some (digit_val b, r')
          else None
      | "" => if in_range 49 57 a then Some (digit_val a, r) else None
      end
  | "" => None
  end.

Definition is_leap (y : nat) : bool :=
  (y mod 4 =? 0)%nat && (negb (y mod 100 =? 0)%nat || (y mod 400 =? 0)%nat).

Definition days_in_month (y m : nat) : nat :=
  match m with
  | 2 => if is_leap y then 29 else 28
  | 4 | 6 | 9 | 11 => 30
  | _ => 31
  end.

Definition strptime_ymd (s : string) : result (nat * nat * nat) :=
  match parse_year s with
  | None => Raise ValueError
  | Some (y, r1) =>
  match parse_dash r1 with
  | None => Raise ValueError
  | Some r2 =>
  match parse_month r2 with
  | None => Raise ValueError
  | Some (m, r3) =>
  match parse_dash r3 with
  | None => Raise ValueError
  | Some r4 =>
  match parse_day r4 with
  | None => Raise ValueError
  | Some (d, r5) =>
      if negb (bool_decide (r5 = "")) then Raise ValueError
      else if (1 <=? y)%nat && (d <=? days_in_month y m)%nat
      then Ok (y, m, d)
      else Raise ValueError
  end end end end end.

(** *** Cells *)

Inductive pyval : Type :=
| VNaN
| VStr (s : string)
| VInt (z : Z).

Global Instance pyval_eq_dec : EqDecision pyval.
Proof. solve_decision. Defined.

(** [pd.isna(v)] *)
Definition isna (v : pyval) : bool :=
  match v with VNaN => true | _ => false end.

(** [v == ''] *)
Definition is_empty_str (v : pyval) : bool :=
  match v with VStr "" => true | _ => false end.

(** [str(v)] *)
Definition str (v : pyval) : string :=
  match v with
  | VNaN => "nan"
  | VStr s => s
  | VInt z => str_of_Z z
  end.

End Py.


(** ** validators.py *)
Module Validators.
Import Py.

(** The dict every validator returns. *)
Record verdict : Type := Verdict { valid : bool; message : string }.

(** What [requests.head] does for one URL: it answers with a status code,
    or raises one of the request exceptions the validator tells apart, or
    raises an exception that is no [RequestException] (one of urllib3,
    say), which the validator does not catch. *)
Inductive head_outcome : Type :=
| Response (status_code : Z)
| Timeout
| ConnectionError
| RequestException (text : string)
| OtherError (text : string).

(** The world outside the program: [urlparse url] yields the scheme and
    the network location, or raises; [requests_head url] is the outcome
    of the probe. *)
Record web : Type := Web {
  urlparse : string → result (string * string);
  requests_head : string → head_outcome
}.

Definition allowed_statuses : list string := ["Open"; "Closed"].
Definition allowed_study_modes : list string := ["Full time"; "Part time"].
Definition allowed_show_values : list string := ["Yes"; "No"].

Definition conjunctions : list string :=
  ["and"; "with"; "by"; "of"; "the"; "in"; "on"; "at"; "to"; "for";
   "from"; "up"; "about"; "into"; "through"; "during"; "before";
   "after"; "above"; "below"; "between"; "among"; "within"; "without";
   "against"; "toward"; "towards"; "upon"; "under"; "over"; "across"].

Definition dquote : string := String (ascii_of_nat 34) "".

Definition validate_institution_id (value : pyval) : result verdict :=
  if isna value || is_empty_str value then
    Ok (Verdict false "Institution Id cannot be blank")
  else
    match float (str value) with
    | Ok _ => Ok (Verdict true "Valid institution ID")
    | Raise ValueError => Ok (Verdict false "Institution Id must be numeric")
    | Raise e => Raise e
    end.

Definition validate_course_id (value : pyval) (all_course_ids : list pyval)
  : result verdict :=
  if isna value || is_empty_str value then
    Ok (Verdict false "Course Id cannot be blank")
  else
    match float (str value) with
    | Raise ValueError => Ok (Verdict false "Course Id must be numeric")
    | Raise e => Raise e
    | Ok _ =>
        if (1 <? count value all_course_ids)%nat then
          Ok (Verdict false "Course Id must be unique")
        else Ok (Verdict true "Valid course ID")
    end.

(** The loop over [enumerate(words)], entered at index [i]. *)
Fixpoint conjunction_loop (i : nat) (words : list string) : result verdict :=
  match words with
  | [] => Ok (Verdict true "Valid course name")
  | word :: rest =>
      if (0 <? i)%nat && in_list (lower word) conjunctions then
        c ← index0 word;
        if is_upper c then
          Ok (Verdict false
                ("Conjunction " +:+ dquote +:+ word +:+ dquote
                 +:+ " should be lowercase"))
        else conjunction_loop (S i) rest
      else conjunction_loop (S i) rest
  end.

Definition validate_course_name (value : pyval) : result verdict :=
  if isna value || is_empty_str value then
    Ok (Verdict false "Course Name cannot be blank")
  else
    let course_name := strip (str value) in
    c ← index0 course_name;
    if negb (is_upper c) then
      Ok (Verdict false "Course Name must start with capital letter")
    else conjunction_loop 0 (split_ws course_name).

Definition validate_l3_tagging (value : pyval) : result verdict :=
  if isna value || bool_decide (strip (str value) = "") then
    Ok (Verdict false "L3 Tagging must not be blank")
  else Ok (Verdict true "Valid L3 tagging").

Definition validate_degree_type (value : pyval) : result verdict :=
  if isna value || bool_decide (strip (str value) = "") then
    Ok (Verdict false "Degree Type must not be blank")
  else Ok (Verdict true "Valid degree type").

Definition validate_course_type (value : pyval) : result verdict :=
  if isna value || bool_decide (strip (str value) = "") then
    Ok (Verdict false "Course Type must not be blank")
  else Ok (Verdict true "Valid course type").

(** The loop over [dates]: the first one [strptime] refuses is named. *)
Fixpoint date_loop (dates : list string) : result verdict :=
  match dates with
  | [] => Ok (Verdict true "Valid course start date")
  | date :: rest =>
      match strptime_ymd date with
      | Ok _ => date_loop rest
      | Raise ValueError =>
          Ok (Verdict false
                ("Invalid date format: " +:+ date +:+ ". Must be YYYY-MM-DD"))
      | Raise e => Raise e
      end
  end.

Definition validate_course_start_date (value : pyval) : result verdict :=
  if isna value || bool_decide (strip (str value) = "") then
    Ok (Verdict false "Course start date cannot be blank")
  else
    let date_str := strip (str value) in
    let dates :=
      if contains "," date_str then map strip (split_on "," date_str)
      else [date_str] in
    date_loop dates.

(** One turn of the loop over [urls]: [errors] is the list so far. The
    bare [except] around [urlparse] catches whatever it raises; around the
    probe only the request exceptions are caught. *)
Definition url_step (w : web) (errors : list string) (url : string)
  : result (list string) :=
  let url := strip url in
  if bool_decide (url = "") then Ok errors
  else
    match urlparse w url with
    | Raise _ => Ok (errors ++ ["Invalid URL format: " +:+ url])
    | Ok (scheme, netloc) =>
        if negb (negb (bool_decide (scheme = ""))
                 && negb (bool_decide (netloc = ""))) then
          Ok (errors ++ ["Invalid URL format: " +:+ url])
        else
          match requests_head w url with
          | Response status_code =>
              if (status_code =? 404)%Z then
                Ok (errors ++ ["URL returns 404 (Not Found): " +:+ url])
              else if (status_code =? 410)%Z then
                Ok (errors ++ ["URL returns 410 (Gone): " +:+ url])
              else if (status_code =? 500)%Z then
                Ok (errors ++ ["URL returns 500 (Server Error): " +:+ url])
              else if (status_code =? 502)%Z then
                Ok (errors ++ ["URL returns 502 (Bad Gateway): " +:+ url])
              else if (status_code =? 503)%Z then
                Ok (errors
                    ++ ["URL returns 503 (Service Unavailable): " +:+ url])
              else if (status_code =? 504)%Z then
                Ok (errors ++ ["URL returns 504 (Gateway Timeout): " +:+ url])
              else Ok errors
          | Timeout =>
              Ok (errors ++ ["URL timeout (server not responding): " +:+ url])
          | ConnectionError =>
              Ok (errors
                  ++ ["URL connection error (server unreachable): " +:+ url])
          | RequestException e =>
              if negb (contains "403" e) && negb (contains "401" e) then
                Ok (errors ++ ["URL not accessible: " +:+ url])
              else Ok errors
          | OtherError e => Raise (OtherException e)
          end
    end.

(** The loop [for url in urls]. *)
Fixpoint url_loop (w : web) (errors : list string) (urls : list string)
  : result (list string) :=
  match urls with
  | [] => Ok errors
  | url :: rest =>
      errors' ← url_step w errors url;
      url_loop w errors' rest
  end.

Definition validate_course_level_url (w : web) (value : pyval)
  : result verdict :=
  if isna value || bool_decide (strip (str value) = "") then
    Ok (Verdict false "Course Level URL cannot be blank")
  else
    let urls := split_on "," (str value) in
    errors ← url_loop w [] urls;
    if negb (bool_decide (errors = [])) then
      Ok (Verdict false (join "; " errors))
    else Ok (Verdict true "All URLs are working").

(** [[x.strip() for x in s.split(',') if x.strip()]] *)
Definition components (s : string) : list string :=
  map strip (filter (λ x, strip x ≠ "") (split_on "," s)).

Definition validate_course_intake_ids (intake_ids start_dates : pyval)
  : result verdict :=
  if isna intake_ids || isna start_dates then
    Ok (Verdict false
          "Course Intake IDs and Course start date cannot be blank")
  else
    let intake_list := components (str intake_ids) in
    let intake_count := length intake_list in
    let date_count :=
      if contains "," (str start_dates) then
        length (components (str start_dates))
      else if negb (bool_decide (strip (str start_dates) = "")) then 1
      else 0 in
    if negb (intake_count =? date_count)%nat then
      Ok (Verdict false
            ("Intake IDs count (" +:+ str_of_nat intake_count
             +:+ ") must match start dates count ("
             +:+ str_of_nat date_count +:+ ")"))
    else if negb (length intake_list
                  =? size (list_to_set intake_list : gset string))%nat then
      Ok (Verdict false "Course Intake IDs must be unique")
    else Ok (Verdict true "Valid course intake IDs").

Definition validate_show (value : pyval) : result verdict :=
  if isna value || bool_decide (strip (str value) = "") then
    Ok (Verdict false "Show field cannot be blank")
  else
    let show_value := strip (str value) in
    if negb (in_list show_value allowed_show_values) then
      Ok (Verdict false
            ("Show must be one of: " +:+ join ", " allowed_show_values))
    else Ok (Verdict true "Valid show value").

Definition validate_course_status (value : pyval) : result verdict :=
  if isna value || bool_decide (strip (str value) = "") then
    Ok (Verdict false "Course Status cannot be blank")
  else
    let status_value := strip (str value) in
    if contains "," status_value then
      let statuses := map strip (split_on "," status_value) in
      let invalid_statuses :=
        filter (λ s, in_list s allowed_statuses = false) statuses in
      if negb (bool_decide (invalid_statuses = [])) then
        Ok (Verdict false
              ("Invalid status values: " +:+ join ", " invalid_statuses
               +:+ ". Must be one of: " +:+ join ", " allowed_statuses))
      else Ok (Verdict true "Valid course status")
    else
      if negb (in_list status_value allowed_statuses) then
        Ok (Verdict false
              ("Course Status must be one of: "
               +:+ join ", " allowed_statuses))
      else Ok (Verdict true "Valid course status").

Definition validate_study_mode (value : pyval) : result verdict :=
  if isna value || bool_decide (strip (str value) = "") then
    Ok (Verdict false "Study Mode cannot be blank")
  else
    let mode_value := strip (str value) in
    if negb (in_list mode_value allowed_study_modes) then
      Ok (Verdict false
            ("Study Mode must be one of: "
             +:+ join ", " allowed_study_modes))
    else Ok (Verdict true "Valid study mode").

(** An entry of the list [validate_all_fields] returns. *)
Record error_record : Type := ErrorRecord {
  e_row : nat;
  e_column : string;
  e_error_type : string;
  e_message : string;
  e_value : string
}.

Global Instance error_record_eq_dec : EqDecision error_record.
Proof. solve_decision. Defined.

(** [errors.append({...})] for a verdict that is not valid. *)
Definition append_error (errors : list error_record) (row_index : nat)
    (column error_type : string) (res : verdict) (v : pyval)
  : list error_record :=
  errors ++ [ErrorRecord (row_index + 1) column error_type
               (message res) (str v)].

Section blocks.
Variable w : web.
Variable row : gmap string pyval.
Variable row_index : nat.
Variable all_course_ids : list pyval.

(** The twelve [if ... in row:] blocks, each from the list of errors
    so far to the list after it. *)

Definition check_institution_id (errors : list error_record)
  : result (list error_record) :=
  match row !! "Institution Id" with
  | Some v =>
      res ← validate_institution_id v;
      if negb (valid res) then
        Ok (append_error errors row_index "Institution Id" "Numeric" res v)
      else Ok errors
  | None => Ok errors
  end.

Definition check_course_id (errors : list error_record)
  : result (list error_record) :=
  match row !! "Course Id" with
  | Some v =>
      res ← validate_course_id v all_course_ids;
      if negb (valid res) then
        Ok (append_error errors row_index "Course Id"
              (if contains "unique" (lower (message res))
               then "Unique" else "Numeric") res v)
      else Ok errors
  | None => Ok errors
  end.

Definition check_course_name (errors : list error_record)
  : result (list error_record) :=
  match row !! "Course Name" with
  | Some v =>
      res ← validate_course_name v;
      if negb (valid res) then
        Ok (append_error errors row_index "Course Name" "Capitalization"
              res v)
      else Ok errors
  | None => Ok errors
  end.

Definition check_l3_tagging (errors : list error_record)
  : result (list error_record) :=
  match row !! "L3 Tagging" with
  | Some v =>
      res ← validate_l3_tagging v;
      if negb (valid res) then
        Ok (append_error errors row_index "L3 Tagging" "Blank" res v)
      else Ok errors
  | None => Ok errors
  end.

Definition check_degree_type (errors : list error_record)
  : result (list error_record) :=
  match row !! "Degree Type" with
  | Some v =>
      res ← validate_degree_type v;
      if negb (valid res) then
        Ok (append_error errors row_index "Degree Type" "Blank" res v)
      else Ok errors
  | None => Ok errors
  end.

Definition check_course_type (errors : list error_record)
  : result (list error_record) :=
  match row !! "Course Type" with
  | Some v =>
      res ← validate_course_type v;
      if negb (valid res) then
        Ok (append_error errors row_index "Course Type" "Blank" res v)
      else Ok errors
  | None => Ok errors
  end.

Definition check_course_start_date (errors : list error_record)
  : result (list error_record) :=
  match row !! "Course start date" with
  | Some v =>
      res ← validate_course_start_date v;
      if negb (valid res) then
        Ok (append_error errors row_index "Course start date" "Date" res v)
      else Ok errors
  | None => Ok errors
  end.

Definition check_course_level_url (errors : list error_record)
  : result (list error_record) :=
  match row !! "Course Level URL" with
  | Some v =>
      res ← validate_course_level_url w v;
      if negb (valid res) then
        Ok (append_error errors row_index "Course Level URL" "URL" res v)
      else Ok errors
  | None => Ok errors
  end.

Definition check_course_intake_ids (errors : list error_record)
  : result (list error_record) :=
  match row !! "Course Intake Ids", row !! "Course start date" with
  | Some v, Some d =>
      res ← validate_course_intake_ids v d;
      if negb (valid res) then
        Ok (append_error errors row_index "Course Intake Ids" "Count" res v)
      else Ok errors
  | _, _ => Ok errors
  end.

Definition check_show (errors : list error_record)
  : result (list error_record) :=
  match row !! "Show" with
  | Some v =>
      res ← validate_show v;
      if negb (valid res) then
        Ok (append_error errors row_index "Show" "Status" res v)
      else Ok errors
  | None => Ok errors
  end.

Definition check_course_status (errors : list error_record)
  : result (list error_record) :=
  match row !! "Course Status" with
  | Some v =>
      res ← validate_course_status v;
      if negb (valid res) then
        Ok (append_error errors row_index "Course Status" "Status" res v)
      else Ok errors
  | None => Ok errors
  end.

Definition check_study_mode (errors : list error_record)
  : result (list error_record) :=
  match row !! "Study Mode" with
  | Some v =>
      res ← validate_study_mode v;
      if negb (valid res) then
        Ok (append_error errors row_index "Study Mode" "Status" res v)
      else Ok errors
  | None => Ok errors
  end.

Definition validate_all_fields : result (list error_record) :=
  let errors := [] in
  errors ← check_institution_id errors;
  errors ← check_course_id errors;
  errors ← check_course_name errors;
  errors ← check_l3_tagging errors;
  errors ← check_degree_type errors;
  errors ← check_course_type errors;
  errors ← check_course_start_date errors;
  errors ← check_course_level_url errors;
  errors ← check_course_intake_ids errors;
  errors ← check_show errors;
  errors ← check_course_status errors;
  errors ← check_study_mode errors;
  Ok errors.
End blocks.

End Validators.

(** ** io_file.py: the column normaliser and the value cleaner *)
Module IoFile.
Import Py.

(** A frame: its column names and its rows, each row the dict that
    [row.to_dict()] gives. *)
Record DataFrame : Type := Frame {
  columns : list string;
  rows : list (gmap string pyval)
}.

Definition expected_columns : list string :=
  ["Institution Id"; "Course Id"; "Course Type"; "Degree Type";
   "Course Name"; "L3 Tagging"; "Course Intake Ids"; "Course start date";
   "Course Level Tuition Fees"; "Application Fees";
   "Application Deadline Date"; "Course Level URL"; "Course Status";
   "Show"; "Study Mode"; "Previous Education"; "Commissionable"].

(** The dict [variations], in the order it is written. *)
Definition variations : list (string * string) :=
  [("Instituti", "Institution Id");
   ("Course I", "Course Id");
   ("Course TDegree", "Degree Type");
   ("Course", "Course Name");
   ("L3 Taggi", "L3 Tagging");
   ("Course sCourse", "Course start date");
   ("LApplicati", "Course Level Tuition Fees");
   ("Applicati", "Application Fees");
   ("Course LCourse SShow", "Course Level URL");
   ("Study M", "Study Mode");
   ("Previous", "Previous Education");
   ("Commissionable", "Commissionable")].

(** The inner loop over [variations.items()], left at the first hit. *)
Fixpoint find_variation (col : string) (vs : list (string * string))
  : option string :=
  match vs with
  | [] => None
  | (variation, expected) :: rest =>
      if startswith col variation || contains variation col
      then Some expected
      else find_variation col rest
  end.

(** What one header is mapped to. *)
Definition normalize_column (col : string) : string :=
  if in_list col expected_columns then col
  else
    match find_variation col variations with
    | Some normalized =>
        if negb (bool_decide (normalized = "")) then normalized else col
    | None => col
    end.

(** The outer loop fills the dict [column_mapping]. *)
Definition normalize_column_names (columns : list string)
  : gmap string string :=
  foldl (λ column_mapping col, <[col := normalize_column col]> column_mapping)
    ∅ columns.

(** [replace(['NULL', 'NUL', 'null', 'nul'], '')] on one cell. *)
Definition null_markers : list pyval :=
  [VStr "NULL"; VStr "NUL"; VStr "null"; VStr "nul"].

Definition replace_cell (v : pyval) : pyval :=
  if bool_decide (v ∈ null_markers) then VStr "" else v.

Definition replace_nulls (df : DataFrame) : DataFrame :=
  Frame (columns df) (map (fmap replace_cell) (rows df)).

(** [re.search(r'(\d{4}-\d{2}-\d{2})', s)].  A pattern is a list of
    character classes; [match_at] matches it at the start of the text and
    [re_search] tries every start from the left. *)
Inductive char_class : Type :=
| Digit
| Lit (c : ascii).

Definition class_ok (k : char_class) (c : ascii) : bool :=
  match k with
  | Digit => is_digit c
  | Lit a => ascii_eqb a c
  end.

Fixpoint match_at (pat : list char_class) (s : string) : option string :=
  match pat with
  | [] => Some ""
  | k :: pat' =>
      match s with
      | "" => None
      | String c s' =>
          if class_ok k c then
            match match_at pat' s' with
            | Some m => Some (String c m)
            | None => None
            end
          else None
      end
  end.

Fixpoint re_search (pat : list char_class) (s : string) : option string :=
  match match_at pat s with
  | Some m => Some m
  | None =>
      match s with
      | "" => None
      | String _ s' => re_search pat s'
      end
  end.

Definition date_pattern : list char_class :=
  [Digit; Digit; Digit; Digit; Lit "-"; Digit; Digit; Lit "-"; Digit; Digit].

Definition _clean_date_format (date_str : pyval) : string :=
  if isna date_str || is_empty_str date_str then ""
  else
    let date_str := strip (str date_str) in
    match re_search date_pattern date_str with
    | Some date_match => date_match
    | None => date_str
    end.

Definition _normalize_study_mode (mode : pyval) : string :=
  if isna mode || is_empty_str mode then ""
  else
    let mode := strip (str mode) in
    if contains "full" (lower mode) then "Full time"
    else if contains "part" (lower mode) then "Part time"
    else mode.

(** One turn of the loop of [_extract_status_and_show]. *)
Definition extract_row (row : gmap string pyval) : gmap string pyval :=
  match row !! "Course Level URL" with
  | None => row
  | Some v =>
      let combined_value := str v in
      if contains "," combined_value then
        let parts := split_on "," combined_value in
        let url_part := strip (hd "" parts) in
        let status_part := strip (join "," (tl parts)) in
        let row := <["Course Level URL" := VStr url_part]> row in
        let row :=
          if contains "Open" status_part
          then <["Course Status" := VStr "Open"]> row
          else if contains "Closed" status_part
          then <["Course Status" := VStr "Closed"]> row
          else row in
        if contains "Yes" status_part
        then <["Show" := VStr "Yes"]> row
        else if contains "No" status_part
        then <["Show" := VStr "No"]> row
        else row
      else row
  end.

(** [df[c] = ''] when the column [c] is not there yet. *)
Definition ensure_column (c : string) (df : DataFrame) : DataFrame :=
  if in_list c (columns df) then df
  else Frame (columns df ++ [c]) (map (insert c (VStr "")) (rows df)).

Definition _extract_status_and_show (df : DataFrame) : DataFrame :=
  if negb (in_list "Course Level URL" (columns df)) then df
  else
    let df := ensure_column "Course Status" df in
    let df := ensure_column "Show" df in
    Frame (columns df) (map extract_row (rows df)).

(** [df[c] = df[c].astype(str).apply(f)] *)
Definition apply_str (c : string) (f : pyval → string) (df : DataFrame)
  : DataFrame :=
  Frame (columns df) (map (alter (λ v, VStr (f (VStr (str v)))) c) (rows df)).

Definition clean_data (df : DataFrame) : DataFrame :=
  let cleaned_df := replace_nulls df in
  let cleaned_df :=
    if in_list "Course start date" (columns cleaned_df)
    then apply_str "Course start date" _clean_date_format cleaned_df
    else cleaned_df in
  let cleaned_df :=
    if in_list "Study Mode" (columns cleaned_df)
    then apply_str "Study Mode" _normalize_study_mode cleaned_df
    else cleaned_df in
  if in_list "Course Level URL" (columns cleaned_df)
  then _extract_status_and_show cleaned_df
  else cleaned_df.

End IoFile.

(** ** main.py: the loop over the rows *)
Module Main.
Import Py Validators IoFile.

(** [df['Course Id'].dropna().tolist()] *)
Definition course_id_column (df : DataFrame) : list pyval :=
  filter (λ v, isna v = false) (omap (λ r, r !! "Course Id") (rows df)).

(** How [run_validation] ends: it schedules [validation_complete], or, when
    an exception [e] is raised anywhere in its [try], the handler schedules
    [validation_error(str(e))]. *)
Inductive run_end : Type :=
| validation_complete
| validation_error (e : exn).

(** The [for index, row in df.iterrows()] loop from row [index] on, with
    the list [self.validation_errors] that it extends; [cancelled i] tells
    whether the user has cancelled by the time row [i] is reached. An
    exception of a row leaves the loop with that exception; the list keeps
    what the rows before have added. *)
Fixpoint validate_rows (w : web) (cancelled : nat → bool)
    (all_course_ids : list pyval) (index : nat)
    (rs : list (gmap string pyval)) (validation_errors : list error_record)
  : list error_record * option exn :=
  match rs with
  | [] => (validation_errors, None)
  | row :: rest =>
      if cancelled index then (validation_errors, None)
      else
        match validate_all_fields w row index all_course_ids with
        | Ok row_errors =>
            validate_rows w cancelled all_course_ids (S index) rest
              (validation_errors ++ row_errors)
        | Raise e => (validation_errors, Some e)
        end
  end.

(** [run_validation]: the list it leaves in [self.validation_errors] and
    the call it schedules. *)
Definition run_validation (w : web) (cancelled : nat → bool)
    (df : DataFrame) : list error_record * run_end :=
  let all_course_ids :=
    if in_list "Course Id" (columns df) then course_id_column df else [] in
  match validate_rows w cancelled all_course_ids 0 (rows df) [] with
  | (validation_errors, None) => (validation_errors, validation_complete)
  | (validation_errors, Some e) => (validation_errors, validation_error e)
  end.

End Main.

(** ** io_file.py: the report writer *)
Module Report.
Import Py Validators IoFile.

(** A Python dict whose order of insertion can be seen is the list of its
    items. [dict_get] is [d.get(k)], [dict_set] is [d[k] = v]: in place
    when the key is there, at the end when it is new. *)
Fixpoint dict_get {V} (k : string) (d : list (string * V)) : option V :=
  match d with
  | [] => None
  | (k', v) :: d' => if bool_decide (k' = k) then Some v else dict_get k d'
  end.

Fixpoint dict_set {V} (k : string) (v : V) (d : list (string * V))
  : list (string * V) :=
  match d with
  | [] => [(k, v)]
  | (k', v') :: d' =>
      if bool_decide (k' = k) then (k', v) :: d'
      else (k', v') :: dict_set k v d'
  end.

(** The fill colour of every category, as its RGB code. *)
Definition error_colors : list (string * string) :=
  [("Numeric", "FFE6E6"); ("Unique", "FFB366");
   ("Capitalization", "FFFF99"); ("Blank", "FFCCCC"); ("Date", "CCE5FF");
   ("URL", "FF9999"); ("Count", "CC99FF"); ("Status", "99CCFF")].

(** The fill a cell of sheet row [row_idx] gets, if any: the loop over
    the records stops at the first one of that row whose category has a
    colour. [col_idx] is passed and not looked at. *)
Fixpoint _apply_error_highlighting (row_idx col_idx : nat)
    (validation_errors : list error_record) : option string :=
  match validation_errors with
  | [] => None
  | error :: rest =>
      if bool_decide (Z.of_nat (e_row error) = (Z.of_nat row_idx - 1)%Z) then
        match dict_get (e_error_type error) error_colors with
        | Some fill => Some fill
        | None => _apply_error_highlighting row_idx col_idx rest
        end
      else _apply_error_highlighting row_idx col_idx rest
  end.

(** [len([e for e in validation_errors if e['row'] == row_idx - 1])] *)
Definition error_count (validation_errors : list error_record)
    (row_idx : nat) : nat :=
  length (filter (λ e, Z.of_nat (e_row e) = (Z.of_nat row_idx - 1)%Z)
            validation_errors).

(** What [write_excel_with_validation_results] puts on the data sheet
    besides the cell values: the fill of every cell, row by row from sheet
    row 2 and column by column from 1, and the "Error Count" column for
    the sheet rows 2 to len(df) + 1. *)
Definition cell_fills (df : DataFrame)
    (validation_errors : list error_record) : list (list (option string)) :=
  map (λ row_idx,
         map (λ col_idx,
                _apply_error_highlighting row_idx col_idx validation_errors)
           (seq 1 (length (columns df))))
    (seq 2 (length (rows df))).

Definition error_count_column (df : DataFrame)
    (validation_errors : list error_record) : list nat :=
  map (error_count validation_errors) (seq 2 (length (rows df))).

(** The loop [error_types[t] = error_types.get(t, 0) + 1]. *)
Definition error_breakdown (validation_errors : list error_record)
  : list (string * nat) :=
  foldl (λ error_types error,
           dict_set (e_error_type error)
             (default 0 (dict_get (e_error_type error) error_types) + 1)
             error_types)
    [] validation_errors.

(** The numbers of the sheet "Validation Summary": the cells B3, B4, B5
    and the rows from row 8 on. *)
Record summary_sheet : Type := SummarySheet {
  total_rows : nat;
  total_errors : nat;
  rows_with_errors : nat;
  breakdown : list (string * nat)
}.

Definition _create_summary_sheet (df : DataFrame)
    (validation_errors : list error_record) : summary_sheet :=
  SummarySheet
    (length (rows df))
    (length validation_errors)
    (size (list_to_set (map e_row validation_errors) : gset nat))
    (error_breakdown validation_errors).

(** The width [_auto_adjust_columns] gives a column, from the texts
    [str(cell.value)] of its cells. *)
Definition adjusted_width (column : list string) : nat :=
  let max_length :=
    foldl (λ max_length text,
             if (max_length <? String.length text)%nat
             then String.length text else max_length)
      0 column in
  Nat.min (max_length + 2) 50.

End Report.

(** ** main.py: the sheet id and the display of the results *)
Module App.
Import Py Validators IoFile Main Report.

(** A character of the class [[a-zA-Z0-9-_]]. *)
Definition is_id_char (c : ascii) : bool :=
  in_range 97 122 c || in_range 65 90 c || in_range 48 57 c
  || ascii_eqb c "-" || ascii_eqb c "_".

(** The longest run of id characters the text starts with. *)
Fixpoint id_run (s : string) : string :=
  match s with
  | "" => ""
  | String c s' => if is_id_char c then String c (id_run s') else ""
  end.

(** The text after the prefix, when the text starts with it. *)
Fixpoint after_prefix (p s : string) : option string :=
  match p with
  | "" => Some s
  | String a p' =>
      match s with
      | "" => None
      | String c s' => if ascii_eqb a c then after_prefix p' s' else None
      end
  end.

(** [re.search(r'/spreadsheets/d/([a-zA-Z0-9-_]+)', url)] and its group 1:
    at the leftmost place where the literal is followed by an id
    character, the longest run of id characters. *)
Fixpoint extract_sheet_id (url : string) : option string :=
  match
    match after_prefix "/spreadsheets/d/" url with
    | Some rest => if bool_decide (id_run rest = "") then None
                   else Some (id_run rest)
    | None => None
    end
  with
  | Some id => Some id
  | None =>
      match url with
      | "" => None
      | String _ url' => extract_sheet_id url'
      end
  end.

(** The dict [errors_by_row] of [display_results]; it is only looked up
    and listed by sorted key. *)
Definition errors_by_row (validation_errors : list error_record)
  : gmap nat (list error_record) :=
  foldl (λ (by_row : gmap nat (list error_record)) error,
           <[e_row error := default [] (by_row !! e_row error) ++ [error]]>
             by_row)
    ∅ validation_errors.

(** The rows [display_results] lists, [sorted(errors_by_row.keys())], each
    with its records. *)
Definition detailed_errors (validation_errors : list error_record)
  : list (nat * list error_record) :=
  let by_row := errors_by_row validation_errors in
  map (λ row, (row, default [] (by_row !! row)))
    (merge_sort Nat.le (elements (dom by_row))).

(** The tag [update_data_display] gives the row of index [index]. *)
Definition row_tag (validation_errors : list error_record) (index : nat)
  : string :=
  let row_errors := filter (λ e, e_row e = index + 1) validation_errors in
  if negb (bool_decide (row_errors = [])) then "error_row" else "valid_row".

End App.

(** ** progresswindow.py: the display of the current row *)
Module Progress.
Import Py Validators.

(** The dict [error_lookup]: the record of each column, the last one
    when a column has several. *)
Definition error_lookup (row_errors : list error_record)
  : gmap string error_record :=
  foldl (λ (lookup : gmap string error_record) error,
           <[e_column error := error]> lookup)
    ∅ row_errors.

(** The two texts of the status column: the cross mark U+274C followed by
    " Error", and the check mark U+2705 followed by " Valid". The marks
    are symbols beyond code point 255, so the two texts are named. *)
Inductive status_text : Type :=
| CrossMarkError
| CheckMarkValid.

(** The line the tree view gets for a field: the field, the text of its
    value, the status, the message, and the tag. *)
Record field_line : Type := FieldLine {
  line_field : string;
  line_value : string;
  line_status : status_text;
  line_message : string;
  line_tag : string
}.

Definition update_data_display (row_data : list (string * pyval))
    (row_errors : list error_record) : list field_line :=
  let lookup := error_lookup row_errors in
  map (λ item,
         match lookup !! item.1 with
         | Some error =>
             FieldLine item.1 (str item.2) CrossMarkError (e_message error)
               "error"
         | None => FieldLine item.1 (str item.2) CheckMarkValid "" "valid"
         end)
    row_data.

End Progress.

(** ** Notions the statements are phrased in *)
Module Spec.
Import Py Validators IoFile Main Report App Progress.

(** [m] is, character by character, a text of the pattern. *)
Fixpoint shaped (pat : list char_class) (m : string) : Prop :=
  match pat, m with
  | [], "" => True
  | k :: pat', String c m' => class_ok k c = true ∧ shaped pat' m'
  | _, _ => False
  end.

(** Four digits, a dash, two digits, a dash, two digits. *)
Definition date_shaped (m : string) : Prop := shaped date_pattern m.

(** The pattern that matches the text [w] and nothing else. *)
Fixpoint lits (w : string) : list char_class :=
  match w with
  | "" => []
  | String c w' => Lit c :: lits w'
  end.

(** Whether a match or a search has a result. *)
Definition found {A} (o : option A) : bool :=
  match o with Some _ => true | None => false end.

(** No character a class of the pattern accepts is white space. *)
Definition space_free (pat : list char_class) : Prop :=
  Forall (λ k, ∀ c, class_ok k c = true → is_space c = false) pat.

(** The null markers as the specification words them: compared without
    regard to letter case, with the compound marker. *)
Definition null_marker_ci (v : pyval) : bool :=
  match v with
  | VStr s => in_list (lower s) ["null"; "nul"; "null,nul"]
  | _ => false
  end.

(** A variant matches a header "in either direction". *)
Definition either_direction (col : string) (entry : string * string) : bool :=
  contains entry.1 col || contains col entry.1.

(** A word that breaks the conjunction rule: its lowercased form is a
    listed conjunction and it starts with a capital. *)
Definition offending (word : string) : bool :=
  in_list (lower word) conjunctions
  && match word with
     | String c _ => is_upper c
     | "" => false
     end.

(** The statuses the validator holds against a URL. *)
Definition broken_status (n : Z) : bool :=
  bool_decide (n ∈ [404; 410; 500; 502; 503; 504]%Z).

(** The outcomes of a probe after which the code reports the URL. *)
Definition flagged (o : head_outcome) : bool :=
  match o with
  | Response n => broken_status n
  | Timeout | ConnectionError => true
  | RequestException e => negb (contains "403" e) && negb (contains "401" e)
  | OtherError _ => false
  end.

(** The outcomes the specification lists: a broken status, a timeout, a
    failure to connect. *)
Definition flagged_as_listed (o : head_outcome) : bool :=
  match o with
  | Response n => broken_status n
  | Timeout | ConnectionError => true
  | RequestException _ => false
  | OtherError _ => false
  end.

(** The outcomes of a probe the validator handles: an answer, or a request
    exception. *)
Definition handled (o : head_outcome) : bool :=
  match o with
  | OtherError _ => false
  | _ => true
  end.

(** A world in which no probe raises past the validator. *)
Definition probes_handled (w : web) : Prop :=
  ∀ url, handled (requests_head w url) = true.

(** A world in which every URL parses as an ftp address and the probe
    fails for want of a connection adapter. *)
Definition web_ftp : web :=
  Web (λ _, Ok ("ftp", "example.com"))
      (λ _, RequestException "No connection adapters were found").

(** A world in which every URL parses and the page of one URL is gone. *)
Definition web_gone : web :=
  Web (λ _, Ok ("https", "example.com"))
      (λ url, if bool_decide (url = "https://example.com/old")
              then Response 404 else Response 200).

(** The columns [validate_all_fields] looks at, in the order of its
    blocks. *)
Definition validated_columns : list string :=
  ["Institution Id"; "Course Id"; "Course Name"; "L3 Tagging";
   "Degree Type"; "Course Type"; "Course start date"; "Course Level URL";
   "Course Intake Ids"; "Show"; "Course Status"; "Study Mode"].

(** What the block of column [col] adds for row [row_index]: nothing, or
    one record of that row and column; the tag Unique is used by the
    Course Id block only. *)
Definition block_output (row_index : nat) (col : string)
    (added : list error_record) : Prop :=
  added = []
  ∨ ∃ t m x, added = [ErrorRecord (row_index + 1) col t m x]
             ∧ (t = "Unique" → col = "Course Id").



(** Two rows share the Course Id "abc", which is no number. *)
Definition frame_text_ids : DataFrame :=
  Frame ["Course Id"; "Course Name"]
    [{["Course Id" := VStr "abc"; "Course Name" := VStr "Data Science"]};
     {["Course Id" := VStr "abc"; "Course Name" := VStr "Law"]};
     {["Course Id" := VStr "7"; "Course Name" := VStr "History of Art"]}].


(** The categories the block of a column tags its record with. *)
Definition categories (col : string) : list string :=
  if bool_decide (col = "Institution Id") then ["Numeric"]
  else if bool_decide (col = "Course Id") then ["Numeric"; "Unique"]
  else if bool_decide (col = "Course Name") then ["Capitalization"]
  else if bool_decide (col ∈ ["L3 Tagging"; "Degree Type"; "Course Type"])
  then ["Blank"]
  else if bool_decide (col = "Course start date") then ["Date"]
  else if bool_decide (col = "Course Level URL") then ["URL"]
  else if bool_decide (col = "Course Intake Ids") then ["Count"]
  else if bool_decide (col ∈ ["Show"; "Course Status"; "Study Mode"])
  then ["Status"]
  else [].

(** A record as the blocks build it for this row: the row number, a
    category of its column, and the text of the cell it reports. *)
Definition record_ok (row : gmap string pyval) (row_index : nat)
    (r : error_record) : Prop :=
  e_row r = row_index + 1
  ∧ e_error_type r ∈ categories (e_column r)
  ∧ ∃ v, row !! e_column r = Some v ∧ e_value r = str v.

(** Every character of the text satisfies the test. *)
Fixpoint all_chars (P : ascii → bool) (s : string) : bool :=
  match s with
  | "" => true
  | String c s' => P c && all_chars P s'
  end.

(** The text is a date [strptime] accepts. *)
Definition parses (date : string) : bool := returns (strptime_ymd date).

(** The trimmed pieces of the trimmed text between its commas. *)
Definition pieces (v : pyval) : list string :=
  map strip (split_on "," (strip (str v))).

(** Two lists of rows have the same length and, row for row, the same
    cell in column [c]. *)
Definition agree_on (c : string) (l l' : list (gmap string pyval)) : Prop :=
  length l' = length l
  ∧ ∀ i row, l !! i = Some row →
             ∃ row', l' !! i = Some row' ∧ row' !! c = row !! c.

End Spec.

(** * Properties *)

Import Py Validators IoFile Main Report App Progress Spec.

(** ** The built-ins on sample texts *)

Example float_literal_samples :
  map float_literal
    ["12"; " 3.5e-2 "; "1_000"; ".5"; "1."; "-INF"; "nan";
     "abc"; ""; "1__0"; "1e"; "."; "12a"; "0x1F"]
  = [true; true; true; true; true; true; true;
     false; false; false; false; false; false; false].
Proof. reflexivity. Qed.

Example strptime_ymd_samples :
  map strptime_ymd
    ["2024-09-01"; "2024-9-1"; "2024-02-29"; "2023-02-29"; "2024/09/01";
     "2024-09-015720"; "0000-01-01"; "2024-13-01"]
  = [Ok (2024, 9, 1); Ok (2024, 9, 1); Ok (2024, 2, 29); Raise ValueError;
     Raise ValueError; Raise ValueError; Raise ValueError; Raise ValueError].
Proof. reflexivity. Qed.

Example split_samples :
  split_on "," "a,,b," = ["a"; ""; "b"; ""]
  ∧ split_on "," "" = [""]
  ∧ split_ws "  Master of   Arts " = ["Master"; "of"; "Arts"]
  ∧ strip "  a b  " = "a b"
  ∧ components " 1, ,2 ,," = ["1"; "2"].
Proof. repeat split. Qed.

(** The compound cell of the specification's example is split into the
    URL, the status and the visibility. *)
Example clean_data_compound_url :
  rows (clean_data
          (Frame ["Course Level URL"]
             [{["Course Level URL" := VStr "https://example.com/x,OpenYes"]}]))
  = [{["Course Level URL" := VStr "https://example.com/x";
       "Course Status" := VStr "Open"; "Show" := VStr "Yes"]}].
Proof. vm_compute. reflexivity. Qed.

(** ** White space, case and stripping *)

Lemma is_space_to_lower (c : ascii) : is_space (to_lower c) = is_space c.
Proof. destruct c as [[] [] [] [] [] [] [] []]; reflexivity. Qed.

Lemma rstrip_cons (c : ascii) (s : string) :
  rstrip (String c s) =
  if bool_decide (rstrip s = "") && is_space c then ""
  else String c (rstrip s).
Proof.
  simpl. destruct (rstrip s) as [|a r]; simpl.
  - destruct (is_space c); reflexivity.
  - reflexivity.
Qed.

Lemma rstrip_cons_nonspace (c : ascii) (s : string) :
  is_space c = false → rstrip (String c s) = String c (rstrip s).
Proof.
  intros Hc. rewrite rstrip_cons, Hc, andb_false_r. reflexivity.
Qed.

Lemma rstrip_idemp (s : string) : rstrip (rstrip s) = rstrip s.
Proof.
  induction s as [|c s IH]; [reflexivity|].
  rewrite rstrip_cons.
  destruct (bool_decide (rstrip s = "") && is_space c) eqn:E; [reflexivity|].
  rewrite rstrip_cons, IH, E. reflexivity.
Qed.

Lemma lstrip_head (s : string) :
  match lstrip s with
  | "" => True
  | String c _ => is_space c = false
  end.
Proof.
  induction s as [|c s IH]; simpl; [exact I|].
  destruct (is_space c) eqn:E; [exact IH|exact E].
Qed.

Lemma lstrip_fixed (c : ascii) (s : string) :
  is_space c = false → lstrip (String c s) = String c s.
Proof. intros Hc. simpl. rewrite Hc. reflexivity. Qed.

Lemma strip_idemp (s : string) : strip (strip s) = strip s.
Proof.
  unfold strip. pose proof (lstrip_head s) as H.
  destruct (lstrip s) as [|c t]; [reflexivity|].
  rewrite (rstrip_cons_nonspace c t H), (lstrip_fixed c _ H).
  rewrite <- (rstrip_cons_nonspace c t H). apply rstrip_idemp.
Qed.

Lemma lower_eq_empty (s : string) : lower s = "" ↔ s = "".
Proof. destruct s; simpl; split; congruence. Qed.

Lemma lower_lstrip (s : string) : lower (lstrip s) = lstrip (lower s).
Proof.
  induction s as [|c s IH]; [reflexivity|].
  simpl. rewrite is_space_to_lower.
  destruct (is_space c); [exact IH|reflexivity].
Qed.

Lemma lower_rstrip (s : string) : lower (rstrip s) = rstrip (lower s).
Proof.
  induction s as [|c s IH]; [reflexivity|].
  change (lower (String c s)) with (String (to_lower c) (lower s)).
  rewrite !rstrip_cons, is_space_to_lower, <- IH.
  rewrite (bool_decide_ext _ _ (lower_eq_empty (rstrip s))).
  destruct (bool_decide (rstrip s = "") && is_space c); reflexivity.
Qed.

Lemma lower_strip (s : string) : lower (strip s) = strip (lower s).
Proof. unfold strip. rewrite lower_rstrip, lower_lstrip. reflexivity. Qed.

(** ** Matching a pattern and searching for it *)

Lemma string_app_nil_r (s : string) : s +:+ "" = s.
Proof.
  induction s as [|c s IH]; [reflexivity|].
  unfold String.app in *. simpl. rewrite IH. reflexivity.
Qed.

Lemma string_app_cons (c : ascii) (s t : string) :
  String c s +:+ t = String c (s +:+ t).
Proof. reflexivity. Qed.

Lemma string_app_inv_length (p p' x x' : string) :
  String.length p = String.length p' → p +:+ x = p' +:+ x' → p = p' ∧ x = x'.
Proof.
  revert p'. induction p as [|c p IH]; intros [|c' p'] Hl He; simpl in Hl;
    try discriminate.
  - split; [reflexivity|exact He].
  - rewrite !string_app_cons in He. injection He as -> He.
    destruct (IH p') as [-> ->]; [lia|exact He|]. split; reflexivity.
Qed.

Lemma shaped_length (pat : list char_class) (m : string) :
  shaped pat m → String.length m = length pat.
Proof.
  revert m. induction pat as [|k pat IH]; intros [|c m] H; simpl in *;
    try contradiction; [reflexivity|].
  destruct H as [_ H]. rewrite (IH m H). reflexivity.
Qed.

Lemma match_at_sound (pat : list char_class) (s m : string) :
  match_at pat s = Some m → shaped pat m ∧ ∃ r, s = m +:+ r.
Proof.
  revert s m. induction pat as [|k pat IH]; intros s m H; simpl in H.
  - injection H as <-. split; [exact I|]. exists s. reflexivity.
  - destruct s as [|c s]; [discriminate|].
    destruct (class_ok k c) eqn:Hk; [|discriminate].
    destruct (match_at pat s) as [m'|] eqn:Hm; [|discriminate].
    injection H as <-. destruct (IH s m' Hm) as [Hs [r ->]].
    split; [split; assumption|]. exists r. reflexivity.
Qed.

Lemma match_at_complete (pat : list char_class) (m r : string) :
  shaped pat m → match_at pat (m +:+ r) = Some m.
Proof.
  revert m. induction pat as [|k pat IH]; intros [|c m] H; simpl in H;
    try contradiction.
  - reflexivity.
  - destruct H as [Hk H]. rewrite string_app_cons. simpl.
    rewrite Hk, (IH m H). reflexivity.
Qed.

Lemma re_search_None (pat : list char_class) (s : string) :
  re_search pat s = None ↔ ∀ p m r, s = p +:+ m +:+ r → ¬ shaped pat m.
Proof.
  split.
  - induction s as [|c s IH]; intros H p m r He Hm.
    + destruct p; [|discriminate]. change ("" +:+ m +:+ r) with (m +:+ r) in He.
      simpl in H. rewrite He, (match_at_complete pat m r Hm) in H. discriminate.
    + simpl in H. destruct (match_at pat (String c s)) eqn:Ha; [discriminate|].
      destruct p as [|c' p].
      * change ("" +:+ m +:+ r) with (m +:+ r) in He.
        rewrite He, (match_at_complete pat m r Hm) in Ha. discriminate.
      * rewrite string_app_cons in He. injection He as _ He.
        exact (IH H p m r He Hm).
  - induction s as [|c s IH]; intros H; simpl.
    + destruct (match_at pat "") as [m|] eqn:Ha; [|reflexivity].
      destruct (match_at_sound _ _ _ Ha) as [Hm [r Hr]].
      exfalso. exact (H "" m r Hr Hm).
    + destruct (match_at pat (String c s)) as [m|] eqn:Ha.
      * destruct (match_at_sound _ _ _ Ha) as [Hm [r Hr]].
        exfalso. exact (H "" m r Hr Hm).
      * apply IH. intros p m r He. apply (H (String c p) m r).
        rewrite string_app_cons, He. reflexivity.
Qed.

Lemma re_search_Some (pat : list char_class) (s m : string) :
  re_search pat s = Some m →
  ∃ p r, s = p +:+ m +:+ r ∧ shaped pat m ∧
    ∀ p' m' r', s = p' +:+ m' +:+ r' → shaped pat m' →
      String.length p ≤ String.length p'.
Proof.
  revert m. induction s as [|c s IH]; intros m H; simpl in H.
  - destruct (match_at pat "") as [m0|] eqn:Ha; [|discriminate].
    injection H as ->. destruct (match_at_sound _ _ _ Ha) as [Hm [r Hr]].
    exists "", r. split; [exact Hr|]. split; [exact Hm|]. intros; simpl; lia.
  - destruct (match_at pat (String c s)) as [m0|] eqn:Ha.
    + injection H as ->. destruct (match_at_sound _ _ _ Ha) as [Hm [r Hr]].
      exists "", r. split; [exact Hr|]. split; [exact Hm|]. intros; simpl; lia.
    + destruct (IH m H) as (p & r & He & Hm & Hmin).
      exists (String c p), r. split; [rewrite string_app_cons, He; reflexivity|].
      split; [exact Hm|]. intros [|c' p'] m' r' He' Hm'.
      * change ("" +:+ m' +:+ r') with (m' +:+ r') in He'.
        rewrite He', (match_at_complete pat m' r' Hm') in Ha. discriminate.
      * rewrite string_app_cons in He'. injection He' as _ He'.
        specialize (Hmin p' m' r' He' Hm'). simpl. lia.
Qed.

(** The search returns the leftmost text of the pattern, and only it. *)
Lemma re_search_first (pat : list char_class) (s p m r : string) :
  s = p +:+ m +:+ r → shaped pat m →
  (∀ p' m' r', s = p' +:+ m' +:+ r' → shaped pat m' →
     String.length p ≤ String.length p') →
  re_search pat s = Some m.
Proof.
  intros He Hm Hmin. destruct (re_search pat s) as [m0|] eqn:Hs.
  - destruct (re_search_Some _ _ _ Hs) as (p0 & r0 & He0 & Hm0 & Hmin0).
    pose proof (Hmin p0 m0 r0 He0 Hm0) as H1.
    pose proof (Hmin0 p m r He Hm) as H2.
    assert (String.length p = String.length p0) as Hl by lia.
    rewrite He in He0.
    destruct (string_app_inv_length _ _ _ _ Hl He0) as [_ He1].
    assert (String.length m = String.length m0) as Hl'.
    { rewrite (shaped_length _ _ Hm), (shaped_length _ _ Hm0). reflexivity. }
    destruct (string_app_inv_length _ _ _ _ Hl' He1) as [-> _]. reflexivity.
  - exfalso. exact (proj1 (re_search_None pat s) Hs p m r He Hm).
Qed.

(** White space around the text plays no part in the search. *)
Lemma match_at_rstrip (pat : list char_class) (s : string) :
  space_free pat → match_at pat (rstrip s) = match_at pat s.
Proof.
  revert pat. induction s as [|c s IH]; intros pat Hp; [reflexivity|].
  destruct pat as [|k pat]; [reflexivity|].
  apply Forall_cons in Hp as [Hk Hp].
  destruct (class_ok k c) eqn:Hc.
  - rewrite (rstrip_cons_nonspace c s (Hk c Hc)). simpl.
    rewrite Hc, (IH pat Hp). reflexivity.
  - rewrite rstrip_cons.
    destruct (bool_decide (rstrip s = "") && is_space c); simpl;
      rewrite ?Hc; reflexivity.
Qed.

Lemma re_search_rstrip (pat : list char_class) (s : string) :
  pat ≠ [] → space_free pat → re_search pat (rstrip s) = re_search pat s.
Proof.
  intros Hne Hp. induction s as [|c s IH]; [reflexivity|].
  pose proof (match_at_rstrip pat (String c s) Hp) as Hm.
  rewrite rstrip_cons in *.
  destruct (bool_decide (rstrip s = "") && is_space c) eqn:E.
  - apply andb_true_iff in E as [E1 E2]. apply bool_decide_eq_true in E1.
    rewrite E1 in IH. simpl. simpl in Hm. rewrite <- Hm, <- IH.
    destruct pat; [contradiction|]. reflexivity.
  - simpl. simpl in Hm. rewrite Hm, IH. reflexivity.
Qed.

Lemma re_search_lstrip (pat : list char_class) (s : string) :
  pat ≠ [] → space_free pat → re_search pat (lstrip s) = re_search pat s.
Proof.
  intros Hne Hp. induction s as [|c s IH]; [reflexivity|].
  simpl lstrip. destruct (is_space c) eqn:Hc; [|reflexivity].
  rewrite IH. destruct pat as [|k pat]; [contradiction|].
  apply Forall_cons in Hp as [Hk _]. simpl.
  destruct (class_ok k c) eqn:Hkc; [|reflexivity].
  rewrite (Hk c Hkc) in Hc. discriminate.
Qed.

Lemma re_search_strip (pat : list char_class) (s : string) :
  pat ≠ [] → space_free pat → re_search pat (strip s) = re_search pat s.
Proof.
  intros Hne Hp. unfold strip.
  rewrite (re_search_rstrip _ _ Hne Hp). apply (re_search_lstrip _ _ Hne Hp).
Qed.

(** [startswith] and [in] are a match of, and a search for, a literal. *)
Lemma startswith_match_at (s w : string) :
  startswith s w = found (match_at (lits w) s).
Proof.
  revert s. induction w as [|a w IH]; intros s; [destruct s; reflexivity|].
  destruct s as [|c s]; [reflexivity|]. simpl.
  destruct (ascii_eqb a c); simpl; [|reflexivity].
  rewrite IH. destruct (match_at (lits w) s); reflexivity.
Qed.

Lemma contains_re_search (w s : string) :
  contains w s = found (re_search (lits w) s).
Proof.
  induction s as [|c s IH].
  - change (contains w "") with (startswith "" w || false).
    rewrite startswith_match_at. simpl.
    destruct (match_at (lits w) ""); reflexivity.
  - change (contains w (String c s))
      with (startswith (String c s) w || contains w s).
    change (re_search (lits w) (String c s))
      with (match match_at (lits w) (String c s) with
            | Some m => Some m
            | None => re_search (lits w) s
            end).
    rewrite startswith_match_at, IH.
    destruct (match_at (lits w) (String c s)); reflexivity.
Qed.

Lemma contains_strip (w s : string) :
  w ≠ "" → space_free (lits w) → contains w (strip s) = contains w s.
Proof.
  intros Hw Hp. rewrite !contains_re_search, re_search_strip; [reflexivity| |exact Hp].
  destruct w; [contradiction|discriminate].
Qed.

Lemma startswith_contains (s w : string) :
  startswith s w = true → contains w s = true.
Proof.
  intros H. destruct s as [|c s].
  - change (startswith "" w || false = true). rewrite H. reflexivity.
  - change (startswith (String c s) w || contains w s = true).
    rewrite H. reflexivity.
Qed.

Ltac space_free_lits :=
  repeat constructor; intros c Hc; apply bool_decide_eq_true in Hc;
  subst; reflexivity.

Lemma space_free_full : space_free (lits "full").
Proof. space_free_lits. Qed.

Lemma space_free_part : space_free (lits "part").
Proof. space_free_lits. Qed.

Lemma space_free_date : space_free date_pattern.
Proof.
  repeat constructor; intros c Hc;
    solve [ apply bool_decide_eq_true in Hc; subst; reflexivity
          | destruct c as [[] [] [] [] [] [] [] []]; try discriminate Hc;
            reflexivity ].
Qed.

(** ** The study-mode cleaner *)

Lemma normalize_study_mode_text (v : pyval) :
  isna v = false →
  _normalize_study_mode v =
  if contains "full" (lower (str v)) then "Full time"
  else if contains "part" (lower (str v)) then "Part time"
  else strip (str v).
Proof.
  intros Hv. unfold _normalize_study_mode. rewrite Hv.
  destruct (is_empty_str v) eqn:He.
  - destruct v as [|[|]|]; try discriminate. reflexivity.
  - simpl. rewrite lower_strip, !contains_strip;
      [reflexivity|discriminate|exact space_free_part
      |discriminate|exact space_free_full].
Qed.

(** C10: a study mode whose lowercased text holds both "full" and "part"
    is cleaned to "Full time", and cleaning a cleaned value changes
    nothing. *)
Theorem normalize_study_mode_full_first_idempotent :
  (∀ v : pyval,
     contains "full" (lower (str v)) = true →
     contains "part" (lower (str v)) = true →
     _normalize_study_mode v = "Full time")
  ∧ (∀ v : pyval,
       _normalize_study_mode (VStr (_normalize_study_mode v))
       = _normalize_study_mode v).
Proof.
  split.
  - intros v Hf Hp.
    assert (isna v = false) as Hv by (destruct v; [discriminate Hf|done..]).
    rewrite (normalize_study_mode_text v Hv), Hf. reflexivity.
  - intros v. destruct (isna v) eqn:Hv; [destruct v; try discriminate; reflexivity|].
    rewrite (normalize_study_mode_text v Hv).
    destruct (contains "full" (lower (str v))) eqn:Hf; [reflexivity|].
    destruct (contains "part" (lower (str v))) eqn:Hp; [reflexivity|].
    rewrite (normalize_study_mode_text (VStr _) eq_refl). simpl str.
    rewrite strip_idemp, lower_strip, !contains_strip, Hf, Hp;
      [reflexivity|discriminate|exact space_free_part
      |discriminate|exact space_free_full].
Qed.

Lemma normalize_study_mode_full_first_witness :
  _normalize_study_mode (VStr " Part-time or FULL time ") = "Full time".
Proof.
  apply (proj1 normalize_study_mode_full_first_idempotent
           (VStr " Part-time or FULL time ")); reflexivity.
Defined.

(** ** The date cleaner *)

Lemma clean_date_format_search (s : string) :
  _clean_date_format (VStr s) =
  match re_search date_pattern s with
  | Some date_match => date_match
  | None => strip s
  end.
Proof.
  unfold _clean_date_format. simpl isna. simpl str.
  destruct s as [|c s]; [reflexivity|]. simpl is_empty_str. simpl orb.
  cbv iota. rewrite re_search_strip; [reflexivity|discriminate|].
  exact space_free_date.
Qed.

(** C5, as the code has it: the cleaner returns the leftmost text of the
    form dddd-dd-dd when the raw text holds one; when it holds none, it
    returns the raw text with the white space around it removed.
    "2024-09-015720" becomes "2024-09-01"; "2024/09/01" stays and the date
    validator refuses it. *)
Theorem clean_date_format_first_date (s : string) :
  (∀ p m r : string,
     s = p +:+ m +:+ r → date_shaped m →
     (∀ p' m' r' : string, s = p' +:+ m' +:+ r' → date_shaped m' →
        String.length p ≤ String.length p') →
     _clean_date_format (VStr s) = m)
  ∧ ((∀ p m r : string, s = p +:+ m +:+ r → ¬ date_shaped m) →
     _clean_date_format (VStr s) = strip s)
  ∧ _clean_date_format (VStr "2024-09-015720") = "2024-09-01"
  ∧ _clean_date_format (VStr "2024/09/01") = "2024/09/01"
  ∧ validate_course_start_date (VStr "2024/09/01")
    = Ok (Verdict false "Invalid date format: 2024/09/01. Must be YYYY-MM-DD").
Proof.
  split; [|split; [|split; [|split]]]; try reflexivity.
  - intros p m r He Hm Hmin. rewrite clean_date_format_search.
    rewrite (re_search_first date_pattern s p m r He Hm Hmin). reflexivity.
  - intros Hnone. rewrite clean_date_format_search.
    rewrite (proj2 (re_search_None date_pattern s) Hnone). reflexivity.
Qed.

Lemma clean_date_format_first_date_witness :
  _clean_date_format (VStr "2024-09-015720 ") = "2024-09-01".
Proof.
  apply (proj1 (clean_date_format_first_date "2024-09-015720 ")
           "" "2024-09-01" "5720 ").
  - reflexivity.
  - repeat split.
  - intros p' m' r' _ _. simpl. lia.
Defined.

(** C5, as the specification words it, fails: a text without a date but
    with white space around it does not come back unchanged. *)
Lemma clean_date_format_not_unchanged :
  (∀ p m r : string, "2024/09/01 " = p +:+ m +:+ r → ¬ date_shaped m)
  ∧ _clean_date_format (VStr "2024/09/01 ") ≠ "2024/09/01 ".
Proof.
  split.
  - apply (re_search_None date_pattern). reflexivity.
  - discriminate.
Qed.

(** ** Null markers *)

(** C4, as the code has it: a cell becomes the empty text exactly when its
    value is one of the four literal markers NULL, NUL, null, nul; every
    other cell keeps its value, and the columns stay. *)
Theorem replace_nulls_exact_markers (df : DataFrame) (i : nat)
    (row : gmap string pyval) (c : string) (v : pyval) :
  rows df !! i = Some row → row !! c = Some v →
  columns (replace_nulls df) = columns df
  ∧ ∃ row' v', rows (replace_nulls df) !! i = Some row'
      ∧ row' !! c = Some v'
      ∧ (v ∈ [VStr "NULL"; VStr "NUL"; VStr "null"; VStr "nul"] → v' = VStr "")
      ∧ (v ∉ [VStr "NULL"; VStr "NUL"; VStr "null"; VStr "nul"] → v' = v).
Proof.
  intros Hrow Hv. split; [reflexivity|].
  exists (replace_cell <$> row), (replace_cell v). split; [|split; [|split]].
  - unfold replace_nulls. simpl. rewrite list_lookup_fmap, Hrow. reflexivity.
  - rewrite lookup_fmap, Hv. reflexivity.
  - intros Hin. unfold replace_cell, null_markers.
    rewrite bool_decide_eq_true_2; [reflexivity|exact Hin].
  - intros Hnin. unfold replace_cell, null_markers.
    rewrite bool_decide_eq_false_2; [reflexivity|exact Hnin].
Qed.

Lemma replace_nulls_exact_markers_witness :
  ∃ row' v',
    rows (replace_nulls
            (Frame ["Show"; "Study Mode"]
               [{["Show" := VStr "nul"; "Study Mode" := VStr "Null"]}]))
      !! 0 = Some row'
    ∧ row' !! "Show" = Some v'
    ∧ (VStr "nul" ∈ [VStr "NULL"; VStr "NUL"; VStr "null"; VStr "nul"]
       → v' = VStr "")
    ∧ (VStr "nul" ∉ [VStr "NULL"; VStr "NUL"; VStr "null"; VStr "nul"]
       → v' = VStr "nul").
Proof.
  apply (replace_nulls_exact_markers
           (Frame ["Show"; "Study Mode"]
              [{["Show" := VStr "nul"; "Study Mode" := VStr "Null"]}])
           0 {["Show" := VStr "nul"; "Study Mode" := VStr "Null"]}
           "Show" (VStr "nul")).
  - reflexivity.
  - reflexivity.
Defined.

(** C4, as the specification words it, fails: a marker in another letter
    case and the compound marker are left as they are. *)
Lemma replace_nulls_case_sensitive :
  null_marker_ci (VStr "Null") = true
  ∧ replace_cell (VStr "Null") = VStr "Null"
  ∧ null_marker_ci (VStr "NULL,NUL") = true
  ∧ replace_cell (VStr "NULL,NUL") = VStr "NULL,NUL".
Proof. repeat split. Qed.

(** ** The column normaliser *)

Lemma find_variation_contains (col : string) (vs : list (string * string)) :
  find_variation col vs =
  match vs with
  | [] => None
  | (variation, expected) :: rest =>
      if contains variation col then Some expected
      else find_variation col rest
  end.
Proof.
  destruct vs as [|[variation expected] rest]; [reflexivity|]. simpl.
  destruct (startswith col variation) eqn:Hs; [|reflexivity].
  rewrite (startswith_contains _ _ Hs). reflexivity.
Qed.

Lemma find_variation_first (col : string) (vs : list (string * string))
    (i : nat) (variation expected : string) :
  vs !! i = Some (variation, expected) →
  contains variation col = true →
  (∀ j v e, j < i → vs !! j = Some (v, e) → contains v col = false) →
  find_variation col vs = Some expected.
Proof.
  revert i. induction vs as [|[v0 e0] rest IH]; intros i Hi Hc Hbefore.
  - discriminate.
  - rewrite find_variation_contains. destruct i as [|i].
    + injection Hi as -> ->. rewrite Hc. reflexivity.
    + rewrite (Hbefore 0 v0 e0); [|lia|reflexivity].
      apply (IH i); [exact Hi|exact Hc|].
      intros j v e Hj Hl. apply (Hbefore (S j) v e); [lia|exact Hl].
Qed.

Lemma find_variation_none (col : string) (vs : list (string * string)) :
  (∀ v e, (v, e) ∈ vs → contains v col = false) →
  find_variation col vs = None.
Proof.
  induction vs as [|[v0 e0] rest IH]; intros H; [reflexivity|].
  rewrite find_variation_contains, (H v0 e0); [|left].
  apply IH. intros v e Hin. apply (H v e). right. exact Hin.
Qed.

Lemma find_variation_elem (col : string) (vs : list (string * string))
    (e : string) :
  find_variation col vs = Some e → ∃ v, (v, e) ∈ vs.
Proof.
  induction vs as [|[v0 e0] rest IH]; [discriminate|].
  rewrite find_variation_contains.
  destruct (contains v0 col).
  - intros [= <-]. exists v0. left.
  - intros H. destruct (IH H) as [v Hv]. exists v. right. exact Hv.
Qed.

Lemma normalize_column_names_lookup (cols : list string) (col : string) :
  col ∈ cols → normalize_column_names cols !! col = Some (normalize_column col).
Proof.
  unfold normalize_column_names.
  assert (∀ acc : gmap string string,
            foldl (λ m c, <[c := normalize_column c]> m) acc cols !! col
            = if bool_decide (col ∈ cols) then Some (normalize_column col)
              else acc !! col) as H.
  { induction cols as [|c cs IH]; intros acc; [reflexivity|].
    simpl. rewrite IH. destruct (decide (col ∈ cs)) as [Hin|Hnin].
    - rewrite !bool_decide_eq_true_2; [reflexivity|right; exact Hin|exact Hin].
    - rewrite (bool_decide_eq_false_2 _ Hnin).
      destruct (decide (col = c)) as [->|Hne].
      + rewrite lookup_insert_eq, bool_decide_eq_true_2; [reflexivity|left].
      + rewrite lookup_insert_ne by congruence.
        rewrite bool_decide_eq_false_2; [reflexivity|].
        intros Hin. apply elem_of_cons in Hin as [?|?]; contradiction. }
  intros Hin. rewrite H, bool_decide_eq_true_2; [reflexivity|exact Hin].
Qed.

(** C8, as the code has it: a header that is a canonical name is mapped to
    itself; otherwise the variants are tried in the order of the table, a
    variant matching when it occurs in the header (at its start or
    anywhere), and the first one that matches gives the canonical name; a
    header no variant occurs in is mapped to itself. *)
Theorem normalize_column_names_first_variant (cols : list string)
    (col : string) :
  col ∈ cols →
  ∃ target : string,
    normalize_column_names cols !! col = Some target
    ∧ (col ∈ expected_columns → target = col)
    ∧ (col ∉ expected_columns →
       ∀ (i : nat) (variation expected : string),
         variations !! i = Some (variation, expected) →
         contains variation col = true →
         (∀ j v e, j < i → variations !! j = Some (v, e) →
                   contains v col = false) →
         target = expected)
    ∧ (col ∉ expected_columns →
       (∀ v e, (v, e) ∈ variations → contains v col = false) →
       target = col).
Proof.
  intros Hin. exists (normalize_column col).
  split; [exact (normalize_column_names_lookup cols col Hin)|].
  unfold normalize_column, in_list. split; [|split].
  - intros He. rewrite bool_decide_eq_true_2; [reflexivity|exact He].
  - intros He i variation expected Hi Hc Hbefore.
    rewrite (bool_decide_eq_false_2 _ He).
    rewrite (find_variation_first col variations i variation expected
               Hi Hc Hbefore).
    assert (expected ≠ "") as Hne.
    { apply list_elem_of_lookup_2 in Hi. revert Hi. unfold variations.
      rewrite !elem_of_cons, elem_of_nil.
      intros H; repeat destruct H as [H|H]; try contradiction;
        injection H as _ ->; discriminate. }
    rewrite (bool_decide_eq_false_2 _ Hne). reflexivity.
  - intros He Hnone. rewrite (bool_decide_eq_false_2 _ He).
    rewrite (find_variation_none col variations Hnone). reflexivity.
Qed.

Lemma normalize_column_names_first_variant_witness :
  ∃ target : string,
    normalize_column_names ["Institutio"; "Course I"] !! "Institutio"
    = Some target
    ∧ target = "Institution Id".
Proof.
  destruct (normalize_column_names_first_variant
              ["Institutio"; "Course I"] "Institutio")
    as (target & Hl & _ & Hv & _).
  - left.
  - exists target. split; [exact Hl|].
    assert ("Institutio" ∉ expected_columns) as Hne by compute_done.
    apply (Hv Hne 0 "Instituti" "Institution Id").
    + reflexivity.
    + reflexivity.
    + intros j v e Hj. lia.
Defined.

(** C8, as the specification words it, fails: the header "Study" occurs in
    the variant "Study M", no variant occurs in it, and it is mapped to
    itself, not to "Study Mode". *)
Lemma normalize_column_names_one_direction :
("Study" ∉ expected_columns)
  ∧ (List.find (either_direction "Study") variations
     = Some ("Study M", "Study Mode"))
  ∧ normalize_column_names ["Study"] !! "Study" = Some "Study".
Proof.
  split; [|split].
  - compute_done.
  - reflexivity.
  - rewrite normalize_column_names_lookup; [reflexivity|left].
Qed.

(** ** The course-name validator *)



Lemma conjunction_loop_skip_first (words : list string) :
  conjunction_loop 0 words = conjunction_loop 1 (tail words).
Proof. destruct words; reflexivity. Qed.

Lemma conjunction_loop_step (i : nat) (word : string) (rest : list string) :
  conjunction_loop (S i) (word :: rest) =
  if offending word then
    Ok (Verdict false
          ("Conjunction " +:+ dquote +:+ word +:+ dquote
           +:+ " should be lowercase"))
  else conjunction_loop (S (S i)) rest.
Proof.
  unfold offending. simpl.
  destruct (in_list (lower word) conjunctions) eqn:Hc; [|reflexivity].
  destruct word as [|c word]; [discriminate Hc|]. simpl.
  destruct (is_upper c); reflexivity.
Qed.

Lemma conjunction_loop_clean (i : nat) (words : list string) :
  Forall (λ word, offending word = false) words →
  conjunction_loop (S i) words = Ok (Verdict true "Valid course name").
Proof.
  revert i. induction words as [|word rest IH]; intros i H; [reflexivity|].
  apply Forall_cons in H as [Hw H].
  rewrite conjunction_loop_step, Hw. apply IH, H.
Qed.

Lemma conjunction_loop_first (i : nat) (before : list string) (word : string)
    (after : list string) :
  Forall (λ x, offending x = false) before → offending word = true →
  conjunction_loop (S i) (before ++ word :: after)
  = Ok (Verdict false
          ("Conjunction " +:+ dquote +:+ word +:+ dquote
           +:+ " should be lowercase")).
Proof.
  revert i. induction before as [|x before IH]; intros i H Hw.
  - simpl app. rewrite conjunction_loop_step, Hw. reflexivity.
  - apply Forall_cons in H as [Hx H]. simpl app.
    rewrite conjunction_loop_step, Hx. apply IH; assumption.
Qed.

(** C6, as the code has it: for a course name that is not blank, the first
    character of the name with the white space around it removed decides;
    when it is not a capital the name is invalid; when it is, the name is
    invalid exactly when a word after the first is a capitalised
    conjunction, and the first such word is named in the message. *)
Theorem validate_course_name_rule (v : pyval) (c : ascii) (rest : string) :
  isna v = false → strip (str v) = String c rest →
  (is_upper c = false →
   validate_course_name v
   = Ok (Verdict false "Course Name must start with capital letter"))
  ∧ (is_upper c = true →
     (Forall (λ word, offending word = false)
        (tail (split_ws (strip (str v)))) →
      validate_course_name v = Ok (Verdict true "Valid course name"))
     ∧ (∀ (before : list string) (word : string) (after : list string),
          tail (split_ws (strip (str v))) = before ++ word :: after →
          Forall (λ x, offending x = false) before →
          offending word = true →
          validate_course_name v
          = Ok (Verdict false
                  ("Conjunction " +:+ dquote +:+ word +:+ dquote
                   +:+ " should be lowercase"))))
  ∧ validate_course_name (VStr "computer science")
    = Ok (Verdict false "Course Name must start with capital letter")
  ∧ validate_course_name (VStr "Business And Management")
    = Ok (Verdict false
            ("Conjunction " +:+ dquote +:+ "And" +:+ dquote
             +:+ " should be lowercase"))
  ∧ validate_course_name (VStr "Engineering with Technology")
    = Ok (Verdict true "Valid course name").
Proof.
  intros Hna Hname.
  assert (is_empty_str v = false) as Hne.
  { destruct v as [|[|]|]; try reflexivity. discriminate Hname. }
  assert (validate_course_name v =
          if negb (is_upper c)
          then Ok (Verdict false "Course Name must start with capital letter")
          else conjunction_loop 1 (tail (split_ws (strip (str v))))) as Hv.
  { unfold validate_course_name. rewrite Hna, Hne. simpl orb. cbv iota.
    rewrite <- conjunction_loop_skip_first, Hname. reflexivity. }
  split; [|split; [|split; [|split]]]; try reflexivity.
  - intros Hc. rewrite Hv, Hc. reflexivity.
  - intros Hc. rewrite Hv, Hc. simpl negb. cbv iota. split.
    + apply conjunction_loop_clean.
    + intros before word after -> Hb Hw.
      apply conjunction_loop_first; assumption.
Qed.

Lemma validate_course_name_rule_witness :
  validate_course_name (VStr "  Master of Arts In Education ")
  = Ok (Verdict false
          ("Conjunction " +:+ dquote +:+ "In" +:+ dquote
           +:+ " should be lowercase")).
Proof.
  apply (proj2 (proj1 (proj2 (validate_course_name_rule
                                (VStr "  Master of Arts In Education ")
                                "M" "aster of Arts In Education"
                                eq_refl eq_refl))
                  eq_refl)
           ["of"; "Arts"] "In" ["Education"]).
  - reflexivity.
  - repeat constructor.
  - reflexivity.
Defined.

(** C6, as the specification words it, fails: the first character of
    " Computer science" is a blank, not a capital, and the name is
    valid. *)
Lemma validate_course_name_leading_blank :
  index0 " Computer science" = Ok " "%char
  ∧ is_upper " " = false
  ∧ validate_course_name (VStr " Computer science")
    = Ok (Verdict true "Valid course name").
Proof. repeat split. Qed.

(** C1: the course-name validator has no verdict for a text of blanks
    only; indexing the stripped, empty name raises. *)
Theorem validate_course_name_blank_text_raises :
  validate_course_name (VStr "   ") = Raise IndexError.
Proof. reflexivity. Qed.





(** ** The other validators always have a verdict *)

Lemma strptime_ymd_raises (s : string) (e : exn) :
  strptime_ymd s = Raise e → e = ValueError.
Proof.
  unfold strptime_ymd. repeat case_match; congruence.
Qed.


Lemma validate_course_id_returns (v : pyval) (all_course_ids : list pyval) :
  returns (validate_course_id v all_course_ids) = true.
Proof.
  unfold validate_course_id, float.
  destruct (isna v || is_empty_str v); [reflexivity|].
  destruct (float_literal (str v)); [|reflexivity].
  destruct (1 <? count v all_course_ids)%nat; reflexivity.
Qed.






Lemma url_step_returns (w : web) (errors : list string) (url : string) :
  handled (requests_head w (strip url)) = true →
  returns (url_step w errors url) = true.
Proof.
  intros H. unfold url_step. cbv zeta.
  destruct (requests_head w (strip url)); try discriminate H;
    repeat case_match; reflexivity.
Qed.

Lemma url_loop_returns (w : web) (urls : list string) :
  probes_handled w →
  ∀ errors, returns (url_loop w errors urls) = true.
Proof.
  intros Hw. induction urls as [|url urls IH]; intros errors; [reflexivity|].
  cbn [url_loop].
  pose proof (url_step_returns w errors url (Hw _)) as H.
  destruct (url_step w errors url) as [errors'|e]; [|discriminate H].
  exact (IH errors').
Qed.

Lemma validate_course_level_url_returns (w : web) (v : pyval) :
  probes_handled w →
  returns (validate_course_level_url w v) = true.
Proof.
  intros Hw. unfold validate_course_level_url.
  case_match; [reflexivity|]. cbv zeta.
  pose proof (url_loop_returns w (split_on "," (str v)) Hw []) as Hl.
  destruct (url_loop w [] (split_on "," (str v))) as [errors|e];
    [|discriminate Hl].
  simpl. case_match; reflexivity.
Qed.





(** ** The intake validator *)

(** C3: a blank intake field paired with a blank start date is reported
    valid: the blank test of this validator only knows the missing value,
    and no component on either side makes the counts agree. *)
Theorem validate_course_intake_ids_blank_texts_valid :
  validate_course_intake_ids (VStr "") (VStr "")
  = Ok (Verdict true "Valid course intake IDs")
  ∧ validate_course_intake_ids (VStr "  ") (VStr " ")
    = Ok (Verdict true "Valid course intake IDs").
Proof. split; reflexivity. Qed.

(** The example of the specification: three intakes against one date. *)
Example validate_course_intake_ids_three_against_one :
  validate_course_intake_ids (VStr "1,2,3") (VStr "2024-09-01")
  = Ok (Verdict false "Intake IDs count (3) must match start dates count (1)")
  ∧ validate_course_intake_ids (VStr "1, 2,1") (VStr "2024-09-01,2025-01-15,2025-09-01")
    = Ok (Verdict false "Course Intake IDs must be unique")
  ∧ validate_course_intake_ids VNaN (VStr "2024-09-01")
    = Ok (Verdict false
            "Course Intake IDs and Course start date cannot be blank").
Proof. repeat split. Qed.

Lemma split_on_no_sep (sep : ascii) (s : string) :
  contains (String sep "") s = false → split_on sep s = [s].
Proof.
  induction s as [|c s IH]; [reflexivity|].
  change (contains (String sep "") (String c s))
    with (startswith (String c s) (String sep "")
          || contains (String sep "") s).
  intros H. apply orb_false_iff in H as [Hc Hs].
  simpl in Hc.
  assert (startswith s "" = true) as Hnil by (destruct s; reflexivity).
  rewrite Hnil, andb_true_r in Hc.
  unfold ascii_eqb in Hc. apply bool_decide_eq_false in Hc.
  change (split_on sep (String c s))
    with (if ascii_eqb c sep then "" :: split_on sep s
          else match split_on sep s with
               | [] => [String c ""]
               | h :: t => String c h :: t
               end).
  unfold ascii_eqb. rewrite bool_decide_eq_false_2 by congruence.
  rewrite (IH Hs). reflexivity.
Qed.

Lemma size_list_to_set_le (l : list string) :
  size (list_to_set l : gset string) ≤ length l.
Proof.
  induction l as [|x l IH]; [reflexivity|].
  rewrite list_to_set_cons, size_union_alt, size_singleton. simpl.
  assert (list_to_set l ∖ {[x]} ⊆ (list_to_set l : gset string)) as Hsub.
  { intros y Hy. apply elem_of_difference in Hy as [Hy _]. exact Hy. }
  apply subseteq_size in Hsub. lia.
Qed.

Lemma size_list_to_set_NoDup (l : list string) :
  size (list_to_set l : gset string) = length l ↔ NoDup l.
Proof.
  split; [|apply size_list_to_set].
  induction l as [|x l IH]; intros H; [constructor|].
  pose proof (size_list_to_set_le l) as Hle.
  rewrite list_to_set_cons in H. simpl in H.
  destruct (decide (x ∈ l)) as [Hin|Hnin].
  - exfalso.
    assert ({[x]} ∪ list_to_set l = (list_to_set l : gset string)) as Heq.
    { apply subseteq_union_1_L, singleton_subseteq_l, elem_of_list_to_set.
      exact Hin. }
    rewrite Heq in H. lia.
  - rewrite size_union, size_singleton in H.
    + constructor; [exact Hnin|]. apply IH. lia.
    + apply disjoint_singleton_l. rewrite elem_of_list_to_set. exact Hnin.
Qed.

(** The rule of the intake validator for values that are not missing:
    both texts are cut at the commas into trimmed, non-empty components;
    differing counts are invalid with both counts in the message, a
    repeated intake component is invalid, anything else is valid. *)
Lemma validate_course_intake_ids_counts (intake_ids start_dates : pyval) :
  isna intake_ids = false → isna start_dates = false →
  validate_course_intake_ids intake_ids start_dates =
  let intake_list := components (str intake_ids) in
  let date_list := components (str start_dates) in
  if bool_decide (length intake_list ≠ length date_list) then
    Ok (Verdict false
          ("Intake IDs count (" +:+ str_of_nat (length intake_list)
           +:+ ") must match start dates count ("
           +:+ str_of_nat (length date_list) +:+ ")"))
  else if bool_decide (NoDup intake_list) then
    Ok (Verdict true "Valid course intake IDs")
  else Ok (Verdict false "Course Intake IDs must be unique").
Proof.
  intros Hi Hd. unfold validate_course_intake_ids. rewrite Hi, Hd.
  simpl orb. cbv iota zeta.
  assert ((if contains "," (str start_dates)
           then length (components (str start_dates))
           else if negb (bool_decide (strip (str start_dates) = ""))
                then 1 else 0)
          = length (components (str start_dates))) as ->.
  { destruct (contains "," (str start_dates)) eqn:Hc; [reflexivity|].
    unfold components. rewrite (split_on_no_sep _ _ Hc).
    rewrite filter_cons, filter_nil.
    destruct (decide (strip (str start_dates) ≠ "")) as [Hn|Hn].
    - rewrite bool_decide_eq_false_2 by exact Hn. reflexivity.
    - apply dec_stable in Hn.
      rewrite bool_decide_eq_true_2 by exact Hn. reflexivity. }
  set (a := components (str intake_ids)).
  set (b := components (str start_dates)).
  destruct (decide (length a = length b)) as [Heq|Hne].
  - rewrite (proj2 (Nat.eqb_eq _ _) Heq).
    rewrite bool_decide_eq_false_2 by (intros H; exact (H Heq)).
    simpl negb. cbv iota.
    destruct (decide (NoDup a)) as [Hnd|Hnd].
    + rewrite (proj2 (Nat.eqb_eq _ _)
                 (eq_sym (proj2 (size_list_to_set_NoDup a) Hnd))).
      rewrite bool_decide_eq_true_2 by exact Hnd. reflexivity.
    + rewrite (proj2 (Nat.eqb_neq _ _)).
      * rewrite bool_decide_eq_false_2 by exact Hnd. reflexivity.
      * intros H. apply Hnd, size_list_to_set_NoDup. symmetry. exact H.
  - rewrite (proj2 (Nat.eqb_neq _ _) Hne).
    rewrite bool_decide_eq_true_2 by exact Hne. reflexivity.
Qed.

(** ** The URL validator *)

Lemma bind_Ok_l {A B} (a : A) (k : A → result B) : (x ← Ok a; k x) = k a.
Proof. reflexivity. Qed.

Lemma bind_Raise_l {A B} (e : exn) (k : A → result B) :
  (x ← Raise e; k x) = Raise e.
Proof. reflexivity. Qed.

Lemma mapM_cons {A B} (f : A → result B) (x : A) (l : list A) :
  mapM f (x :: l) = y ← f x; k ← mapM f l; Ok (y :: k).
Proof. reflexivity. Qed.

Lemma url_step_app (w : web) (errors : list string) (url : string) :
  url_step w errors url = reports ← url_step w [] url; Ok (errors ++ reports).
Proof.
  unfold url_step. cbv zeta.
  repeat case_match; rewrite ?bind_Ok_l, ?bind_Raise_l, ?app_nil_r;
    reflexivity.
Qed.

Lemma url_loop_mapM (w : web) (urls : list string) :
  ∀ errors,
    url_loop w errors urls
    = reports ← mapM (url_step w []) urls; Ok (errors ++ concat reports).
Proof.
  induction urls as [|url urls IH]; intros errors.
  - simpl. rewrite app_nil_r. reflexivity.
  - cbn [url_loop]. rewrite mapM_cons, (url_step_app w errors url).
    destruct (url_step w [] url) as [l|e];
      rewrite ?bind_Ok_l, ?bind_Raise_l; [|reflexivity].
    rewrite IH. destruct (mapM (url_step w []) urls) as [ls|e];
      rewrite ?bind_Ok_l, ?bind_Raise_l; [|reflexivity].
    simpl. rewrite app_assoc. reflexivity.
Qed.

Ltac broken_case E :=
  apply Z.eqb_eq in E as ->; eexists; split; [reflexivity|]; simpl;
  split; [lia|split; [reflexivity|discriminate]].

Lemma url_step_well_formed (w : web) (url scheme netloc : string) :
  strip url ≠ "" → urlparse w (strip url) = Ok (scheme, netloc) →
  scheme ≠ "" → netloc ≠ "" →
  match requests_head w (strip url) with
  | OtherError text => url_step w [] url = Raise (OtherException text)
  | o =>
      ∃ reports,
        url_step w [] url = Ok reports
        ∧ length reports ≤ 1
        ∧ (reports ≠ [] ↔ flagged o = true)
  end.
Proof.
  intros Hu Hp Hs Hn. unfold url_step.
  rewrite (bool_decide_eq_false_2 _ Hu), Hp.
  rewrite (bool_decide_eq_false_2 _ Hs), (bool_decide_eq_false_2 _ Hn).
  simpl negb. cbv iota.
  destruct (requests_head w (strip url)) as [n| | |e|e]; simpl flagged.
  - unfold broken_status.
    destruct (n =? 404)%Z eqn:E1; [broken_case E1|].
    destruct (n =? 410)%Z eqn:E2; [broken_case E2|].
    destruct (n =? 500)%Z eqn:E3; [broken_case E3|].
    destruct (n =? 502)%Z eqn:E4; [broken_case E4|].
    destruct (n =? 503)%Z eqn:E5; [broken_case E5|].
    destruct (n =? 504)%Z eqn:E6; [broken_case E6|].
    apply Z.eqb_neq in E1, E2, E3, E4, E5, E6.
    eexists. split; [reflexivity|].
    rewrite bool_decide_eq_false_2.
    + simpl. split; [lia|split; [contradiction|discriminate]].
    + rewrite !elem_of_cons, elem_of_nil. intuition.
  - eexists. split; [reflexivity|]. simpl.
    split; [lia|split; [reflexivity|discriminate]].
  - eexists. split; [reflexivity|]. simpl.
    split; [lia|split; [reflexivity|discriminate]].
  - destruct (negb (contains "403" e) && negb (contains "401" e));
      (eexists; split; [reflexivity|]); simpl.
    + split; [lia|split; [reflexivity|discriminate]].
    + split; [lia|split; [contradiction|discriminate]].
  - reflexivity.
Qed.

Lemma validate_course_level_url_join (w : web) (v : pyval) :
  isna v = false → strip (str v) ≠ "" →
  validate_course_level_url w v =
  reports ← mapM (url_step w []) (split_on "," (str v));
  let errors := concat reports in
  if bool_decide (errors = []) then Ok (Verdict true "All URLs are working")
  else Ok (Verdict false (join "; " errors)).
Proof.
  intros Hv Hs. unfold validate_course_level_url.
  rewrite Hv, (bool_decide_eq_false_2 _ Hs). simpl orb. cbv iota zeta.
  rewrite url_loop_mapM.
  destruct (mapM (url_step w []) (split_on "," (str v))) as [ls|e];
    rewrite ?bind_Ok_l, ?bind_Raise_l; [|reflexivity].
  simpl app.
  destruct (bool_decide (concat ls = [])); reflexivity.
Qed.

(** C7, as the code has it: with the probe's outcome as an input, a
    well-formed URL is reported exactly when the probe answers 404, 410,
    500, 502, 503 or 504, times out, fails to connect, or fails with another
    request error whose text mentions neither 403 nor 401; every other
    status is accepted; an exception of the probe that is no request
    exception is not caught and leaves the validator; and the message of a
    value with several URLs is the reports of its URLs, in order, joined
    by "; ". *)
Theorem validate_course_level_url_probe (w : web) :
  (∀ url scheme netloc : string,
     strip url ≠ "" → urlparse w (strip url) = Ok (scheme, netloc) →
     scheme ≠ "" → netloc ≠ "" →
     match requests_head w (strip url) with
     | OtherError text => url_step w [] url = Raise (OtherException text)
     | o =>
         ∃ reports,
           url_step w [] url = Ok reports
           ∧ length reports ≤ 1
           ∧ (reports ≠ [] ↔ flagged o = true)
     end)
  ∧ (∀ (v : pyval) (scheme netloc : string),
       isna v = false → contains "," (str v) = false →
       strip (str v) ≠ "" →
       urlparse w (strip (str v)) = Ok (scheme, netloc) →
       scheme ≠ "" → netloc ≠ "" →
       match requests_head w (strip (str v)) with
       | OtherError text =>
           validate_course_level_url w v = Raise (OtherException text)
       | o =>
           ∃ res : verdict,
             validate_course_level_url w v = Ok res
             ∧ (valid res = false ↔ flagged o = true)
       end)
  ∧ (∀ v : pyval,
       isna v = false → strip (str v) ≠ "" →
       validate_course_level_url w v =
       reports ← mapM (url_step w []) (split_on "," (str v));
       let errors := concat reports in
       if bool_decide (errors = [])
       then Ok (Verdict true "All URLs are working")
       else Ok (Verdict false (join "; " errors))).
Proof.
  split; [|split].
  - exact (url_step_well_formed w).
  - intros v scheme netloc Hv Hc Hs Hp Hsch Hnet.
    rewrite (validate_course_level_url_join w v Hv Hs).
    rewrite (split_on_no_sep _ _ Hc), mapM_cons.
    pose proof (url_step_well_formed w (str v) scheme netloc Hs Hp Hsch Hnet)
      as Hstep.
    assert (∀ reports,
              url_step w [] (str v) = Ok reports →
              ∀ o, (reports ≠ [] ↔ flagged o = true) →
              ∃ res : verdict,
                (y ← url_step w [] (str v);
                 k ← mapM (url_step w []) [];
                 Ok (y :: k)) ≫= (λ reports,
                   let errors := concat reports in
                   if bool_decide (errors = [])
                   then Ok (Verdict true "All URLs are working")
                   else Ok (Verdict false (join "; " errors))) = Ok res
                ∧ (valid res = false ↔ flagged o = true)) as Hres.
    { intros reports -> o Hflag. rewrite bind_Ok_l.
      change (mapM (url_step w []) []) with (Ok ([] : list (list string))).
      rewrite !bind_Ok_l. simpl concat. rewrite app_nil_r. cbv zeta.
      destruct (decide (reports = [])) as [He|He].
      + rewrite (bool_decide_eq_true_2 _ He). eexists.
        split; [reflexivity|]. simpl. split; [discriminate|].
        intros Hf. apply Hflag in Hf. contradiction.
      + rewrite (bool_decide_eq_false_2 _ He). eexists.
        split; [reflexivity|]. simpl.
        split; [intros _; apply Hflag, He|reflexivity]. }
    destruct (requests_head w (strip (str v))) as [n| | |e|e];
      try (destruct Hstep as (reports & Hr & _ & Hflag);
           exact (Hres reports Hr _ Hflag)).
    rewrite Hstep. reflexivity.
  - exact (validate_course_level_url_join w).
Qed.

Lemma validate_course_level_url_probe_witness :
  ∃ res : verdict,
    validate_course_level_url web_gone (VStr "https://example.com/old")
    = Ok res
    ∧ (valid res = false
       ↔ flagged (requests_head web_gone
                    (strip (str (VStr "https://example.com/old")))) = true).
Proof.
  apply (proj1 (proj2 (validate_course_level_url_probe web_gone))
           (VStr "https://example.com/old") "https" "example.com").
  - reflexivity.
  - reflexivity.
  - discriminate.
  - reflexivity.
  - discriminate.
  - discriminate.
Defined.

(** C7, as the specification words it, fails: a well-formed URL whose
    probe ends in a request error that is neither a timeout nor a failure
    to connect is reported all the same. *)
Lemma validate_course_level_url_other_request_error :
  urlparse web_ftp "ftp://example.com/x" = Ok ("ftp", "example.com")
  ∧ flagged_as_listed (requests_head web_ftp "ftp://example.com/x") = false
  ∧ validate_course_level_url web_ftp (VStr "ftp://example.com/x")
    = Ok (Verdict false "URL not accessible: ftp://example.com/x").
Proof. repeat split. Qed.

Example validate_course_level_url_two_urls :
  validate_course_level_url web_gone
    (VStr "https://example.com/old, https://example.com/new,https://example.com/old")
  = Ok (Verdict false
          "URL returns 404 (Not Found): https://example.com/old; URL returns 404 (Not Found): https://example.com/old").
Proof. reflexivity. Qed.

(** ** The blocks of [validate_all_fields] *)

Lemma bind_Ok {A B} (m : result A) (k : A → result B) (b : B) :
  (a ← m; k a) = Ok b → ∃ a, m = Ok a ∧ k a = Ok b.
Proof.
  unfold mbind, result_bind, bind. destruct m as [a|e]; [|discriminate].
  intros H. exists a. split; [reflexivity|exact H].
Qed.

Lemma report_inv (m : result verdict) (errors errors' : list error_record)
    (row_index : nat) (col : string) (etype : verdict → string) (v : pyval) :
  (res ← m;
   if negb (valid res)
   then Ok (append_error errors row_index col (etype res) res v)
   else Ok errors) = Ok errors' →
  ∃ res, m = Ok res
    ∧ errors' = errors ++
        (if valid res then []
         else [ErrorRecord (row_index + 1) col (etype res) (message res)
                 (str v)]).
Proof.
  intros H. apply bind_Ok in H as (res & Hm & H). exists res.
  split; [exact Hm|]. destruct (valid res); simpl in H; injection H as <-.
  - rewrite app_nil_r. reflexivity.
  - reflexivity.
Qed.

Lemma report_block (m : result verdict) (errors errors' : list error_record)
    (row_index : nat) (col etype : string) (v : pyval) :
  etype ≠ "Unique" →
  (res ← m;
   if negb (valid res)
   then Ok (append_error errors row_index col etype res v)
   else Ok errors) = Ok errors' →
  ∃ added, errors' = errors ++ added ∧ block_output row_index col added.
Proof.
  intros Ht H.
  apply (report_inv m errors errors' row_index col (λ _, etype) v) in H
    as (res & _ & ->).
  eexists. split; [reflexivity|]. destruct (valid res); [left; reflexivity|].
  right. eexists _, _, _. split; [reflexivity|]. intros. contradiction.
Qed.

Lemma no_block (errors errors' : list error_record) (row_index : nat)
    (col : string) :
  Ok errors = Ok errors' →
  ∃ added, errors' = errors ++ added ∧ block_output row_index col added.
Proof.
  intros [= <-]. exists []. rewrite app_nil_r. split; [reflexivity|left].
  reflexivity.
Qed.

Ltac solve_block :=
  match goal with
  | H : Ok _ = Ok _ |- _ => exact (no_block _ _ _ _ H)
  | H : _ = Ok _ |- _ => apply report_block in H; [exact H|discriminate]
  end.

Section block_lemmas.
Variable w : web.
Variable row : gmap string pyval.
Variable row_index : nat.
Variable all_course_ids : list pyval.
Variables errors errors' : list error_record.

Lemma check_institution_id_block :
  check_institution_id row row_index errors = Ok errors' →
  ∃ added, errors' = errors ++ added
           ∧ block_output row_index "Institution Id" added.
Proof.
  unfold check_institution_id. intros H.
  destruct (row !! "Institution Id"); solve_block.
Qed.

Lemma check_course_id_exact :
  check_course_id row row_index all_course_ids errors = Ok errors' →
  errors' = errors ++
    match row !! "Course Id" with
    | None => []
    | Some v =>
        match validate_course_id v all_course_ids with
        | Raise _ => []
        | Ok res =>
            if valid res then []
            else [ErrorRecord (row_index + 1) "Course Id"
                    (if contains "unique" (lower (message res))
                     then "Unique" else "Numeric")
                    (message res) (str v)]
        end
    end.
Proof.
  unfold check_course_id. intros H.
  destruct (row !! "Course Id") as [v|].
  - apply (report_inv _ _ _ _ _
             (λ res, if contains "unique" (lower (message res))
                     then "Unique" else "Numeric")) in H
      as (res & Hres & ->).
    rewrite Hres. reflexivity.
  - injection H as <-. rewrite app_nil_r. reflexivity.
Qed.

Lemma check_course_id_block :
  check_course_id row row_index all_course_ids errors = Ok errors' →
  ∃ added, errors' = errors ++ added
           ∧ block_output row_index "Course Id" added.
Proof.
  intros H. rewrite (check_course_id_exact H).
  eexists. split; [reflexivity|].
  destruct (row !! "Course Id") as [v|]; [|left; reflexivity].
  destruct (validate_course_id v all_course_ids) as [res|];
    [|left; reflexivity].
  destruct (valid res); [left; reflexivity|]. right.
  eexists _, _, _. split; reflexivity.
Qed.

Lemma check_course_name_block :
  check_course_name row row_index errors = Ok errors' →
  ∃ added, errors' = errors ++ added
           ∧ block_output row_index "Course Name" added.
Proof.
  unfold check_course_name. intros H.
  destruct (row !! "Course Name"); solve_block.
Qed.

Lemma check_l3_tagging_block :
  check_l3_tagging row row_index errors = Ok errors' →
  ∃ added, errors' = errors ++ added
           ∧ block_output row_index "L3 Tagging" added.
Proof.
  unfold check_l3_tagging. intros H.
  destruct (row !! "L3 Tagging"); solve_block.
Qed.

Lemma check_degree_type_block :
  check_degree_type row row_index errors = Ok errors' →
  ∃ added, errors' = errors ++ added
           ∧ block_output row_index "Degree Type" added.
Proof.
  unfold check_degree_type. intros H.
  destruct (row !! "Degree Type"); solve_block.
Qed.

Lemma check_course_type_block :
  check_course_type row row_index errors = Ok errors' →
  ∃ added, errors' = errors ++ added
           ∧ block_output row_index "Course Type" added.
Proof.
  unfold check_course_type. intros H.
  destruct (row !! "Course Type"); solve_block.
Qed.

Lemma check_course_start_date_block :
  check_course_start_date row row_index errors = Ok errors' →
  ∃ added, errors' = errors ++ added
           ∧ block_output row_index "Course start date" added.
Proof.
  unfold check_course_start_date. intros H.
  destruct (row !! "Course start date"); solve_block.
Qed.

Lemma check_course_level_url_block :
  check_course_level_url w row row_index errors = Ok errors' →
  ∃ added, errors' = errors ++ added
           ∧ block_output row_index "Course Level URL" added.
Proof.
  unfold check_course_level_url. intros H.
  destruct (row !! "Course Level URL"); solve_block.
Qed.

Lemma check_course_intake_ids_block :
  check_course_intake_ids row row_index errors = Ok errors' →
  ∃ added, errors' = errors ++ added
           ∧ block_output row_index "Course Intake Ids" added.
Proof.
  unfold check_course_intake_ids. intros H.
  destruct (row !! "Course Intake Ids");
    destruct (row !! "Course start date"); solve_block.
Qed.

Lemma check_show_block :
  check_show row row_index errors = Ok errors' →
  ∃ added, errors' = errors ++ added ∧ block_output row_index "Show" added.
Proof.
  unfold check_show. intros H. destruct (row !! "Show"); solve_block.
Qed.

Lemma check_course_status_block :
  check_course_status row row_index errors = Ok errors' →
  ∃ added, errors' = errors ++ added
           ∧ block_output row_index "Course Status" added.
Proof.
  unfold check_course_status. intros H.
  destruct (row !! "Course Status"); solve_block.
Qed.

Lemma check_study_mode_block :
  check_study_mode row row_index errors = Ok errors' →
  ∃ added, errors' = errors ++ added
           ∧ block_output row_index "Study Mode" added.
Proof.
  unfold check_study_mode. intros H.
  destruct (row !! "Study Mode"); solve_block.
Qed.
End block_lemmas.

Lemma validate_all_fields_inv (w : web) (row : gmap string pyval)
    (row_index : nat) (all_course_ids : list pyval)
    (errs : list error_record) :
  validate_all_fields w row row_index all_course_ids = Ok errs →
  ∃ t1 t2 rest,
    errs = t1 ++ t2 ++ concat rest
    ∧ block_output row_index "Institution Id" t1
    ∧ check_course_id row row_index all_course_ids [] = Ok t2
    ∧ block_output row_index "Course Id" t2
    ∧ Forall2 (block_output row_index) (drop 2 validated_columns) rest.
Proof.
  unfold validate_all_fields. intros H.
  apply bind_Ok in H as (e1 & H1 & H).
  apply bind_Ok in H as (e2 & H2 & H).
  apply bind_Ok in H as (e3 & H3 & H).
  apply bind_Ok in H as (e4 & H4 & H).
  apply bind_Ok in H as (e5 & H5 & H).
  apply bind_Ok in H as (e6 & H6 & H).
  apply bind_Ok in H as (e7 & H7 & H).
  apply bind_Ok in H as (e8 & H8 & H).
  apply bind_Ok in H as (e9 & H9 & H).
  apply bind_Ok in H as (e10 & H10 & H).
  apply bind_Ok in H as (e11 & H11 & H).
  apply bind_Ok in H as (e12 & H12 & H).
  injection H as <-.
  apply check_institution_id_block in H1 as (t1 & -> & B1).
  pose proof (check_course_id_exact _ _ _ _ _ H2) as E2.
  apply check_course_id_block in H2 as (t2 & -> & B2).
  apply app_inv_head in E2.
  apply check_course_name_block in H3 as (t3 & -> & B3).
  apply check_l3_tagging_block in H4 as (t4 & -> & B4).
  apply check_degree_type_block in H5 as (t5 & -> & B5).
  apply check_course_type_block in H6 as (t6 & -> & B6).
  apply check_course_start_date_block in H7 as (t7 & -> & B7).
  apply check_course_level_url_block in H8 as (t8 & -> & B8).
  apply check_course_intake_ids_block in H9 as (t9 & -> & B9).
  apply check_show_block in H10 as (t10 & -> & B10).
  apply check_course_status_block in H11 as (t11 & -> & B11).
  apply check_study_mode_block in H12 as (t12 & -> & B12).
  exists t1, t2, [t3; t4; t5; t6; t7; t8; t9; t10; t11; t12].
  split; [|split; [exact B1|split; [|split; [exact B2|]]]].
  - simpl concat. rewrite app_nil_r, <- !app_assoc. reflexivity.
  - unfold check_course_id. rewrite E2.
    destruct (row !! "Course Id") as [v|]; [|reflexivity].
    unfold mbind, result_bind, bind.
    destruct (validate_course_id v all_course_ids) as [res|e] eqn:Hv.
    + destruct (valid res); reflexivity.
    + pose proof (validate_course_id_returns v all_course_ids) as Hr.
      rewrite Hv in Hr. discriminate Hr.
  - cbv [drop validated_columns].
    repeat (constructor 2; [assumption|]). constructor 1.
Qed.

Lemma block_output_columns (row_index : nat) (cols : list string)
    (tails : list (list error_record)) :
  Forall2 (block_output row_index) cols tails →
  map e_column (concat tails) `sublist_of` cols.
Proof.
  induction 1 as [|col added cols tails Hb _ IH]; [constructor|].
  simpl. rewrite map_app.
  destruct Hb as [->|(t & m & x & -> & _)]; simpl.
  - apply sublist_cons, IH.
  - apply sublist_skip, IH.
Qed.

Lemma block_output_Forall (row_index : nat) (cols : list string)
    (tails : list (list error_record)) :
  Forall2 (block_output row_index) cols tails →
  Forall (λ r, e_row r = row_index + 1
               ∧ e_column r ∈ cols
               ∧ (e_error_type r = "Unique" → e_column r = "Course Id"))
    (concat tails).
Proof.
  induction 1 as [|col added cols tails Hb _ IH]; [constructor|].
  simpl. apply Forall_app. split.
  - destruct Hb as [->|(t & m & x & -> & Ht)]; repeat constructor.
    exact Ht.
  - eapply Forall_impl; [exact IH|]. intros r (? & ? & ?).
    split; [assumption|]. split; [right|]; assumption.
Qed.



Lemma validated_columns_NoDup : NoDup validated_columns.
Proof. apply (bool_decide_unpack _). vm_compute. exact I. Qed.

Lemma validate_all_fields_blocks (w : web) (row : gmap string pyval)
    (row_index : nat) (all_course_ids : list pyval)
    (errs : list error_record) :
  validate_all_fields w row row_index all_course_ids = Ok errs →
  ∃ tails, errs = concat tails
    ∧ Forall2 (block_output row_index) validated_columns tails.
Proof.
  intros H.
  apply validate_all_fields_inv in H as (t1 & t2 & rest & -> & B1 & _ & B2 & B).
  exists (t1 :: t2 :: rest). split; [reflexivity|].
  unfold validated_columns. repeat (constructor 2; [assumption|]). exact B.
Qed.







(** ** The loop over the rows *)

Lemma run_validation_rows (w : web) (cancelled : nat → bool)
    (df : DataFrame) (errs : list error_record) (ending : run_end) :
  run_validation w cancelled df = (errs, ending) →
  ∃ o : option exn,
    validate_rows w cancelled
      (if in_list "Course Id" (columns df) then course_id_column df else [])
      0 (rows df) [] = (errs, o)
    ∧ ending = match o with
               | None => validation_complete
               | Some e => validation_error e
               end.
Proof.
  unfold run_validation. cbv zeta.
  destruct (validate_rows _ _ _ _ _ _) as [l [e|]]; intros [= <- <-].
  - exists (Some e). split; reflexivity.
  - exists None. split; reflexivity.
Qed.

Lemma run_validation_complete (w : web) (cancelled : nat → bool)
    (df : DataFrame) (errs : list error_record) :
  run_validation w cancelled df = (errs, validation_complete) →
  validate_rows w cancelled
    (if in_list "Course Id" (columns df) then course_id_column df else [])
    0 (rows df) [] = (errs, None).
Proof.
  intros H. apply run_validation_rows in H as ([e|] & H & He);
    [discriminate He|exact H].
Qed.

(** Whatever way the loop ends, the list is what the rows validated so
    far have returned, in order. *)
Lemma validate_rows_prefix (w : web) (cancelled : nat → bool)
    (all_course_ids : list pyval) (rs : list (gmap string pyval)) :
  ∀ (index : nat) (acc errs : list error_record) (o : option exn),
    validate_rows w cancelled all_course_ids index rs acc = (errs, o) →
    ∃ ls : list (list error_record),
      errs = acc ++ concat ls
      ∧ length ls ≤ length rs
      ∧ (∀ (k : nat) (l : list error_record),
           ls !! k = Some l →
           ∃ row, rs !! k = Some row
                  ∧ validate_all_fields w row (index + k) all_course_ids
                    = Ok l)
      ∧ ((∀ j, cancelled j = false) → o = None → length ls = length rs).
Proof.
  induction rs as [|row rs IH]; intros index acc errs o H.
  - injection H as <- <-. exists []. rewrite app_nil_r.
    split; [reflexivity|]. split; [reflexivity|].
    split; [|reflexivity]. intros k l Hk. discriminate Hk.
  - cbn [validate_rows] in H.
    assert (∀ o', (acc, o') = (errs, o) →
                  ((∀ j, cancelled j = false) → o = None → False) →
                  ∃ ls : list (list error_record),
                    errs = acc ++ concat ls
                    ∧ length ls ≤ length (row :: rs)
                    ∧ (∀ k l, ls !! k = Some l →
                         ∃ row0, (row :: rs) !! k = Some row0
                           ∧ validate_all_fields w row0 (index + k)
                               all_course_ids = Ok l)
                    ∧ ((∀ j, cancelled j = false) → o = None →
                       length ls = length (row :: rs))) as Hstop.
    { intros o' [= <- <-] Hno. exists []. rewrite app_nil_r.
      split; [reflexivity|]. split; [simpl; lia|].
      split; [intros k l Hk; discriminate Hk|].
      intros Hc Ho. destruct (Hno Hc Ho). }
    destruct (cancelled index) eqn:Hci.
    { apply (Hstop _ H). intros Hc _. rewrite Hc in Hci. discriminate. }
    destruct (validate_all_fields w row index all_course_ids)
      as [row_errors|e] eqn:Hrow.
    2:{ apply (Hstop _ H). injection H as _ <-. intros _ [=]. }
    apply IH in H as (ls & -> & Hlen & Hls & Hfull).
    exists (row_errors :: ls). split; [|split; [|split]].
    + simpl. rewrite <- app_assoc. reflexivity.
    + simpl. lia.
    + intros [|k] l Hk.
      * injection Hk as <-. exists row. rewrite Nat.add_0_r.
        split; [reflexivity|exact Hrow].
      * destruct (Hls k l Hk) as (r & Hr & Hv). exists r.
        rewrite <- Nat.add_succ_comm. split; [exact Hr|exact Hv].
    + intros Hc Ho. simpl. rewrite (Hfull Hc Ho). reflexivity.
Qed.

Lemma validate_rows_inv (w : web) (cancelled : nat → bool)
    (all_course_ids : list pyval) (rs : list (gmap string pyval)) :
  (∀ j, cancelled j = false) →
  ∀ (index : nat) (acc errs : list error_record),
    validate_rows w cancelled all_course_ids index rs acc = (errs, None) →
    ∃ ls : list (list error_record),
      errs = acc ++ concat ls
      ∧ length ls = length rs
      ∧ ∀ (k : nat) (l : list error_record),
          ls !! k = Some l →
          ∃ row, rs !! k = Some row
                 ∧ validate_all_fields w row (index + k) all_course_ids
                   = Ok l.
Proof.
  intros Hc index acc errs H.
  apply validate_rows_prefix in H as (ls & -> & _ & Hls & Hfull).
  exists ls. split; [reflexivity|]. split; [exact (Hfull Hc eq_refl)|].
  exact Hls.
Qed.

Lemma elem_of_concat_lookup {A} (ls : list (list A)) (x : A) :
  x ∈ concat ls ↔ ∃ k l, ls !! k = Some l ∧ x ∈ l.
Proof.
  induction ls as [|l0 ls IH]; simpl.
  - split; [intros H; inversion H|intros (k & l & Hk & _); discriminate Hk].
  - rewrite elem_of_app, IH. split.
    + intros [H|(k & l & Hk & H)].
      * exists 0, l0. split; [reflexivity|exact H].
      * exists (S k), l. split; [exact Hk|exact H].
    + intros ([|k] & l & Hk & H).
      * injection Hk as ->. left. exact H.
      * right. exists k, l. split; [exact Hk|exact H].
Qed.







(** * Further properties of the code *)

(** ** The records of a row *)

Lemma report_keeps (P : error_record → Prop) (m : result verdict)
    (errors errors' : list error_record) (row_index : nat) (col : string)
    (etype : verdict → string) (v : pyval) :
  (∀ res, P (ErrorRecord (row_index + 1) col (etype res) (message res)
               (str v))) →
  Forall P errors →
  (res ← m;
   if negb (valid res)
   then Ok (append_error errors row_index col (etype res) res v)
   else Ok errors) = Ok errors' →
  Forall P errors'.
Proof.
  intros HP Herr H. apply report_inv in H as (res & _ & ->).
  apply Forall_app. split; [exact Herr|].
  destruct (valid res); repeat constructor. apply HP.
Qed.

Ltac keep_block Hl :=
  match goal with
  | H : Ok _ = Ok _ |- _ => injection H as <-; assumption
  | H : _ = Ok _ |- _ =>
      eapply (report_keeps _ _ _ _ _ _ (λ _, _)); [|eassumption|exact H];
      intros res; split; [reflexivity|];
      split; [compute_done|eexists; split; [exact Hl|reflexivity]]
  end.

Section record_invariant.
Variable w : web.
Variable row : gmap string pyval.
Variable row_index : nat.
Variable all_course_ids : list pyval.
Variables errors errors' : list error_record.
Hypothesis Herrors : Forall (record_ok row row_index) errors.

Lemma check_institution_id_keeps :
  check_institution_id row row_index errors = Ok errors' →
  Forall (record_ok row row_index) errors'.
Proof.
  unfold check_institution_id. intros H.
  destruct (row !! "Institution Id") eqn:Hl; keep_block Hl.
Qed.

Lemma check_course_id_keeps :
  check_course_id row row_index all_course_ids errors = Ok errors' →
  Forall (record_ok row row_index) errors'.
Proof.
  unfold check_course_id. intros H.
  destruct (row !! "Course Id") eqn:Hl;
    [|injection H as <-; assumption].
  eapply (report_keeps _ _ _ _ _ _
            (λ res, if contains "unique" (lower (message res))
                    then "Unique" else "Numeric"));
    [|exact Herrors|exact H].
  intros res. split; [reflexivity|]. split.
  - simpl. destruct (contains "unique" (lower (message res))); compute_done.
  - eexists. split; [exact Hl|reflexivity].
Qed.

Lemma check_course_name_keeps :
  check_course_name row row_index errors = Ok errors' →
  Forall (record_ok row row_index) errors'.
Proof.
  unfold check_course_name. intros H.
  destruct (row !! "Course Name") eqn:Hl; keep_block Hl.
Qed.

Lemma check_l3_tagging_keeps :
  check_l3_tagging row row_index errors = Ok errors' →
  Forall (record_ok row row_index) errors'.
Proof.
  unfold check_l3_tagging. intros H.
  destruct (row !! "L3 Tagging") eqn:Hl; keep_block Hl.
Qed.

Lemma check_degree_type_keeps :
  check_degree_type row row_index errors = Ok errors' →
  Forall (record_ok row row_index) errors'.
Proof.
  unfold check_degree_type. intros H.
  destruct (row !! "Degree Type") eqn:Hl; keep_block Hl.
Qed.

Lemma check_course_type_keeps :
  check_course_type row row_index errors = Ok errors' →
  Forall (record_ok row row_index) errors'.
Proof.
  unfold check_course_type. intros H.
  destruct (row !! "Course Type") eqn:Hl; keep_block Hl.
Qed.

Lemma check_course_start_date_keeps :
  check_course_start_date row row_index errors = Ok errors' →
  Forall (record_ok row row_index) errors'.
Proof.
  unfold check_course_start_date. intros H.
  destruct (row !! "Course start date") eqn:Hl; keep_block Hl.
Qed.

Lemma check_course_level_url_keeps :
  check_course_level_url w row row_index errors = Ok errors' →
  Forall (record_ok row row_index) errors'.
Proof.
  unfold check_course_level_url. intros H.
  destruct (row !! "Course Level URL") eqn:Hl; keep_block Hl.
Qed.

Lemma check_course_intake_ids_keeps :
  check_course_intake_ids row row_index errors = Ok errors' →
  Forall (record_ok row row_index) errors'.
Proof.
  unfold check_course_intake_ids. intros H.
  destruct (row !! "Course Intake Ids") eqn:Hl;
    destruct (row !! "Course start date") eqn:Hd; keep_block Hl.
Qed.

Lemma check_show_keeps :
  check_show row row_index errors = Ok errors' →
  Forall (record_ok row row_index) errors'.
Proof.
  unfold check_show. intros H. destruct (row !! "Show") eqn:Hl; keep_block Hl.
Qed.

Lemma check_course_status_keeps :
  check_course_status row row_index errors = Ok errors' →
  Forall (record_ok row row_index) errors'.
Proof.
  unfold check_course_status. intros H.
  destruct (row !! "Course Status") eqn:Hl; keep_block Hl.
Qed.

Lemma check_study_mode_keeps :
  check_study_mode row row_index errors = Ok errors' →
  Forall (record_ok row row_index) errors'.
Proof.
  unfold check_study_mode. intros H.
  destruct (row !! "Study Mode") eqn:Hl; keep_block Hl.
Qed.
End record_invariant.

Lemma validate_all_fields_record_ok (w : web)
    (row : gmap string pyval) (row_index : nat)
    (all_course_ids : list pyval) (errs : list error_record) :
  validate_all_fields w row row_index all_course_ids = Ok errs →
  Forall (record_ok row row_index) errs.
Proof.
  unfold validate_all_fields. intros H.
  apply bind_Ok in H as (e1 & H1 & H).
  apply bind_Ok in H as (e2 & H2 & H).
  apply bind_Ok in H as (e3 & H3 & H).
  apply bind_Ok in H as (e4 & H4 & H).
  apply bind_Ok in H as (e5 & H5 & H).
  apply bind_Ok in H as (e6 & H6 & H).
  apply bind_Ok in H as (e7 & H7 & H).
  apply bind_Ok in H as (e8 & H8 & H).
  apply bind_Ok in H as (e9 & H9 & H).
  apply bind_Ok in H as (e10 & H10 & H).
  apply bind_Ok in H as (e11 & H11 & H).
  apply bind_Ok in H as (e12 & H12 & H).
  injection H as <-.
  apply check_institution_id_keeps in H1; [|constructor].
  apply check_course_id_keeps in H2; [|exact H1].
  apply check_course_name_keeps in H3; [|exact H2].
  apply check_l3_tagging_keeps in H4; [|exact H3].
  apply check_degree_type_keeps in H5; [|exact H4].
  apply check_course_type_keeps in H6; [|exact H5].
  apply check_course_start_date_keeps in H7; [|exact H6].
  apply check_course_level_url_keeps in H8; [|exact H7].
  apply check_course_intake_ids_keeps in H9; [|exact H8].
  apply check_show_keeps in H10; [|exact H9].
  apply check_course_status_keeps in H11; [|exact H10].
  apply check_study_mode_keeps in H12; [|exact H11].
  exact H12.
Qed.

(** X1: every record [validate_all_fields] returns carries the number of
    the row (index + 1), a category of the column it names, and as value
    the text of the row's cell in that column. *)
Theorem validate_all_fields_records_describe_row (w : web)
    (row : gmap string pyval) (row_index : nat)
    (all_course_ids : list pyval) (errs : list error_record) :
  validate_all_fields w row row_index all_course_ids = Ok errs →
  Forall (λ r, e_row r = row_index + 1
               ∧ e_error_type r ∈ categories (e_column r)
               ∧ ∃ v, row !! e_column r = Some v ∧ e_value r = str v)
    errs.
Proof. exact (validate_all_fields_record_ok w row row_index all_course_ids errs). Qed.

Lemma validate_all_fields_records_describe_row_witness :
  Forall (λ r, e_row r = 4 + 1
               ∧ e_error_type r ∈ categories (e_column r)
               ∧ ∃ v, ({["Course Id" := VStr "abc"; "Show" := VStr "Maybe"]}
                         : gmap string pyval) !! e_column r = Some v
                      ∧ e_value r = str v)
    [ErrorRecord 5 "Course Id" "Numeric" "Course Id must be numeric" "abc";
     ErrorRecord 5 "Show" "Status" "Show must be one of: Yes, No" "Maybe"].
Proof.
  apply (validate_all_fields_records_describe_row web_gone
           {["Course Id" := VStr "abc"; "Show" := VStr "Maybe"]} 4 []).
  vm_compute. reflexivity.
Defined.

(** X2: the records of a row come in the fixed order of the blocks: their
    columns form a subsequence of the twelve validated columns. *)
Theorem validate_all_fields_field_order (w : web)
    (row : gmap string pyval) (row_index : nat)
    (all_course_ids : list pyval) (errs : list error_record) :
  validate_all_fields w row row_index all_course_ids = Ok errs →
  map e_column errs `sublist_of`
    ["Institution Id"; "Course Id"; "Course Name"; "L3 Tagging";
     "Degree Type"; "Course Type"; "Course start date"; "Course Level URL";
     "Course Intake Ids"; "Show"; "Course Status"; "Study Mode"].
Proof.
  intros H. apply validate_all_fields_blocks in H as (tails & -> & Hb).
  exact (block_output_columns _ _ _ Hb).
Qed.

Lemma validate_all_fields_field_order_witness :
  map e_column
    [ErrorRecord 5 "Course Id" "Numeric" "Course Id must be numeric" "abc";
     ErrorRecord 5 "Show" "Status" "Show must be one of: Yes, No" "Maybe"]
  `sublist_of`
    ["Institution Id"; "Course Id"; "Course Name"; "L3 Tagging";
     "Degree Type"; "Course Type"; "Course start date"; "Course Level URL";
     "Course Intake Ids"; "Show"; "Course Status"; "Study Mode"].
Proof.
  apply (validate_all_fields_field_order web_gone
           {["Show" := VStr "Maybe"; "Course Id" := VStr "abc"]} 4 []).
  vm_compute. reflexivity.
Defined.

(** X3: a row that has none of the twelve validated columns (for instance
    because its headers were not normalised) is accepted without a record,
    whatever its cells hold. *)
Theorem validate_all_fields_unknown_columns (w : web)
    (row : gmap string pyval) (row_index : nat)
    (all_course_ids : list pyval) :
  (∀ c, c ∈ validated_columns → row !! c = None) →
  validate_all_fields w row row_index all_course_ids = Ok [].
Proof.
  intros H. unfold validate_all_fields, check_institution_id,
    check_course_id, check_course_name, check_l3_tagging, check_degree_type,
    check_course_type, check_course_start_date, check_course_level_url,
    check_course_intake_ids, check_show, check_course_status,
    check_study_mode.
  rewrite !H by compute_done. reflexivity.
Qed.

Lemma validate_all_fields_unknown_columns_witness :
  validate_all_fields web_gone
    {["Course" := VStr "computer science"; "Instituti" := VStr "ABC"]} 0 []
  = Ok [].
Proof.
  apply validate_all_fields_unknown_columns. intros c Hc.
  unfold validated_columns in Hc.
  repeat (apply elem_of_cons in Hc as [->|Hc]; [reflexivity|]).
  inversion Hc.
Defined.

(** ** Integer cells are numeric *)

Lemma rstrip_no_space (s : string) :
  all_chars (λ c, negb (is_space c)) s = true → rstrip s = s.
Proof.
  induction s as [|c s IH]; [reflexivity|]. simpl all_chars.
  intros H. apply andb_true_iff in H as [Hc Hs].
  apply negb_true_iff in Hc.
  rewrite (rstrip_cons_nonspace c s Hc), (IH Hs). reflexivity.
Qed.

Lemma strip_no_space (s : string) :
  all_chars (λ c, negb (is_space c)) s = true → strip s = s.
Proof.
  intros H. unfold strip. destruct s as [|c s]; [reflexivity|].
  pose proof H as H'. simpl in H'. apply andb_true_iff in H' as [Hc _].
  apply negb_true_iff in Hc. rewrite (lstrip_fixed c s Hc).
  apply rstrip_no_space, H.
Qed.

Lemma all_chars_impl (P Q : ascii → bool) (s : string) :
  (∀ c, P c = true → Q c = true) →
  all_chars P s = true → all_chars Q s = true.
Proof.
  intros HPQ. induction s as [|c s IH]; [reflexivity|]. simpl.
  intros H. apply andb_true_iff in H as [Hc Hs].
  rewrite (HPQ c Hc), (IH Hs). reflexivity.
Qed.

Lemma is_digit_not_space (c : ascii) :
  is_digit c = true → negb (is_space c) = true.
Proof.
  destruct c as [[] [] [] [] [] [] [] []]; intros H;
    solve [reflexivity|discriminate H].
Qed.

Lemma digits_tail_digits (s : string) :
  all_chars is_digit s = true → digits_tail s = "".
Proof.
  induction s as [|c s IH]; [reflexivity|]. simpl.
  intros H. apply andb_true_iff in H as [Hc Hs]. rewrite Hc. exact (IH Hs).
Qed.

Lemma float_rstrip_no_space (s : string) :
  all_chars (λ c, negb (is_float_space c)) s = true → float_rstrip s = s.
Proof.
  induction s as [|c s IH]; [reflexivity|]. simpl all_chars.
  intros H. apply andb_true_iff in H as [Hc Hs].
  apply negb_true_iff in Hc. cbn [float_rstrip]. rewrite (IH Hs), Hc.
  destruct s; reflexivity.
Qed.

Lemma float_strip_no_space (s : string) :
  all_chars (λ c, negb (is_float_space c)) s = true →
  float_rstrip (float_lstrip s) = s.
Proof.
  intros H. destruct s as [|c s]; [reflexivity|].
  pose proof H as H'. simpl in H'. apply andb_true_iff in H' as [Hc _].
  apply negb_true_iff in Hc. cbn [float_lstrip]. rewrite Hc.
  apply float_rstrip_no_space, H.
Qed.

Lemma is_digit_not_float_space (c : ascii) :
  is_digit c = true → negb (is_float_space c) = true.
Proof.
  destruct c as [[] [] [] [] [] [] [] []]; intros H;
    solve [reflexivity|discriminate H].
Qed.

Lemma float_literal_digits (c : ascii) (s : string) :
  is_digit c = true → all_chars is_digit s = true →
  float_literal (String c s) = true
  ∧ float_literal (String "-" (String c s)) = true.
Proof.
  intros Hc Hs.
  assert (all_chars (λ a, negb (is_float_space a)) (String c s) = true)
    as Hns.
  { apply (all_chars_impl is_digit); [exact is_digit_not_float_space|].
    simpl. rewrite Hc, Hs. reflexivity. }
  assert (number (String c s) = Some "") as Hnum.
  { unfold number, digitpart. rewrite Hc, (digits_tail_digits s Hs).
    reflexivity. }
  assert (drop_sign (String c s) = String c s) as Hsign.
  { unfold drop_sign.
    destruct c as [[] [] [] [] [] [] [] []]; try discriminate Hc;
      reflexivity. }
  split; unfold float_literal.
  - rewrite (float_strip_no_space _ Hns), Hsign, Hnum. apply orb_true_r.
  - rewrite (float_strip_no_space (String "-" (String c s))).
    + change (drop_sign (String "-" (String c s))) with (String c s).
      rewrite Hnum. apply orb_true_r.
    + simpl. simpl in Hns. exact Hns.
Qed.

Lemma string_of_uint_digits (d : Decimal.uint) :
  all_chars is_digit (NilEmpty.string_of_uint d) = true.
Proof. induction d; simpl; auto. Qed.

Lemma str_of_Z_numeric (z : Z) : float_literal (str_of_Z z) = true.
Proof.
  assert (∀ d, ∃ c s, NilZero.string_of_uint d = String c s
                      ∧ is_digit c = true ∧ all_chars is_digit s = true)
    as Hd.
  { intros d. pose proof (string_of_uint_digits d) as H.
    unfold NilZero.string_of_uint.
    destruct d; simpl in *;
      eexists _, _; (split; [reflexivity|]); split; auto. }
  unfold str_of_Z, NilZero.string_of_int.
  destruct (Z.to_int z) as [d|d]; destruct (Hd d) as (c & s & -> & Hc & Hs).
  - exact (proj1 (float_literal_digits c s Hc Hs)).
  - exact (proj2 (float_literal_digits c s Hc Hs)).
Qed.

(** X4: an integer cell always counts as numeric: the institution-id
    validator accepts it, and the course-id validator never reports it as
    blank or not numeric, only as duplicated when it occurs more than once
    among the course ids. *)
Theorem integer_ids_are_numeric (z : Z) (all_course_ids : list pyval) :
  validate_institution_id (VInt z)
  = Ok (Verdict true "Valid institution ID")
  ∧ validate_course_id (VInt z) all_course_ids
    = if (1 <? count (VInt z) all_course_ids)%nat
      then Ok (Verdict false "Course Id must be unique")
      else Ok (Verdict true "Valid course ID").
Proof.
  unfold validate_institution_id, validate_course_id, float.
  simpl isna. simpl is_empty_str. simpl orb. cbv iota. simpl str.
  rewrite (str_of_Z_numeric z). split; reflexivity.
Qed.

(** ** The start-date and the status validators *)

Lemma pieces_no_comma (v : pyval) :
  contains "," (strip (str v)) = false → pieces v = [strip (str v)].
Proof.
  intros H. unfold pieces. rewrite (split_on_no_sep _ _ H). simpl.
  rewrite strip_idemp. reflexivity.
Qed.

Lemma date_loop_all (dates : list string) :
  Forall (λ d, parses d = true) dates →
  date_loop dates = Ok (Verdict true "Valid course start date").
Proof.
  induction 1 as [|d dates Hd _ IH]; [reflexivity|]. simpl.
  unfold parses in Hd. destruct (strptime_ymd d); [exact IH|discriminate Hd].
Qed.

Lemma date_loop_first (before : list string) (d : string)
    (after : list string) :
  Forall (λ d, parses d = true) before → parses d = false →
  date_loop (before ++ d :: after)
  = Ok (Verdict false
          ("Invalid date format: " +:+ d +:+ ". Must be YYYY-MM-DD")).
Proof.
  intros Hb Hd. induction Hb as [|x before Hx _ IH]; simpl.
  - unfold parses in Hd. destruct (strptime_ymd d) as [|e] eqn:He;
      [discriminate Hd|].
    rewrite (strptime_ymd_raises d e He). reflexivity.
  - unfold parses in Hx. destruct (strptime_ymd x); [exact IH|discriminate Hx].
Qed.

(** X5: a start date that is not blank is valid exactly when every piece
    between its commas, trimmed, is a date [strptime] accepts for
    %Y-%m-%d; otherwise the message names the first piece that is not. *)
Theorem validate_course_start_date_every_piece (v : pyval) :
  isna v = false → strip (str v) ≠ "" →
  (Forall (λ d, parses d = true) (pieces v) →
   validate_course_start_date v
   = Ok (Verdict true "Valid course start date"))
  ∧ (∀ (before : list string) (d : string) (after : list string),
       pieces v = before ++ d :: after →
       Forall (λ d, parses d = true) before → parses d = false →
       validate_course_start_date v
       = Ok (Verdict false
               ("Invalid date format: " +:+ d +:+ ". Must be YYYY-MM-DD"))).
Proof.
  intros Hv Hs.
  assert (validate_course_start_date v = date_loop (pieces v)) as ->.
  { unfold validate_course_start_date.
    rewrite Hv, (bool_decide_eq_false_2 _ Hs). simpl orb. cbv iota zeta.
    destruct (contains "," (strip (str v))) eqn:Hc; [reflexivity|].
    rewrite (pieces_no_comma v Hc). reflexivity. }
  split.
  - apply date_loop_all.
  - intros before d after -> Hb Hd. apply date_loop_first; assumption.
Qed.

Lemma validate_course_start_date_every_piece_witness :
  validate_course_start_date (VStr " 2024-09-01, 2025-02-30 ,x")
  = Ok (Verdict false "Invalid date format: 2025-02-30. Must be YYYY-MM-DD").
Proof.
  apply (proj2 (validate_course_start_date_every_piece
                  (VStr " 2024-09-01, 2025-02-30 ,x") eq_refl
                  ltac:(discriminate))
           ["2024-09-01"] "2025-02-30" ["x"]).
  - reflexivity.
  - repeat constructor.
  - reflexivity.
Defined.

Lemma filter_nil_Forall {A} (P : A → Prop) `{∀ x, Decision (P x)}
    (l : list A) :
  filter P l = [] ↔ Forall (λ x, ¬ P x) l.
Proof.
  induction l as [|a l IH]; [split; [constructor|reflexivity]|].
  rewrite filter_cons. destruct (decide (P a)) as [Ha|Ha].
  - split; [discriminate|]. intros HF. apply Forall_cons in HF as [Hn _].
    contradiction.
  - rewrite IH. split.
    + intros HF. constructor; assumption.
    + intros HF. apply Forall_cons in HF as [_ HF]. exact HF.
Qed.

(** X6: a course status that is not blank is valid exactly when every
    piece between its commas, trimmed, is Open or Closed. *)
Theorem validate_course_status_every_piece (v : pyval) :
  isna v = false → strip (str v) ≠ "" →
  ∃ res : verdict,
    validate_course_status v = Ok res
    ∧ (valid res = true
       ↔ Forall (λ s, s ∈ ["Open"; "Closed"]) (pieces v)).
Proof.
  intros Hv Hs. unfold validate_course_status.
  rewrite Hv, (bool_decide_eq_false_2 _ Hs). simpl orb. cbv iota zeta.
  destruct (contains "," (strip (str v))) eqn:Hc.
  - fold (pieces v).
    destruct (decide (filter (λ s, in_list s allowed_statuses = false)
                        (pieces v) = [])) as [He|He].
    + rewrite (bool_decide_eq_true_2 _ He). eexists. split; [reflexivity|].
      split; [intros _|reflexivity].
      apply filter_nil_Forall in He. eapply Forall_impl; [exact He|].
      intros s Hn. simpl in Hn. unfold in_list in Hn.
      apply not_false_is_true, bool_decide_eq_true in Hn. exact Hn.
    + rewrite (bool_decide_eq_false_2 _ He). eexists. split; [reflexivity|].
      split; [discriminate|]. intros HF. exfalso. apply He.
      apply filter_nil_Forall. eapply Forall_impl; [exact HF|].
      intros s Hin. simpl. unfold in_list.
      rewrite (bool_decide_eq_true_2 _ Hin). discriminate.
  - rewrite (pieces_no_comma v Hc). unfold in_list.
    destruct (decide (strip (str v) ∈ allowed_statuses)) as [Hin|Hin].
    + rewrite (bool_decide_eq_true_2 _ Hin). eexists. split; [reflexivity|].
      split; [intros _|reflexivity].
      constructor; [exact Hin|constructor].
    + rewrite (bool_decide_eq_false_2 _ Hin). eexists. split; [reflexivity|].
      split; [discriminate|]. intros HF. apply Forall_cons in HF as [HF _].
      contradiction.
Qed.

Lemma validate_course_status_every_piece_witness :
  ∃ res : verdict,
    validate_course_status (VStr "Open, Closed,") = Ok res
    ∧ (valid res = true
       ↔ Forall (λ s, s ∈ ["Open"; "Closed"])
           (pieces (VStr "Open, Closed,"))).
Proof.
  apply (validate_course_status_every_piece (VStr "Open, Closed,")).
  - reflexivity.
  - discriminate.
Defined.

(** ** More on the URL validator *)

Lemma url_loop_ext (w1 w2 : web) (urls : list string) :
  (∀ errors url, url_step w1 errors url = url_step w2 errors url) →
  ∀ errors, url_loop w1 errors urls = url_loop w2 errors urls.
Proof.
  intros H. induction urls as [|url urls IH]; intros errors; [reflexivity|].
  cbn [url_loop]. rewrite H.
  destruct (url_step w2 errors url) as [errors'|e]; [|reflexivity].
  rewrite !bind_Ok_l. apply IH.
Qed.

(** X7: a URL that does not parse into a scheme and a host is never
    probed: when the parser accepts no URL, the verdict does not depend on
    what the network would answer. *)
Theorem validate_course_level_url_malformed_not_probed
    (parse : string → result (string * string))
    (head1 head2 : string → head_outcome) (v : pyval) :
  (∀ u scheme netloc, parse u = Ok (scheme, netloc) →
                      scheme = "" ∨ netloc = "") →
  validate_course_level_url (Web parse head1) v
  = validate_course_level_url (Web parse head2) v.
Proof.
  intros Hp. unfold validate_course_level_url.
  rewrite (url_loop_ext (Web parse head1) (Web parse head2));
    [reflexivity|].
  intros errors u. unfold url_step. simpl.
  destruct (bool_decide (strip u = "")); [reflexivity|].
  destruct (parse (strip u)) as [[scheme netloc]|e] eqn:Hu; [|reflexivity].
  destruct (Hp _ _ _ Hu) as [-> | ->]; [reflexivity|].
  destruct (bool_decide (scheme = "")); reflexivity.
Qed.

Lemma validate_course_level_url_malformed_not_probed_witness :
  validate_course_level_url
    (Web (λ _, Ok ("", "")) (λ _, Response 404)) (VStr "example")
  = validate_course_level_url
      (Web (λ _, Ok ("", "")) (λ _, Response 200)) (VStr "example").
Proof.
  apply validate_course_level_url_malformed_not_probed.
  intros u scheme netloc [= <- <-]. left. reflexivity.
Defined.

(** X8: a value that is not blank but has only blank pieces between its
    commas (such as a lone comma) passes as "All URLs are working": every
    piece is skipped, nothing is parsed or probed. *)
Theorem validate_course_level_url_only_commas (w : web) (v : pyval) :
  isna v = false → strip (str v) ≠ "" →
  Forall (λ u, strip u = "") (split_on "," (str v)) →
  validate_course_level_url w v = Ok (Verdict true "All URLs are working").
Proof.
  intros Hv Hs Hblank. unfold validate_course_level_url.
  rewrite Hv, (bool_decide_eq_false_2 _ Hs). simpl orb. cbv iota zeta.
  assert (url_loop w [] (split_on "," (str v)) = Ok []) as ->;
    [|reflexivity].
  induction Hblank as [|u us Hu _ IH]; [reflexivity|]. cbn [url_loop].
  unfold url_step at 1. cbv zeta.
  rewrite (bool_decide_eq_true_2 _ Hu), bind_Ok_l. exact IH.
Qed.

Lemma validate_course_level_url_only_commas_witness :
  validate_course_level_url web_ftp (VStr " , ,")
  = Ok (Verdict true "All URLs are working").
Proof.
  apply validate_course_level_url_only_commas.
  - reflexivity.
  - discriminate.
  - repeat constructor.
Defined.

(** ** More on the date cleaner *)

Lemma clean_date_format_text (v : pyval) :
  isna v = false →
  _clean_date_format v =
  match re_search date_pattern (str v) with
  | Some date_match => date_match
  | None => strip (str v)
  end.
Proof.
  intros Hv. unfold _clean_date_format. rewrite Hv.
  destruct (is_empty_str v) eqn:He.
  - destruct v as [|[|]|]; try discriminate. reflexivity.
  - simpl. rewrite re_search_strip; [reflexivity|discriminate|].
    exact space_free_date.
Qed.

Lemma shaped_all_chars (P : ascii → bool) (pat : list char_class)
    (m : string) :
  Forall (λ k, ∀ c, class_ok k c = true → P c = true) pat →
  shaped pat m → all_chars P m = true.
Proof.
  intros Hpat. revert m. induction Hpat as [|k pat Hk _ IH]; intros [|c m] H;
    simpl in H; try contradiction; [reflexivity|].
  destruct H as [Hc H]. simpl. rewrite (Hk c Hc), (IH m H). reflexivity.
Qed.

Lemma date_shaped_strip (m : string) : date_shaped m → strip m = m.
Proof.
  intros H. apply strip_no_space.
  apply (shaped_all_chars _ date_pattern); [|exact H].
  eapply Forall_impl; [exact space_free_date|].
  intros k Hk c Hc. simpl. rewrite (Hk c Hc). reflexivity.
Qed.

Lemma re_search_head (pat : list char_class) (s m : string) :
  match_at pat s = Some m → re_search pat s = Some m.
Proof. intros H. destruct s; simpl; simpl in H; rewrite H; reflexivity. Qed.

Lemma re_search_shaped (pat : list char_class) (m : string) :
  shaped pat m → re_search pat m = Some m.
Proof.
  intros H. apply re_search_head.
  rewrite <- (string_app_nil_r m) at 1. apply match_at_complete, H.
Qed.

(** X9: cleaning a cleaned start date changes nothing; and a cleaned
    start date is either one date of the form dddd-dd-dd alone, or a text
    that holds no such date. *)
Theorem clean_date_format_idempotent (v : pyval) :
  _clean_date_format (VStr (_clean_date_format v)) = _clean_date_format v
  ∧ (date_shaped (_clean_date_format v)
     ∨ ∀ p m r : string,
         _clean_date_format v = p +:+ m +:+ r → ¬ date_shaped m).
Proof.
  destruct (isna v) eqn:Hv.
  { destruct v; try discriminate. split; [reflexivity|]. right.
    apply (re_search_None date_pattern). reflexivity. }
  rewrite (clean_date_format_text (VStr _) eq_refl). simpl str.
  rewrite (clean_date_format_text v Hv).
  destruct (re_search date_pattern (str v)) as [m|] eqn:Hs.
  - destruct (re_search_Some _ _ _ Hs) as (_ & _ & _ & Hm & _).
    rewrite (re_search_shaped _ _ Hm). split; [reflexivity|left; exact Hm].
  - assert (re_search date_pattern (strip (str v)) = None) as Hn.
    { rewrite re_search_strip; [exact Hs|discriminate|exact space_free_date]. }
    rewrite Hn, strip_idemp. split; [reflexivity|]. right.
    apply (re_search_None date_pattern), Hn.
Qed.

Lemma contains_char (a : ascii) (s : string) :
  contains (String a "") s = negb (all_chars (λ c, negb (ascii_eqb a c)) s).
Proof.
  induction s as [|c s IH]; [reflexivity|].
  change (contains (String a "") (String c s))
    with (startswith (String c s) (String a "") || contains (String a "") s).
  simpl. rewrite IH.
  assert (startswith s "" = true) as -> by (destruct s; reflexivity).
  rewrite andb_true_r, negb_andb, negb_involutive. reflexivity.
Qed.

Lemma date_shaped_no_comma (m : string) :
  date_shaped m → contains "," m = false.
Proof.
  intros H. rewrite contains_char.
  rewrite (shaped_all_chars _ date_pattern m); [reflexivity| |exact H].
  repeat constructor; intros c Hc; simpl in Hc;
    solve [ apply bool_decide_eq_true in Hc; subst; reflexivity
          | destruct c as [[] [] [] [] [] [] [] []]; try discriminate Hc;
            reflexivity ].
Qed.

Lemma date_shaped_not_empty (m : string) : date_shaped m → m ≠ "".
Proof. intros H ->. exact H. Qed.

(** X10: when the date cleaner has found a date, the cleaned start date
    is that one date, so the intake validator accepts the row's intake ids
    exactly when they are a single id: after cleaning, a row with several
    intake ids never passes. *)
Theorem cleaned_date_allows_one_intake (intake_ids d : pyval) :
  isna intake_ids = false → date_shaped (_clean_date_format d) →
  ∃ res : verdict,
    validate_course_intake_ids intake_ids (VStr (_clean_date_format d))
    = Ok res
    ∧ (valid res = true ↔ length (components (str intake_ids)) = 1).
Proof.
  intros Hi Hm. set (m := _clean_date_format d) in *.
  rewrite (validate_course_intake_ids_counts intake_ids (VStr m) Hi eq_refl).
  cbv zeta. simpl str.
  assert (components m = [m]) as ->.
  { unfold components. rewrite (split_on_no_sep _ _ (date_shaped_no_comma m Hm)).
    rewrite filter_cons_True.
    - simpl. rewrite (date_shaped_strip m Hm). reflexivity.
    - rewrite (date_shaped_strip m Hm). apply date_shaped_not_empty, Hm. }
  simpl length.
  destruct (decide (length (components (str intake_ids)) = 1)) as [H1|H1].
  - rewrite bool_decide_eq_false_2 by (intros H; exact (H H1)).
    rewrite bool_decide_eq_true_2.
    + eexists. split; [reflexivity|]. split; [intros _; exact H1|reflexivity].
    + destruct (components (str intake_ids)) as [|x [|y l]];
        try discriminate H1. apply NoDup_singleton.
  - rewrite (bool_decide_eq_true_2 _ H1). eexists. split; [reflexivity|].
    split; [discriminate|]. intros H. contradiction.
Qed.

Lemma cleaned_date_allows_one_intake_witness :
  ∃ res : verdict,
    validate_course_intake_ids (VStr "1,2")
      (VStr (_clean_date_format (VStr "2024-09-01,2025-01-15")))
    = Ok res
    ∧ (valid res = true ↔ length (components (str (VStr "1,2"))) = 1).
Proof.
  apply (cleaned_date_allows_one_intake (VStr "1,2")
           (VStr "2024-09-01,2025-01-15")).
  - reflexivity.
  - repeat split.
Defined.

(** ** Study mode: cleaning, then validating *)

(** X11: the study-mode validator accepts a cleaned study mode exactly
    when the raw text mentions "full" or "part" in some letter case; every
    other cleaned value, the blank one included, is refused. *)
Theorem cleaned_study_mode_valid_iff (v : pyval) :
  ∃ res : verdict,
    validate_study_mode (VStr (_normalize_study_mode v)) = Ok res
    ∧ valid res
      = contains "full" (lower (str v)) || contains "part" (lower (str v)).
Proof.
  destruct (isna v) eqn:Hv.
  { destruct v; try discriminate. eexists. split; reflexivity. }
  rewrite (normalize_study_mode_text v Hv).
  destruct (contains "full" (lower (str v))) eqn:Hf;
    [eexists; split; reflexivity|].
  destruct (contains "part" (lower (str v))) eqn:Hp;
    [eexists; split; reflexivity|].
  unfold validate_study_mode. simpl isna. simpl str. rewrite strip_idemp.
  simpl orb. destruct (bool_decide (strip (str v) = ""));
    [eexists; split; reflexivity|].
  cbv zeta. unfold in_list.
  rewrite bool_decide_eq_false_2; [eexists; split; reflexivity|].
  unfold allowed_study_modes. rewrite !elem_of_cons, elem_of_nil.
  intros [H|[H|[]]].
  - assert (contains "full" (lower (strip (str v))) = true) as Hc
      by (rewrite H; reflexivity).
    rewrite lower_strip, contains_strip, Hf in Hc;
      [discriminate Hc|discriminate|exact space_free_full].
  - assert (contains "part" (lower (strip (str v))) = true) as Hc
      by (rewrite H; reflexivity).
    rewrite lower_strip, contains_strip, Hp in Hc;
      [discriminate Hc|discriminate|exact space_free_part].
Qed.

(** ** The compound URL cell *)

Lemma all_chars_lstrip (P : ascii → bool) (s : string) :
  all_chars P s = true → all_chars P (lstrip s) = true.
Proof.
  induction s as [|c s IH]; [reflexivity|]. intros H. simpl.
  destruct (is_space c); [|exact H].
  simpl in H. apply andb_true_iff in H as [_ H]. exact (IH H).
Qed.

Lemma all_chars_rstrip (P : ascii → bool) (s : string) :
  all_chars P s = true → all_chars P (rstrip s) = true.
Proof.
  induction s as [|c s IH]; [reflexivity|]. intros H.
  simpl in H. apply andb_true_iff in H as [Hc H].
  rewrite rstrip_cons.
  destruct (bool_decide (rstrip s = "") && is_space c); [reflexivity|].
  simpl. rewrite Hc, (IH H). reflexivity.
Qed.

Lemma all_chars_strip (P : ascii → bool) (s : string) :
  all_chars P s = true → all_chars P (strip s) = true.
Proof. intros H. apply all_chars_rstrip, all_chars_lstrip, H. Qed.

Lemma split_on_pieces_no_sep (sep : ascii) (s : string) :
  Forall (λ x, all_chars (λ c, negb (ascii_eqb sep c)) x = true)
    (split_on sep s).
Proof.
  induction s as [|c s IH]; [repeat constructor|].
  change (split_on sep (String c s))
    with (if ascii_eqb c sep then "" :: split_on sep s
          else match split_on sep s with
               | [] => [String c ""]
               | h :: t => String c h :: t
               end).
  destruct (ascii_eqb c sep) eqn:Hc; [constructor; [reflexivity|exact IH]|].
  assert (negb (ascii_eqb sep c) = true) as Hc'.
  { unfold ascii_eqb in *. apply bool_decide_eq_false in Hc.
    rewrite bool_decide_eq_false_2; [reflexivity|congruence]. }
  destruct (split_on sep s) as [|h t].
  - repeat constructor. simpl. rewrite Hc'. reflexivity.
  - apply Forall_cons in IH as [Hh Ht]. constructor; [|exact Ht].
    simpl. rewrite Hc', Hh. reflexivity.
Qed.

Lemma url_part_no_comma (s : string) :
  contains "," (strip (hd "" (split_on "," s))) = false.
Proof.
  rewrite contains_char. apply negb_false_iff, all_chars_strip.
  pose proof (split_on_pieces_no_sep "," s) as H.
  destruct (split_on "," s) as [|h t]; [reflexivity|].
  apply Forall_cons in H as [H _]. exact H.
Qed.

Lemma extract_row_url (row : gmap string pyval) :
  extract_row row !! "Course Level URL" =
  match row !! "Course Level URL" with
  | None => None
  | Some v =>
      if contains "," (str v)
      then Some (VStr (strip (hd "" (split_on "," (str v)))))
      else Some v
  end.
Proof.
  unfold extract_row. destruct (row !! "Course Level URL") as [v|] eqn:Hv;
    [|exact Hv].
  destruct (contains "," (str v)); [|exact Hv].
  repeat case_match; rewrite ?lookup_insert_ne by discriminate;
    apply lookup_insert_eq.
Qed.

Lemma extract_row_no_comma (row : gmap string pyval) (v : pyval) :
  extract_row row !! "Course Level URL" = Some v →
  contains "," (str v) = false.
Proof.
  rewrite extract_row_url.
  destruct (row !! "Course Level URL") as [v0|]; [|discriminate].
  destruct (contains "," (str v0)) eqn:Hc; intros [= <-];
    [apply url_part_no_comma|exact Hc].
Qed.

(** X12: after the compound cell has been split, the URL cell of a row
    holds no comma, so at most one URL; and splitting a row a second time
    changes nothing. *)
Theorem extract_row_single_url (row : gmap string pyval) :
  (∀ v, extract_row row !! "Course Level URL" = Some v →
        contains "," (str v) = false)
  ∧ extract_row (extract_row row) = extract_row row.
Proof.
  split; [exact (extract_row_no_comma row)|].
  unfold extract_row at 1.
  destruct (extract_row row !! "Course Level URL") as [v|] eqn:Hv;
    [|reflexivity].
  rewrite (extract_row_no_comma row v Hv). reflexivity.
Qed.

(** ** What cleaning leaves alone *)

Lemma agree_on_refl (c : string) (l : list (gmap string pyval)) :
  agree_on c l l.
Proof. split; [reflexivity|]. intros i row H. exists row. split; trivial. Qed.

Lemma agree_on_trans (c : string) (l1 l2 l3 : list (gmap string pyval)) :
  agree_on c l1 l2 → agree_on c l2 l3 → agree_on c l1 l3.
Proof.
  intros [L12 H12] [L23 H23]. split; [congruence|].
  intros i row H. destruct (H12 i row H) as (row2 & H2 & E2).
  destruct (H23 i row2 H2) as (row3 & H3 & E3).
  exists row3. split; [exact H3|congruence].
Qed.

Lemma agree_on_map (c : string) (g : gmap string pyval → gmap string pyval)
    (l : list (gmap string pyval)) :
  (∀ r, g r !! c = r !! c) → agree_on c l (map g l).
Proof.
  intros Hg. split; [apply length_map|].
  intros i row H. exists (g row). split; [|apply Hg].
  change (map g l) with (g <$> l). rewrite list_lookup_fmap, H. reflexivity.
Qed.

Lemma apply_str_agree (k c : string) (f : pyval → string) (df : DataFrame) :
  c ≠ k → agree_on c (rows df) (rows (apply_str k f df)).
Proof.
  intros Hc. apply agree_on_map. intros r.
  apply lookup_alter_ne. congruence.
Qed.

Lemma ensure_column_agree (k c : string) (df : DataFrame) :
  c ≠ k → agree_on c (rows df) (rows (ensure_column k df)).
Proof.
  intros Hc. unfold ensure_column.
  destruct (in_list k (columns df)); [apply agree_on_refl|].
  apply agree_on_map. intros r. apply lookup_insert_ne. congruence.
Qed.

Lemma extract_row_other (c : string) (row : gmap string pyval) :
  c ∉ ["Course Level URL"; "Course Status"; "Show"] →
  extract_row row !! c = row !! c.
Proof.
  intros Hc. rewrite !not_elem_of_cons in Hc.
  destruct Hc as (H1 & H2 & H3 & _).
  unfold extract_row. repeat case_match; try reflexivity;
    rewrite ?lookup_insert_ne by congruence; reflexivity.
Qed.

Lemma extract_status_and_show_agree (c : string) (df : DataFrame) :
  c ∉ ["Course Level URL"; "Course Status"; "Show"] →
  agree_on c (rows df) (rows (_extract_status_and_show df)).
Proof.
  intros Hc. pose proof Hc as Hc'. rewrite !not_elem_of_cons in Hc'.
  destruct Hc' as (H1 & H2 & H3 & _).
  unfold _extract_status_and_show.
  destruct (negb (in_list "Course Level URL" (columns df)));
    [apply agree_on_refl|].
  eapply agree_on_trans; [apply (ensure_column_agree "Course Status"), H2|].
  eapply agree_on_trans; [apply (ensure_column_agree "Show"), H3|].
  apply agree_on_map. intros r. apply extract_row_other, Hc.
Qed.

(** X13: cleaning keeps the number and the order of the rows, and in
    every column other than Course start date, Study Mode, Course Level
    URL, Course Status and Show it does nothing to a cell but erase a null
    marker. *)
Theorem clean_data_other_columns (df : DataFrame) (i : nat)
    (row : gmap string pyval) (c : string) :
  rows df !! i = Some row →
  c ∉ ["Course start date"; "Study Mode"; "Course Level URL";
       "Course Status"; "Show"] →
  length (rows (clean_data df)) = length (rows df)
  ∧ ∃ row', rows (clean_data df) !! i = Some row'
            ∧ row' !! c = replace_cell <$> row !! c.
Proof.
  intros Hrow Hc. pose proof Hc as Hc'. rewrite !not_elem_of_cons in Hc'.
  destruct Hc' as (H1 & H2 & H3 & H4 & H5 & _).
  assert (agree_on c (rows (replace_nulls df)) (rows (clean_data df))) as Ha.
  { unfold clean_data. cbv zeta.
    set (d1 := replace_nulls df).
    set (d2 := if in_list "Course start date" (columns d1)
               then apply_str "Course start date" _clean_date_format d1
               else d1).
    set (d3 := if in_list "Study Mode" (columns d2)
               then apply_str "Study Mode" _normalize_study_mode d2
               else d2).
    assert (agree_on c (rows d1) (rows d2)) as A12.
    { unfold d2. destruct (in_list "Course start date" (columns d1));
        [apply apply_str_agree, H1|apply agree_on_refl]. }
    assert (agree_on c (rows d2) (rows d3)) as A23.
    { unfold d3. destruct (in_list "Study Mode" (columns d2));
        [apply apply_str_agree, H2|apply agree_on_refl]. }
    eapply agree_on_trans; [exact A12|].
    eapply agree_on_trans; [exact A23|].
    destruct (in_list "Course Level URL" (columns d3));
      [|apply agree_on_refl].
    apply extract_status_and_show_agree.
    rewrite !not_elem_of_cons. repeat split; try assumption.
    apply not_elem_of_nil. }
  destruct Ha as [Hlen Hrows]. split.
  - rewrite Hlen. unfold replace_nulls. simpl. apply length_map.
  - destruct (Hrows i (replace_cell <$> row)) as (row' & Hr' & Hc').
    + unfold replace_nulls. simpl.
      change (map (fmap replace_cell) (rows df))
        with (fmap (M:=list) (fmap replace_cell) (rows df)).
      rewrite list_lookup_fmap, Hrow. reflexivity.
    + exists row'. split; [exact Hr'|]. rewrite Hc', lookup_fmap. reflexivity.
Qed.

Lemma clean_data_other_columns_witness :
  length (rows (clean_data
                  (Frame ["Course Name"; "Study Mode"]
                     [{["Course Name" := VStr "NULL";
                        "Study Mode" := VStr "full"]}]))) = 1
  ∧ ∃ row', rows (clean_data
                    (Frame ["Course Name"; "Study Mode"]
                       [{["Course Name" := VStr "NULL";
                          "Study Mode" := VStr "full"]}])) !! 0 = Some row'
            ∧ row' !! "Course Name"
              = replace_cell <$>
                  ({["Course Name" := VStr "NULL";
                     "Study Mode" := VStr "full"]} : gmap string pyval)
                    !! "Course Name".
Proof.
  apply (clean_data_other_columns
           (Frame ["Course Name"; "Study Mode"]
              [{["Course Name" := VStr "NULL"; "Study Mode" := VStr "full"]}])
           0 {["Course Name" := VStr "NULL"; "Study Mode" := VStr "full"]}
           "Course Name").
  - reflexivity.
  - compute_done.
Defined.

Lemma clean_data_rows_extracted (df : DataFrame) :
  in_list "Course Level URL" (columns df) = true →
  ∃ l, rows (clean_data df) = map extract_row l.
Proof.
  intros Hc. unfold clean_data. cbv zeta.
  set (d1 := replace_nulls df).
  set (d2 := if in_list "Course start date" (columns d1)
             then apply_str "Course start date" _clean_date_format d1
             else d1).
  set (d3 := if in_list "Study Mode" (columns d2)
             then apply_str "Study Mode" _normalize_study_mode d2
             else d2).
  assert (columns d3 = columns df) as Hcols.
  { unfold d3, d2, d1.
    destruct (in_list "Course start date" (columns (replace_nulls df)));
      simpl; destruct (in_list "Study Mode" (columns df)); reflexivity. }
  rewrite Hcols, Hc. unfold _extract_status_and_show.
  rewrite Hcols, Hc. simpl. eexists. reflexivity.
Qed.

(** X14: when the frame has a Course Level URL column, no URL cell of
    the cleaned frame holds a comma: whatever followed the first comma of
    the raw cell is gone from the URL, and the URL validator sees one URL
    at most. *)
Theorem clean_data_single_url (df : DataFrame) (i : nat)
    (row : gmap string pyval) (v : pyval) :
  in_list "Course Level URL" (columns df) = true →
  rows (clean_data df) !! i = Some row →
  row !! "Course Level URL" = Some v →
  contains "," (str v) = false.
Proof.
  intros Hc Hrow Hv.
  destruct (clean_data_rows_extracted df Hc) as [l Hl].
  rewrite Hl in Hrow. change (map extract_row l) with (extract_row <$> l)
    in Hrow.
  rewrite list_lookup_fmap in Hrow.
  destruct (l !! i) as [r|]; [|discriminate]. injection Hrow as <-.
  exact (extract_row_no_comma r v Hv).
Qed.

Lemma clean_data_single_url_witness :
  contains ","
    (str (VStr "https://www.example.com/course1Open")) = false.
Proof.
  apply (clean_data_single_url
           (Frame ["Course Level URL"]
              [{["Course Level URL" :=
                   VStr "https://www.example.com/course1Open, Ope No"]}])
           0
           {["Course Level URL" := VStr "https://www.example.com/course1Open";
             "Course Status" := VStr ""; "Show" := VStr "No"]}
           (VStr "https://www.example.com/course1Open")).
  - reflexivity.
  - vm_compute. reflexivity.
  - reflexivity.
Defined.

(** ** More on the column normaliser *)

Lemma startswith_app (s p q : string) :
  startswith s (p +:+ q) = true → startswith s p = true.
Proof.
  revert s. induction p as [|a p IH]; intros s; [destruct s; reflexivity|].
  destruct s as [|c s]; [discriminate|].
  rewrite string_app_cons. simpl.
  destruct (ascii_eqb a c); [apply IH|discriminate].
Qed.

Lemma contains_app_needle (p q s : string) :
  contains (p +:+ q) s = true → contains p s = true.
Proof.
  induction s as [|c s IH].
  - change (contains (p +:+ q) "") with (startswith "" (p +:+ q) || false).
    change (contains p "") with (startswith "" p || false).
    rewrite !orb_false_r. apply startswith_app.
  - change (contains (p +:+ q) (String c s))
      with (startswith (String c s) (p +:+ q) || contains (p +:+ q) s).
    change (contains p (String c s))
      with (startswith (String c s) p || contains p s).
    intros H. apply orb_true_iff in H as [H|H].
    + rewrite (startswith_app _ _ _ H). reflexivity.
    + rewrite (IH H). apply orb_true_r.
Qed.

Lemma normalize_column_names_lookup_all (cols : list string) (col : string) :
  normalize_column_names cols !! col
  = if bool_decide (col ∈ cols) then Some (normalize_column col) else None.
Proof.
  destruct (decide (col ∈ cols)) as [Hin|Hnin].
  - rewrite (bool_decide_eq_true_2 _ Hin).
    apply normalize_column_names_lookup, Hin.
  - rewrite (bool_decide_eq_false_2 _ Hnin). unfold normalize_column_names.
    assert (∀ acc : gmap string string,
              acc !! col = None →
              foldl (λ m c, <[c := normalize_column c]> m) acc cols !! col
              = None) as H; [|apply H, lookup_empty].
    induction cols as [|c cs IH]; intros acc Hacc; [exact Hacc|].
    apply not_elem_of_cons in Hnin as [Hne Hnin]. simpl.
    apply (IH Hnin). rewrite lookup_insert_ne by congruence. exact Hacc.
Qed.

Lemma variation_targets_expected (v e : string) :
  (v, e) ∈ variations → e ∈ expected_columns.
Proof.
  unfold variations. rewrite !elem_of_cons, elem_of_nil.
  intros H. repeat destruct H as [H|H]; try contradiction;
    injection H as _ ->; compute_done.
Qed.

(** X15: the mapping the normaliser returns has exactly the given headers
    as keys; the name a header is mapped to is a canonical name or the
    header itself; and normalising that name again gives the same name. *)
Theorem normalize_column_names_keys_values (cols : list string)
    (col : string) :
  normalize_column_names cols !! col
  = (if bool_decide (col ∈ cols) then Some (normalize_column col) else None)
  ∧ (normalize_column col ∈ expected_columns ∨ normalize_column col = col)
  ∧ normalize_column (normalize_column col) = normalize_column col.
Proof.
  split; [apply normalize_column_names_lookup_all|].
  assert (∀ c, c ∈ expected_columns → normalize_column c = c) as Hexp.
  { intros c Hc. unfold normalize_column, in_list.
    rewrite (bool_decide_eq_true_2 _ Hc). reflexivity. }
  assert (normalize_column col ∈ expected_columns ∨ normalize_column col = col)
    as Hrange.
  { unfold normalize_column, in_list.
    destruct (bool_decide (col ∈ expected_columns)); [right; reflexivity|].
    destruct (find_variation col variations) as [e|] eqn:He;
      [|right; reflexivity].
    destruct (bool_decide (e = "")); [right; reflexivity|]. left.
    destruct (find_variation_elem _ _ _ He) as [v Hv].
    exact (variation_targets_expected v e Hv). }
  split; [exact Hrange|].
  destruct Hrange as [Hin|Heq]; [exact (Hexp _ Hin)|].
  rewrite Heq. exact Heq.
Qed.

Ltac next_variation col :=
  rewrite find_variation_contains;
  match goal with
  | |- context [if contains ?v col then _ else _] =>
      destruct (contains v col) eqn:?
  end.

(** X16: the variants "Course sCourse" and "Course LCourse SShow" can
    never be chosen, because the variant "Course" stands before them in
    the table and occurs in every header they occur in: no header that
    is not a canonical name is mapped to Course start date or to Course
    Level URL, and the two truncated headers are mapped to Course
    Name. *)
Theorem normalize_column_unreachable_variants (col : string) :
  col ∉ expected_columns →
  normalize_column col ≠ "Course start date"
  ∧ normalize_column col ≠ "Course Level URL"
  ∧ normalize_column "Course sCourse" = "Course Name"
  ∧ normalize_column "Course LCourse SShow" = "Course Name".
Proof.
  intros Hne.
  assert (col ≠ "Course start date" ∧ col ≠ "Course Level URL") as [Hd Hu].
  { split; intros ->; apply Hne; compute_done. }
  split; [|split; [|split; reflexivity]];
    unfold normalize_column, in_list;
    rewrite (bool_decide_eq_false_2 _ Hne); cbv [variations];
    repeat next_variation col; simpl; try discriminate; try assumption.
  - match goal with
    | H : contains "Course sCourse" col = true |- _ =>
        apply (contains_app_needle "Course" " sCourse") in H
    end.
    congruence.
  - match goal with
    | H : contains "Course LCourse SShow" col = true |- _ =>
        apply (contains_app_needle "Course" " LCourse SShow") in H
    end.
    congruence.
Qed.

Lemma normalize_column_unreachable_variants_witness :
  normalize_column "Course sCourse (start)" ≠ "Course start date"
  ∧ normalize_column "Course sCourse (start)" ≠ "Course Level URL"
  ∧ normalize_column "Course sCourse" = "Course Name"
  ∧ normalize_column "Course LCourse SShow" = "Course Name".
Proof.
  apply normalize_column_unreachable_variants. compute_done.
Defined.

(** ** More on the loop over the rows *)

Lemma validate_all_fields_row_numbers (w : web) (row : gmap string pyval)
    (row_index : nat) (all_course_ids : list pyval)
    (errs : list error_record) :
  validate_all_fields w row row_index all_course_ids = Ok errs →
  Forall (λ r, e_row r = row_index + 1) errs.
Proof.
  intros H. apply validate_all_fields_blocks in H as (tails & -> & Hb).
  eapply Forall_impl; [exact (block_output_Forall _ _ _ Hb)|].
  intros r (Hr & _). exact Hr.
Qed.

Lemma same_row_sorted (k : nat) (l : list error_record) :
  Forall (λ r, e_row r = k) l →
  StronglySorted (λ a b, e_row a ≤ e_row b) l.
Proof.
  induction 1 as [|r l Hr Hl IH]; constructor; [exact IH|].
  eapply Forall_impl; [exact Hl|]. intros x Hx. simpl in *. lia.
Qed.

Lemma validate_rows_row_numbers (w : web) (cancelled : nat → bool)
    (all_course_ids : list pyval) (rs : list (gmap string pyval)) :
  ∀ (index : nat) (acc errs : list error_record) (o : option exn),
    validate_rows w cancelled all_course_ids index rs acc = (errs, o) →
    ∃ added,
      errs = acc ++ added
      ∧ Forall (λ r, index + 1 ≤ e_row r ≤ index + length rs) added
      ∧ StronglySorted (λ a b, e_row a ≤ e_row b) added.
Proof.
  induction rs as [|row rs IH]; intros index acc errs o H;
    cbn [validate_rows] in H.
  - injection H as <- <-. exists []. rewrite app_nil_r.
    repeat split; constructor.
  - destruct (cancelled index).
    { injection H as <- <-. exists []. rewrite app_nil_r.
      repeat split; constructor. }
    destruct (validate_all_fields w row index all_course_ids) as [l|e]
      eqn:Hl.
    2:{ injection H as <- <-. exists []. rewrite app_nil_r.
        repeat split; constructor. }
    apply IH in H as (added & -> & Hrange & Hsorted).
    pose proof (validate_all_fields_row_numbers _ _ _ _ _ Hl) as Hrows.
    exists (l ++ added). split; [rewrite app_assoc; reflexivity|]. split.
    + apply Forall_app. split.
      * eapply Forall_impl; [exact Hrows|]. intros r Hr. simpl in *. lia.
      * eapply Forall_impl; [exact Hrange|]. intros r Hr. simpl in *. lia.
    + apply StronglySorted_app_2; [|exact (same_row_sorted _ _ Hrows)
                                   |exact Hsorted].
      intros x1 x2 H1 H2. rewrite Forall_forall in Hrows, Hrange.
      specialize (Hrows x1 H1). specialize (Hrange x2 H2). simpl in *. lia.
Qed.

(** X17: whatever list the run leaves, complete, cancelled or stopped by
    an exception, its records are in the order of the rows, and every row
    number lies between 1 and the number of rows. *)
Theorem run_validation_rows_in_order (w : web) (cancelled : nat → bool)
    (df : DataFrame) (errs : list error_record) (ending : run_end) :
  run_validation w cancelled df = (errs, ending) →
  Forall (λ r, 1 ≤ e_row r ≤ length (rows df)) errs
  ∧ StronglySorted (λ a b, e_row a ≤ e_row b) errs.
Proof.
  intros H. apply run_validation_rows in H as (o & H & _).
  apply validate_rows_row_numbers in H as (added & -> & Hrange & Hsorted).
  split; [exact Hrange|exact Hsorted].
Qed.

Lemma run_validation_rows_in_order_witness :
  Forall (λ r, 1 ≤ e_row r ≤ length (rows frame_text_ids))
    [ErrorRecord 1 "Course Id" "Numeric" "Course Id must be numeric" "abc";
     ErrorRecord 2 "Course Id" "Numeric" "Course Id must be numeric" "abc"]
  ∧ StronglySorted (λ a b, e_row a ≤ e_row b)
      [ErrorRecord 1 "Course Id" "Numeric" "Course Id must be numeric" "abc";
       ErrorRecord 2 "Course Id" "Numeric" "Course Id must be numeric" "abc"].
Proof.
  apply (run_validation_rows_in_order web_gone (λ _, false) frame_text_ids
           _ validation_complete).
  vm_compute. reflexivity.
Defined.

Lemma filter_all {A} (P : A → Prop) `{∀ x, Decision (P x)} (l : list A) :
  Forall P l → filter P l = l.
Proof.
  induction 1 as [|a l Ha _ IH]; [reflexivity|].
  rewrite filter_cons_True by exact Ha. rewrite IH. reflexivity.
Qed.

Lemma filter_none {A} (P : A → Prop) `{∀ x, Decision (P x)} (l : list A) :
  Forall (λ x, ¬ P x) l → filter P l = [].
Proof. apply filter_nil_Forall. Qed.

Lemma validate_rows_cancelled (w : web) (cancelled : nat → bool)
    (all_course_ids : list pyval) (rs : list (gmap string pyval)) :
  ∀ (k index : nat) (acc all : list error_record),
    (∀ j, index ≤ j < index + k → cancelled j = false) →
    cancelled (index + k) = true →
    Forall (λ r, e_row r ≤ index) acc →
    validate_rows w (λ _, false) all_course_ids index rs acc = (all, None) →
    validate_rows w cancelled all_course_ids index rs acc
    = (filter (λ r, e_row r ≤ index + k) all, None).
Proof.
  induction rs as [|row rs IH]; intros k index acc all Hbefore Hk Hacc Hall.
  - simpl in *. injection Hall as <-. rewrite filter_all; [reflexivity|].
    eapply Forall_impl; [exact Hacc|]. intros r Hr. simpl in *. lia.
  - pose proof Hall as Hall'.
    apply validate_rows_row_numbers in Hall' as (added & -> & Hrange & _).
    cbn [validate_rows] in Hall.
    destruct (validate_all_fields w row index all_course_ids) as [l|e]
      eqn:Hl; [|discriminate Hall].
    pose proof (validate_all_fields_row_numbers _ _ _ _ _ Hl) as Hrows.
    cbn [validate_rows]. destruct k as [|k].
    + rewrite Nat.add_0_r in Hk. rewrite Hk, Nat.add_0_r.
      rewrite filter_app, (filter_all _ acc Hacc), filter_none;
        [rewrite app_nil_r; reflexivity|].
      eapply Forall_impl; [exact Hrange|]. intros r Hr. simpl in *. lia.
    + rewrite (Hbefore index) by lia. rewrite Hl.
      rewrite <- Nat.add_succ_comm. apply IH.
      * intros j Hj. apply Hbefore. lia.
      * rewrite Nat.add_succ_comm. exact Hk.
      * apply Forall_app. split.
        -- eapply Forall_impl; [exact Hacc|]. intros r Hr. simpl in *. lia.
        -- eapply Forall_impl; [exact Hrows|]. intros r Hr. simpl in *. lia.
      * exact Hall.
Qed.

(** X18: cancelling keeps the partial result: when the user cancels by
    the time row k (counted from 0) is reached and not before, and the
    uncancelled run would validate every row, the run ends as complete
    with exactly the records of rows 1 to k that the uncancelled run
    leaves. *)
Theorem run_validation_cancelled_prefix (w : web) (cancelled : nat → bool)
    (df : DataFrame) (k : nat) (all : list error_record) :
  (∀ j, j < k → cancelled j = false) → cancelled k = true →
  run_validation w (λ _, false) df = (all, validation_complete) →
  run_validation w cancelled df
  = (filter (λ r, e_row r ≤ k) all, validation_complete).
Proof.
  intros Hbefore Hk Hall. apply run_validation_complete in Hall.
  unfold run_validation. cbv zeta.
  rewrite (validate_rows_cancelled w cancelled _ (rows df) k 0 [] all);
    [reflexivity| | | |].
  - intros j Hj. apply Hbefore. lia.
  - exact Hk.
  - constructor.
  - exact Hall.
Qed.

Lemma run_validation_cancelled_prefix_witness :
  run_validation web_gone (λ j, bool_decide (1 ≤ j)) frame_text_ids
  = (filter (λ r, e_row r ≤ 1)
       [ErrorRecord 1 "Course Id" "Numeric" "Course Id must be numeric"
          "abc";
        ErrorRecord 2 "Course Id" "Numeric" "Course Id must be numeric"
          "abc"], validation_complete).
Proof.
  apply (run_validation_cancelled_prefix web_gone
           (λ j, bool_decide (1 ≤ j)) frame_text_ids 1).
  - intros j Hj. apply bool_decide_eq_false_2. lia.
  - reflexivity.
  - vm_compute. reflexivity.
Defined.

(** ** When a run is lost *)


















(** ** The report: fills and error counts *)

Lemma validate_rows_Forall (w : web) (cancelled : nat → bool)
    (all_course_ids : list pyval) (P : error_record → Prop)
    (rs : list (gmap string pyval)) :
  (∀ row idx l, validate_all_fields w row idx all_course_ids = Ok l →
                Forall P l) →
  ∀ (index : nat) (acc errs : list error_record) (o : option exn),
    Forall P acc →
    validate_rows w cancelled all_course_ids index rs acc = (errs, o) →
    Forall P errs.
Proof.
  intros HP. induction rs as [|row rs IH]; intros index acc errs o Hacc H;
    cbn [validate_rows] in H.
  - injection H as <- <-. exact Hacc.
  - destruct (cancelled index); [injection H as <- <-; exact Hacc|].
    destruct (validate_all_fields w row index all_course_ids) as [l|e]
      eqn:Hl; [|injection H as <- <-; exact Hacc].
    apply (IH (S index) (acc ++ l) errs o); [|exact H].
    apply Forall_app. split; [exact Hacc|exact (HP _ _ _ Hl)].
Qed.

Lemma categories_coloured (c t : string) :
  t ∈ categories c → is_Some (dict_get t error_colors).
Proof.
  unfold categories. repeat case_match;
    rewrite ?elem_of_cons, elem_of_nil; intros Ht;
    repeat destruct Ht as [Ht|Ht]; try contradiction; rewrite Ht;
    eexists; reflexivity.
Qed.

Lemma run_validation_coloured (w : web) (cancelled : nat → bool)
    (df : DataFrame) (errs : list error_record) (ending : run_end) :
  run_validation w cancelled df = (errs, ending) →
  Forall (λ r, is_Some (dict_get (e_error_type r) error_colors)) errs.
Proof.
  intros H. apply run_validation_rows in H as (o & H & _). revert H.
  apply (validate_rows_Forall w cancelled _
           (λ r, is_Some (dict_get (e_error_type r) error_colors)));
    [|constructor].
  intros row idx l Hl.
  eapply Forall_impl; [exact (validate_all_fields_record_ok _ _ _ _ _ Hl)|].
  intros r (_ & Ht & _). exact (categories_coloured _ _ Ht).
Qed.

Lemma apply_error_highlighting_first (row_idx col_idx : nat)
    (errs : list error_record) :
  Forall (λ r, is_Some (dict_get (e_error_type r) error_colors)) errs →
  _apply_error_highlighting row_idx col_idx errs =
  match filter (λ e, Z.of_nat (e_row e) = (Z.of_nat row_idx - 1)%Z) errs with
  | [] => None
  | r :: _ => dict_get (e_error_type r) error_colors
  end.
Proof.
  induction 1 as [|r errs [fill Hr] _ IH]; [reflexivity|].
  cbn [_apply_error_highlighting]. rewrite filter_cons.
  destruct (decide (Z.of_nat (e_row r) = (Z.of_nat row_idx - 1)%Z))
    as [Heq|Hne].
  - rewrite (bool_decide_eq_true_2 _ Heq), Hr. reflexivity.
  - rewrite (bool_decide_eq_false_2 _ Hne). exact IH.
Qed.

(** X21: in the exported sheet a whole row is filled or left alone: for
    the records a run leaves, however it ends, a sheet row without a
    record gets no fill, and every cell of a sheet row with records gets
    the colour of the category of the row's first record, whatever the
    cell's own column is. *)
Theorem highlighting_is_by_row (w : web) (cancelled : nat → bool)
    (df : DataFrame) (errs : list error_record) (ending : run_end)
    (row_idx : nat) :
  run_validation w cancelled df = (errs, ending) →
  (error_count errs row_idx = 0 →
   ∀ col_idx, _apply_error_highlighting row_idx col_idx errs = None)
  ∧ (∀ r rest,
       filter (λ e, Z.of_nat (e_row e) = (Z.of_nat row_idx - 1)%Z) errs
       = r :: rest →
       ∃ fill, dict_get (e_error_type r) error_colors = Some fill
               ∧ ∀ col_idx,
                   _apply_error_highlighting row_idx col_idx errs
                   = Some fill).
Proof.
  intros Hrun. pose proof (run_validation_coloured _ _ _ _ _ Hrun) as Hcol.
  split.
  - unfold error_count. intros H0 col_idx.
    rewrite (apply_error_highlighting_first _ _ _ Hcol).
    apply length_zero_iff_nil in H0. rewrite H0. reflexivity.
  - intros r rest Hf.
    assert (r ∈ errs) as Hin.
    { apply (list_elem_of_filter
               (λ e, Z.of_nat (e_row e) = (Z.of_nat row_idx - 1)%Z) errs r).
      rewrite Hf. left. }
    rewrite Forall_forall in Hcol. destruct (Hcol r Hin) as [fill Hfill].
    exists fill. split; [exact Hfill|]. intros col_idx.
    rewrite apply_error_highlighting_first, Hf;
      [exact Hfill|apply Forall_forall, Hcol].
Qed.

Lemma highlighting_is_by_row_witness :
  (error_count
     [ErrorRecord 1 "Course Id" "Numeric" "Course Id must be numeric" "abc";
      ErrorRecord 2 "Course Id" "Numeric" "Course Id must be numeric" "abc"]
     3 = 0 →
   ∀ col_idx,
     _apply_error_highlighting 3 col_idx
       [ErrorRecord 1 "Course Id" "Numeric" "Course Id must be numeric" "abc";
        ErrorRecord 2 "Course Id" "Numeric" "Course Id must be numeric" "abc"]
     = None)
  ∧ (∀ r rest,
       filter (λ e, Z.of_nat (e_row e) = (Z.of_nat 3 - 1)%Z)
         [ErrorRecord 1 "Course Id" "Numeric" "Course Id must be numeric"
            "abc";
          ErrorRecord 2 "Course Id" "Numeric" "Course Id must be numeric"
            "abc"]
       = r :: rest →
       ∃ fill, dict_get (e_error_type r) error_colors = Some fill
               ∧ ∀ col_idx,
                   _apply_error_highlighting 3 col_idx
                     [ErrorRecord 1 "Course Id" "Numeric"
                        "Course Id must be numeric" "abc";
                      ErrorRecord 2 "Course Id" "Numeric"
                        "Course Id must be numeric" "abc"]
                   = Some fill).
Proof.
  apply (highlighting_is_by_row web_gone (λ _, false) frame_text_ids _
           validation_complete).
  vm_compute. reflexivity.
Defined.

Lemma sum_list_map_add {A} (g h : A → nat) (l : list A) :
  sum_list (map (λ k, g k + h k) l) = sum_list (map g l) + sum_list (map h l).
Proof. induction l as [|a l IH]; simpl; [reflexivity|]. rewrite IH. lia. Qed.

Lemma sum_list_one_hit (x a n : nat) :
  a ≤ x < a + n →
  sum_list (map (λ k, if decide (x = k) then 1 else 0) (seq a n)) = 1.
Proof.
  revert a. induction n as [|n IH]; intros a Hx; [lia|]. simpl.
  destruct (decide (x = a)) as [->|Hne].
  - assert (∀ m b, a < b →
              sum_list (map (λ k, if decide (a = k) then 1 else 0) (seq b m))
              = 0) as Hzero.
    { induction m as [|m IHm]; intros b Hb; [reflexivity|]. simpl.
      rewrite decide_False by lia. rewrite IHm by lia. reflexivity. }
    rewrite Hzero by lia. reflexivity.
  - rewrite IH by lia. reflexivity.
Qed.

Lemma sum_counts {A} (g : A → nat) (P : nat → A → Prop)
    `{∀ k x, Decision (P k x)} (a n : nat) (l : list A) :
  (∀ k x, P k x ↔ g x = k) →
  Forall (λ x, a ≤ g x < a + n) l →
  sum_list (map (λ k, length (filter (P k) l)) (seq a n)) = length l.
Proof.
  intros HP. induction 1 as [|x l Hx _ IH]; simpl.
  - induction (seq a n) as [|k ks IHk]; [reflexivity|exact IHk].
  - transitivity
      (sum_list (map (λ k, (if decide (g x = k) then 1 else 0)
                           + length (filter (P k) l)) (seq a n)));
      [|rewrite sum_list_map_add, IH, (sum_list_one_hit (g x) a n Hx);
        reflexivity].
    f_equal. apply map_ext. intros k. rewrite filter_cons.
    destruct (decide (P k x)) as [Hk|Hk].
    + rewrite decide_True by (apply HP; exact Hk). reflexivity.
    + rewrite decide_False by (intros Hg; apply Hk, HP; exact Hg).
      reflexivity.
Qed.

(** X22: the "Error Count" column of the exported sheet adds up to the
    "Total Errors" of its summary: every record a run leaves, however it
    ends, is counted in exactly one row. *)
Theorem error_count_column_sums_to_total (w : web)
    (cancelled : nat → bool) (df : DataFrame) (errs : list error_record)
    (ending : run_end) :
  run_validation w cancelled df = (errs, ending) →
  sum_list (error_count_column df errs)
  = total_errors (_create_summary_sheet df errs).
Proof.
  intros H. apply run_validation_rows in H as (o & H & _).
  apply validate_rows_row_numbers in H as (added & -> & Hrange & _).
  simpl app. unfold error_count_column, error_count. simpl total_errors.
  apply (sum_counts (λ e, e_row e + 1)
           (λ k e, Z.of_nat (e_row e) = (Z.of_nat k - 1)%Z)).
  - intros k x. lia.
  - eapply Forall_impl; [exact Hrange|]. intros r Hr. simpl in *. lia.
Qed.

Lemma error_count_column_sums_to_total_witness :
  sum_list
    (error_count_column frame_text_ids
       [ErrorRecord 1 "Course Id" "Numeric" "Course Id must be numeric" "abc";
        ErrorRecord 2 "Course Id" "Numeric" "Course Id must be numeric" "abc"])
  = total_errors
      (_create_summary_sheet frame_text_ids
         [ErrorRecord 1 "Course Id" "Numeric" "Course Id must be numeric"
            "abc";
          ErrorRecord 2 "Course Id" "Numeric" "Course Id must be numeric"
            "abc"]).
Proof.
  apply (error_count_column_sums_to_total web_gone (λ _, false) _ _
           validation_complete).
  vm_compute. reflexivity.
Defined.

Lemma filter_row_concat (ls : list (list error_record)) :
  ∀ index i,
    (∀ k l, ls !! k = Some l → Forall (λ r, e_row r = index + k + 1) l) →
    filter (λ r, e_row r = index + i + 1) (concat ls) = default [] (ls !! i).
Proof.
  induction ls as [|l0 ls IH]; intros index i Hls; [reflexivity|].
  simpl concat. rewrite filter_app.
  pose proof (Hls 0 l0 eq_refl) as H0.
  destruct i as [|i].
  - rewrite filter_all;
      [|eapply Forall_impl; [exact H0|]; intros r Hr; simpl in *; lia].
    rewrite filter_none; [apply app_nil_r|].
    apply Forall_forall. intros r Hr.
    apply elem_of_concat_lookup in Hr as (k & l & Hk & Hr).
    pose proof (Hls (S k) l Hk) as Hl. rewrite Forall_forall in Hl.
    specialize (Hl r Hr). simpl in *. lia.
  - rewrite filter_none;
      [|eapply Forall_impl; [exact H0|]; intros r Hr; simpl in *; lia].
    simpl. replace (index + S i + 1) with (S index + i + 1) by lia.
    apply IH. intros k l Hk.
    eapply Forall_impl; [exact (Hls (S k) l Hk)|].
    intros r Hr. simpl in *. lia.
Qed.

(** X23: in the result of an uncancelled run, the records that carry the
    number of a row are exactly, and in the same order, what validating
    that row returned, the course ids being those of the whole column; so
    the sheet's error count of the row is their number, and the data view
    tags the row valid exactly when there are none. *)
Theorem run_validation_records_of_row (w : web) (cancelled : nat → bool)
    (df : DataFrame) (errs : list error_record) (i : nat)
    (row : gmap string pyval) :
  (∀ j, cancelled j = false) →
  run_validation w cancelled df = (errs, validation_complete) →
  rows df !! i = Some row →
  ∃ l : list error_record,
    validate_all_fields w row i
      (if in_list "Course Id" (columns df) then course_id_column df else [])
    = Ok l
    ∧ filter (λ e, e_row e = i + 1) errs = l
    ∧ error_count errs (i + 2) = length l
    ∧ (row_tag errs i = "valid_row" ↔ l = []).
Proof.
  intros Hc Hrun Hrow. apply run_validation_complete in Hrun.
  set (ids := if in_list "Course Id" (columns df)
              then course_id_column df else []) in *.
  apply (validate_rows_inv w cancelled ids (rows df) Hc) in Hrun
    as (ls & -> & Hlen & Hls).
  simpl app.
  assert (∃ l, ls !! i = Some l) as [l Hl].
  { apply lookup_lt_is_Some. rewrite Hlen.
    apply lookup_lt_is_Some. exists row. exact Hrow. }
  destruct (Hls i l Hl) as (row' & Hrow' & Hval).
  rewrite Hrow in Hrow'. injection Hrow' as <-. simpl in Hval.
  assert (filter (λ e, e_row e = i + 1) (concat ls) = l) as Hf.
  { change (i + 1) with (0 + i + 1).
    rewrite (filter_row_concat ls 0 i); [rewrite Hl; reflexivity|].
    intros k l' Hk. destruct (Hls k l' Hk) as (r & _ & Hv).
    exact (validate_all_fields_row_numbers _ _ _ _ _ Hv). }
  exists l. split; [exact Hval|]. split; [exact Hf|]. split.
  - unfold error_count. rewrite <- Hf. f_equal.
    apply list_filter_iff. intros e. lia.
  - unfold row_tag. cbv zeta. rewrite Hf.
    destruct l; simpl; split; congruence.
Qed.

Lemma run_validation_records_of_row_witness :
  ∃ l : list error_record,
    validate_all_fields web_gone
      {["Course Id" := VStr "abc"; "Course Name" := VStr "Law"]} 1
      (if in_list "Course Id" (columns frame_text_ids)
       then course_id_column frame_text_ids else [])
    = Ok l
    ∧ filter (λ e, e_row e = 1 + 1)
        [ErrorRecord 1 "Course Id" "Numeric" "Course Id must be numeric"
           "abc";
         ErrorRecord 2 "Course Id" "Numeric" "Course Id must be numeric"
           "abc"] = l
    ∧ error_count
        [ErrorRecord 1 "Course Id" "Numeric" "Course Id must be numeric"
           "abc";
         ErrorRecord 2 "Course Id" "Numeric" "Course Id must be numeric"
           "abc"] (1 + 2) = length l
    ∧ (row_tag
         [ErrorRecord 1 "Course Id" "Numeric" "Course Id must be numeric"
            "abc";
          ErrorRecord 2 "Course Id" "Numeric" "Course Id must be numeric"
            "abc"] 1 = "valid_row" ↔ l = []).
Proof.
  apply (run_validation_records_of_row web_gone (λ _, false)
           frame_text_ids).
  - reflexivity.
  - vm_compute. reflexivity.
  - reflexivity.
Defined.

(** ** The summary sheet *)

Lemma dict_get_set_eq {V} (k : string) (v : V) (d : list (string * V)) :
  dict_get k (dict_set k v d) = Some v.
Proof.
  induction d as [|[k' v'] d IH]; cbn [dict_set dict_get].
  - rewrite bool_decide_eq_true_2 by reflexivity. reflexivity.
  - destruct (bool_decide (k' = k)) eqn:E; cbn [dict_get]; rewrite E;
      [reflexivity|exact IH].
Qed.

Lemma dict_get_set_ne {V} (k k' : string) (v : V) (d : list (string * V)) :
  k ≠ k' → dict_get k' (dict_set k v d) = dict_get k' d.
Proof.
  intros Hne. induction d as [|[k0 v0] d IH]; cbn [dict_set dict_get].
  - rewrite bool_decide_eq_false_2 by exact Hne. reflexivity.
  - destruct (bool_decide (k0 = k)) eqn:E; cbn [dict_get].
    + apply bool_decide_eq_true in E. subst k0.
      rewrite bool_decide_eq_false_2 by exact Hne. reflexivity.
    + rewrite IH. reflexivity.
Qed.

Lemma dict_get_None {V} (k : string) (d : list (string * V)) :
  dict_get k d = None ↔ k ∉ map fst d.
Proof.
  induction d as [|[k' v'] d IH]; cbn [dict_get map fst].
  - split; [intros _; apply not_elem_of_nil|reflexivity].
  - rewrite not_elem_of_cons. destruct (bool_decide (k' = k)) eqn:E.
    + apply bool_decide_eq_true in E. split; [discriminate|].
      intros [Hne _]. congruence.
    + apply bool_decide_eq_false in E. rewrite IH.
      split; [intros H; split; [congruence|exact H]|intros [_ H]; exact H].
Qed.

Lemma dict_set_keys {V} (k : string) (v : V) (d : list (string * V)) :
  map fst (dict_set k v d)
  = if bool_decide (k ∈ map fst d) then map fst d else map fst d ++ [k].
Proof.
  induction d as [|[k' v'] d IH]; cbn [dict_set map fst].
  - rewrite bool_decide_eq_false_2 by apply not_elem_of_nil. reflexivity.
  - destruct (bool_decide (k' = k)) eqn:E.
    + apply bool_decide_eq_true in E. subst k'.
      rewrite bool_decide_eq_true_2 by (apply elem_of_cons; left; reflexivity).
      reflexivity.
    + apply bool_decide_eq_false in E. cbn [map fst]. rewrite IH.
      destruct (decide (k ∈ map fst d)) as [Hin|Hnin].
      * rewrite (bool_decide_eq_true_2 (k ∈ map fst d)) by exact Hin.
        rewrite bool_decide_eq_true_2
          by (apply elem_of_cons; right; exact Hin).
        reflexivity.
      * rewrite (bool_decide_eq_false_2 (k ∈ map fst d)) by exact Hnin.
        rewrite bool_decide_eq_false_2
          by (rewrite not_elem_of_cons; split; [congruence|exact Hnin]).
        reflexivity.
Qed.

Lemma dict_set_sum (k : string) (d : list (string * nat)) :
  sum_list (map snd (dict_set k (default 0 (dict_get k d) + 1) d))
  = sum_list (map snd d) + 1.
Proof.
  induction d as [|[k' v'] d IH]; cbn [dict_set dict_get].
  - reflexivity.
  - destruct (bool_decide (k' = k)) eqn:E.
    + simpl. lia.
    + cbn [map snd sum_list_with]. rewrite IH. unfold id. lia.
Qed.

Lemma error_breakdown_snoc (errs : list error_record) (e : error_record) :
  error_breakdown (errs ++ [e])
  = dict_set (e_error_type e)
      (default 0 (dict_get (e_error_type e) (error_breakdown errs)) + 1)
      (error_breakdown errs).
Proof. unfold error_breakdown. rewrite foldl_snoc. reflexivity. Qed.

Lemma error_breakdown_get (errs : list error_record) (t : string) :
  dict_get t (error_breakdown errs)
  = if decide (filter (λ e, e_error_type e = t) errs = []) then None
    else Some (length (filter (λ e, e_error_type e = t) errs)).
Proof.
  induction errs as [|e errs IH] using rev_ind; [reflexivity|].
  rewrite error_breakdown_snoc, filter_app.
  destruct (decide (e_error_type e = t)) as [<-|Hne].
  - rewrite dict_get_set_eq, IH.
    rewrite (filter_cons_True _ e []) by reflexivity. rewrite filter_nil.
    rewrite (decide_False (P := _ ++ [e] = []))
      by (destruct (filter _ errs); discriminate).
    f_equal. rewrite length_app. simpl.
    destruct (decide (filter (λ e0, e_error_type e0 = e_error_type e) errs
                      = [])) as [->|_]; reflexivity.
  - rewrite dict_get_set_ne by exact Hne. rewrite IH.
    rewrite (filter_cons_False _ e []) by exact Hne.
    rewrite filter_nil, app_nil_r. reflexivity.
Qed.

Lemma error_breakdown_keys (errs : list error_record) :
  map fst (error_breakdown errs)
  = reverse (remove_dups (reverse (map e_error_type errs))).
Proof.
  induction errs as [|e errs IH] using rev_ind; [reflexivity|].
  rewrite error_breakdown_snoc, dict_set_keys, IH, map_app, reverse_app.
  change (reverse (map e_error_type [e]) ++ ?l) with (e_error_type e :: l).
  cbn [remove_dups].
  destruct (decide_rel elem_of (e_error_type e)
              (reverse (map e_error_type errs))) as [Hin|Hnin].
  - rewrite bool_decide_eq_true_2; [reflexivity|].
    rewrite elem_of_reverse, elem_of_remove_dups. exact Hin.
  - rewrite bool_decide_eq_false_2; [rewrite reverse_cons; reflexivity|].
    rewrite elem_of_reverse, elem_of_remove_dups. exact Hnin.
Qed.

Lemma error_breakdown_sum (errs : list error_record) :
  sum_list (map snd (error_breakdown errs)) = length errs.
Proof.
  induction errs as [|e errs IH] using rev_ind; [reflexivity|].
  rewrite error_breakdown_snoc, dict_set_sum, IH, length_app. reflexivity.
Qed.

(** X24: the breakdown of the summary sheet, for any list of records: its
    rows are the categories that occur, each once, in the order of their
    first occurrence; a category is listed with the number of its records,
    which is never 0; and the counts add up to the total. *)
Theorem summary_sheet_breakdown (df : DataFrame)
    (errs : list error_record) :
  map fst (breakdown (_create_summary_sheet df errs))
  = reverse (remove_dups (reverse (map e_error_type errs)))
  ∧ (∀ t n,
       dict_get t (breakdown (_create_summary_sheet df errs)) = Some n
       ↔ 0 < n ∧ n = length (filter (λ e, e_error_type e = t) errs))
  ∧ sum_list (map snd (breakdown (_create_summary_sheet df errs)))
    = total_errors (_create_summary_sheet df errs).
Proof.
  cbn [_create_summary_sheet breakdown total_errors].
  split; [apply error_breakdown_keys|]. split; [|apply error_breakdown_sum].
  intros t n. rewrite error_breakdown_get.
  destruct (decide (filter (λ e, e_error_type e = t) errs = []))
    as [->|Hne].
  - simpl. split; [discriminate|lia].
  - destruct (filter (λ e, e_error_type e = t) errs) as [|x l];
      [congruence|].
    simpl. split; [intros [= <-]; lia|intros [_ ->]; reflexivity].
Qed.

Lemma elem_of_map {A B} (f : A → B) (l : list A) (y : B) :
  y ∈ map f l ↔ ∃ x, y = f x ∧ x ∈ l.
Proof.
  induction l as [|a l IH]; cbn [map].
  - split; [intros H; inversion H|intros (x & _ & H); inversion H].
  - rewrite elem_of_cons, IH. split.
    + intros [->|(x & -> & Hx)]; [exists a|exists x];
        (split; [reflexivity|]); apply elem_of_cons; auto.
    + intros (x & -> & Hx). apply elem_of_cons in Hx as [->|Hx];
        [left; reflexivity|right; exists x; auto].
Qed.

Lemma size_rows_le (l : list nat) :
  size (list_to_set l : gset nat) ≤ length l.
Proof.
  induction l as [|x l IH]; [reflexivity|].
  rewrite list_to_set_cons, size_union_alt, size_singleton. simpl.
  assert (list_to_set l ∖ {[x]} ⊆ (list_to_set l : gset nat)) as Hsub.
  { intros y Hy. apply elem_of_difference in Hy as [Hy _]. exact Hy. }
  apply subseteq_size in Hsub. lia.
Qed.

Lemma filter_map_length {A B} (f : A → B) (P : B → Prop)
    `{∀ y, Decision (P y)} (l : list A) :
  length (filter P (map f l)) = length (filter (λ x, P (f x)) l).
Proof.
  induction l as [|a l IH]; [reflexivity|]. cbn [map].
  rewrite !filter_cons. destruct (decide (P (f a))); simpl; rewrite IH;
    reflexivity.
Qed.

Lemma filter_length_pos {A} (P : A → Prop) `{∀ x, Decision (P x)}
    (l : list A) :
  0 < length (filter P l) ↔ ∃ x, x ∈ l ∧ P x.
Proof.
  split.
  - destruct (filter P l) as [|x l'] eqn:E; simpl; [lia|]. intros _.
    assert (x ∈ filter P l) as Hx by (rewrite E; apply elem_of_cons; auto).
    apply list_elem_of_filter in Hx as [HP Hx]. exists x. auto.
  - intros (x & Hx & HP).
    assert (x ∈ filter P l) as Hin by (apply list_elem_of_filter; auto).
    destruct (filter P l); [inversion Hin|simpl; lia].
Qed.

Lemma rows_with_errors_filter (n : nat) (errs : list error_record) :
  Forall (λ r, 1 ≤ e_row r ≤ n) errs →
  size (list_to_set (map e_row errs) : gset nat)
  = length (filter (λ r, r ∈ map e_row errs) (seq 1 n)).
Proof.
  intros Hrange.
  rewrite <- (size_list_to_set (C := gset nat)
                (filter (λ r, r ∈ map e_row errs) (seq 1 n)))
    by (apply NoDup_filter, NoDup_seq).
  f_equal. apply set_eq. intros x.
  rewrite !elem_of_list_to_set, list_elem_of_filter, elem_of_seq.
  split; [|intros [H _]; exact H].
  intros Hx. split; [exact Hx|].
  apply elem_of_map in Hx as (e & -> & He).
  rewrite Forall_forall in Hrange. specialize (Hrange e He). simpl in *.
  lia.
Qed.

(** X25: the summary sheet written after a run, cancelled or not: the
    "Rows with Errors" are as many as the cells of the "Error Count"
    column that are not 0 (the ones filled red), so no more than the rows
    of the frame and no more than the errors; and the breakdown has at
    most eight rows, one for each category that has a colour. *)
Theorem summary_sheet_of_run (w : web) (cancelled : nat → bool)
    (df : DataFrame) (errs : list error_record) (ending : run_end) :
  run_validation w cancelled df = (errs, ending) →
  rows_with_errors (_create_summary_sheet df errs)
  = length (filter (λ c, 0 < c) (error_count_column df errs))
  ∧ rows_with_errors (_create_summary_sheet df errs)
    ≤ total_rows (_create_summary_sheet df errs)
  ∧ rows_with_errors (_create_summary_sheet df errs)
    ≤ total_errors (_create_summary_sheet df errs)
  ∧ length (breakdown (_create_summary_sheet df errs)) ≤ 8
  ∧ (∀ t, t ∈ map fst (breakdown (_create_summary_sheet df errs)) →
          is_Some (dict_get t error_colors)).
Proof.
  intros Hrun. pose proof (run_validation_coloured _ _ _ _ _ Hrun) as Hcol.
  cbn [_create_summary_sheet rows_with_errors total_rows total_errors
         breakdown].
  assert (rows_with_errors (_create_summary_sheet df errs)
          = length (filter (λ c, 0 < c) (error_count_column df errs)))
    as Hrows.
  { apply run_validation_rows in Hrun as (o & Hrun & _).
    apply validate_rows_row_numbers in Hrun as (added & -> & Hrange & _).
    simpl app. cbn [_create_summary_sheet rows_with_errors].
    rewrite (rows_with_errors_filter (length (rows df)))
      by (eapply Forall_impl; [exact Hrange|]; intros r Hr; simpl in *; lia).
    unfold error_count_column.
    rewrite <- (seq_shift (length (rows df)) 1), map_map, filter_map_length.
    f_equal. apply list_filter_iff. intros r. unfold error_count.
    rewrite filter_length_pos, elem_of_map. split.
    - intros (e & -> & He). exists e. split; [exact He|lia].
    - intros (e & He & Hr). exists e. split; [lia|exact He]. }
  cbn [_create_summary_sheet rows_with_errors] in Hrows.
  assert (∀ t, t ∈ map fst (error_breakdown errs) →
               is_Some (dict_get t error_colors)) as Hkeys.
  { intros t Ht. rewrite error_breakdown_keys in Ht.
    rewrite elem_of_reverse, elem_of_remove_dups, elem_of_reverse in Ht.
    apply elem_of_map in Ht as (e & -> & He).
    rewrite Forall_forall in Hcol. exact (Hcol e He). }
  split; [exact Hrows|]. split; [|split; [|split; [|exact Hkeys]]].
  - rewrite Hrows. etransitivity; [apply length_filter|].
    unfold error_count_column. rewrite length_map, length_seq.
    reflexivity.
  - etransitivity; [apply size_rows_le|]. rewrite length_map. reflexivity.
  - rewrite <- (length_map fst).
    change 8 with (length (map fst error_colors)).
    apply submseteq_length, NoDup_submseteq.
    + rewrite error_breakdown_keys, reverse_Permutation.
      apply NoDup_remove_dups.
    + intros t Ht. apply Hkeys in Ht.
      destruct (decide (t ∈ map fst error_colors)) as [Hin|Hnin];
        [exact Hin|].
      apply dict_get_None in Hnin. rewrite Hnin in Ht.
      destruct Ht as [? [=]].
Qed.

Lemma summary_sheet_of_run_witness :
  let s :=
    _create_summary_sheet frame_text_ids
      [ErrorRecord 1 "Course Id" "Numeric" "Course Id must be numeric"
         "abc";
       ErrorRecord 2 "Course Id" "Numeric" "Course Id must be numeric"
         "abc"] in
  rows_with_errors s
  = length
      (filter (λ c, 0 < c)
         (error_count_column frame_text_ids
            [ErrorRecord 1 "Course Id" "Numeric" "Course Id must be numeric"
               "abc";
             ErrorRecord 2 "Course Id" "Numeric" "Course Id must be numeric"
               "abc"]))
  ∧ rows_with_errors s ≤ total_rows s
  ∧ rows_with_errors s ≤ total_errors s
  ∧ length (breakdown s) ≤ 8
  ∧ (∀ t, t ∈ map fst (breakdown s) → is_Some (dict_get t error_colors)).
Proof.
  apply (summary_sheet_of_run web_gone (λ _, false) _ _
           validation_complete).
  vm_compute. reflexivity.
Defined.

Lemma max_length_fold (column : list string) :
  ∀ m0 : nat,
    let m :=
      foldl (λ max_length text,
               if (max_length <? String.length text)%nat
               then String.length text else max_length)
        m0 column in
    m0 ≤ m
    ∧ Forall (λ text, String.length text ≤ m) column
    ∧ (m = m0 ∨ ∃ text, text ∈ column ∧ m = String.length text).
Proof.
  induction column as [|text column IH]; intros m0; cbn [foldl].
  - split; [reflexivity|]. split; [constructor|left; reflexivity].
  - destruct (Nat.ltb_spec m0 (String.length text)) as [Hlt|Hge].
    + destruct (IH (String.length text)) as (Hle & Hall & Hm).
      split; [lia|]. split; [constructor; [exact Hle|exact Hall]|].
      right. destruct Hm as [Hm|(t & Ht & Hm)].
      * exists text. split; [apply elem_of_cons; auto|exact Hm].
      * exists t. split; [apply elem_of_cons; auto|exact Hm].
    + destruct (IH m0) as (Hle & Hall & Hm).
      split; [exact Hle|]. split; [constructor; [lia|exact Hall]|].
      destruct Hm as [Hm|(t & Ht & Hm)]; [left; exact Hm|].
      right. exists t. split; [apply elem_of_cons; auto|exact Hm].
Qed.

(** X26: the width a column of the sheet is given lies between 2 and 50;
    it leaves two characters to spare for every text of the column of up
    to 48 characters; and it is 2, or 50, or two more than the length of a
    text of the column. *)
Theorem adjusted_width_bounds (column : list string) :
  2 ≤ adjusted_width column ≤ 50
  ∧ (∀ text, text ∈ column → String.length text ≤ 48 →
             String.length text + 2 ≤ adjusted_width column)
  ∧ (adjusted_width column = 2 ∨ adjusted_width column = 50
     ∨ ∃ text, text ∈ column
               ∧ adjusted_width column = String.length text + 2).
Proof.
  unfold adjusted_width. cbv zeta.
  destruct (max_length_fold column 0) as (_ & Hall & Hm). cbv zeta in *.
  set (m := foldl _ 0 column) in *.
  split; [lia|]. split.
  - intros text Hin Hlen. rewrite Forall_forall in Hall.
    specialize (Hall text Hin). simpl in Hall. lia.
  - destruct Hm as [Hm|(t & Ht & Hm)]; [left; lia|].
    destruct (decide (m + 2 ≤ 50)) as [Hle|Hgt].
    + right. right. exists t. split; [exact Ht|lia].
    + right. left. lia.
Qed.

(** ** The sheet id of a Google Sheets address *)

Lemma extract_sheet_id_unfold (url : string) :
  extract_sheet_id url
  = match
      match after_prefix "/spreadsheets/d/" url with
      | Some rest => if bool_decide (id_run rest = "") then None
                     else Some (id_run rest)
      | None => None
      end
    with
    | Some id => Some id
    | None =>
        match url with
        | "" => None
        | String _ url' => extract_sheet_id url'
        end
    end.
Proof. destruct url; reflexivity. Qed.

Lemma after_prefix_app (p s : string) : after_prefix p (p +:+ s) = Some s.
Proof.
  induction p as [|a p IH]; [reflexivity|].
  change (String a p +:+ s) with (String a (p +:+ s)).
  cbn [after_prefix]. unfold ascii_eqb.
  rewrite bool_decide_eq_true_2 by reflexivity. exact IH.
Qed.

Lemma after_prefix_Some (p s r : string) :
  after_prefix p s = Some r → s = p +:+ r.
Proof.
  revert s. induction p as [|a p IH]; intros s H.
  - injection H as <-. reflexivity.
  - destruct s as [|c s]; [discriminate|]. cbn [after_prefix] in H.
    destruct (ascii_eqb a c) eqn:E; [|discriminate].
    unfold ascii_eqb in E. apply bool_decide_eq_true in E as <-.
    apply IH in H as ->. reflexivity.
Qed.

Lemma id_run_split (s : string) :
  ∃ rest, s = id_run s +:+ rest ∧ id_run rest = ""
          ∧ all_chars is_id_char (id_run s) = true.
Proof.
  induction s as [|c s (rest & Hs & Hrest & Hall)].
  - exists "". auto.
  - cbn [id_run]. destruct (is_id_char c) eqn:E.
    + exists rest. cbn [all_chars]. rewrite E, Hall.
      split; [|auto]. change (String c (id_run s) +:+ rest)
        with (String c (id_run s +:+ rest)). rewrite <- Hs. reflexivity.
    + exists (String c s). cbn [id_run]. rewrite E. auto.
Qed.

Lemma id_run_app (id rest : string) :
  all_chars is_id_char id = true → id_run rest = "" →
  id_run (id +:+ rest) = id.
Proof.
  intros Hall Hrest. induction id as [|c id IH]; [exact Hrest|].
  cbn [all_chars] in Hall. apply andb_true_iff in Hall as [Hc Hall].
  change (String c id +:+ rest) with (String c (id +:+ rest)).
  cbn [id_run]. rewrite Hc, (IH Hall). reflexivity.
Qed.

(** X27: an address that has, after a part in which no slash is followed
    by an s, the literal /spreadsheets/d/ and then a non-empty run of id
    characters that ends at the end of the text or at another character,
    gives exactly that run as the sheet id. *)
Theorem extract_sheet_id_of_address (pre id rest : string) :
  contains "/s" pre = false →
  id ≠ "" →
  all_chars is_id_char id = true →
  id_run rest = "" →
  extract_sheet_id (pre +:+ "/spreadsheets/d/" +:+ id +:+ rest) = Some id.
Proof.
  intros Hpre Hne Hall Hrest. induction pre as [|c pre IH].
  - change ("" +:+ ?s) with s.
    rewrite extract_sheet_id_unfold, after_prefix_app.
    rewrite (id_run_app id rest Hall Hrest).
    rewrite bool_decide_eq_false_2 by exact Hne. reflexivity.
  - change (contains "/s" (String c pre))
      with (startswith (String c pre) "/s" || contains "/s" pre) in Hpre.
    apply orb_false_iff in Hpre as [Hstart Hpre].
    change (String c pre +:+ ?s) with (String c (pre +:+ s)).
    rewrite extract_sheet_id_unfold.
    assert (after_prefix "/spreadsheets/d/"
              (String c (pre +:+ "/spreadsheets/d/" +:+ id +:+ rest))
            = None) as ->.
    { cbn [after_prefix]. destruct (ascii_eqb "/" c) eqn:E; [|reflexivity].
      destruct pre as [|c' pre]; [reflexivity|].
      change (startswith (String c (String c' pre)) "/s")
        with (ascii_eqb "/" c && (ascii_eqb "s" c' && startswith pre ""))
        in Hstart.
      assert (startswith pre "" = true) as Hnil
        by (destruct pre; reflexivity).
      rewrite E, Hnil, andb_true_r in Hstart. simpl in Hstart.
      change (String c' pre +:+ ?s) with (String c' (pre +:+ s)).
      cbn [after_prefix]. rewrite Hstart. reflexivity. }
    exact (IH Hpre).
Qed.

Lemma extract_sheet_id_of_address_witness :
  extract_sheet_id
    ("https://docs.google.com" +:+ "/spreadsheets/d/" +:+ "1AbC-_9"
     +:+ "/edit#gid=0")
  = Some "1AbC-_9".
Proof.
  apply extract_sheet_id_of_address;
    [reflexivity|discriminate|reflexivity|reflexivity].
Defined.

(** X28: a sheet id that is found is never empty and made of id
    characters only, and the address has it right after an occurrence of
    /spreadsheets/d/ with no id character following it. *)
Theorem extract_sheet_id_sound (url id : string) :
  extract_sheet_id url = Some id →
  id ≠ ""
  ∧ all_chars is_id_char id = true
  ∧ ∃ pre rest, url = pre +:+ "/spreadsheets/d/" +:+ id +:+ rest
                ∧ id_run rest = "".
Proof.
  induction url as [|c url IH]; [discriminate|].
  rewrite extract_sheet_id_unfold.
  destruct (after_prefix "/spreadsheets/d/" (String c url)) as [r|] eqn:E.
  - destruct (bool_decide (id_run r = "")) eqn:B.
    + intros H. destruct (IH H) as (Hne & Hall & pre & rest & -> & Hrest).
      split; [exact Hne|]. split; [exact Hall|].
      exists (String c pre), rest. split; [reflexivity|exact Hrest].
    + intros [= <-]. apply bool_decide_eq_false in B.
      destruct (id_run_split r) as (rest & Hr & Hrest & Hall).
      split; [exact B|]. split; [exact Hall|].
      exists "", rest. split; [|exact Hrest].
      apply after_prefix_Some in E. rewrite E.
      change ("" +:+ ?s) with s. rewrite <- Hr. reflexivity.
  - intros H. destruct (IH H) as (Hne & Hall & pre & rest & -> & Hrest).
    split; [exact Hne|]. split; [exact Hall|].
    exists (String c pre), rest. split; [reflexivity|exact Hrest].
Qed.

Lemma extract_sheet_id_sound_witness :
  "1AbC-_9" ≠ ""
  ∧ all_chars is_id_char "1AbC-_9" = true
  ∧ ∃ pre rest,
      "https://docs.google.com/spreadsheets/d/1AbC-_9/edit#gid=0"
      = pre +:+ "/spreadsheets/d/" +:+ "1AbC-_9" +:+ rest
      ∧ id_run rest = "".
Proof. apply extract_sheet_id_sound. reflexivity. Defined.

(** ** The display of the results *)

Lemma errors_by_row_snoc (errs : list error_record) (e : error_record) :
  errors_by_row (errs ++ [e])
  = <[e_row e := default [] (errors_by_row errs !! e_row e) ++ [e]]>
      (errors_by_row errs).
Proof. unfold errors_by_row. rewrite foldl_snoc. reflexivity. Qed.

Lemma errors_by_row_lookup (errs : list error_record) (row : nat) :
  errors_by_row errs !! row
  = if decide (filter (λ e, e_row e = row) errs = []) then None
    else Some (filter (λ e, e_row e = row) errs).
Proof.
  induction errs as [|e errs IH] using rev_ind.
  - destruct (decide _) as [_|Hn]; [apply lookup_empty|].
    exfalso. apply Hn. reflexivity.
  - rewrite errors_by_row_snoc, filter_app.
    destruct (decide (e_row e = row)) as [<-|Hne].
    + rewrite lookup_insert_eq, IH.
      rewrite (filter_cons_True _ e []) by reflexivity. rewrite filter_nil.
      rewrite (decide_False (P := _ ++ [e] = []))
        by (destruct (filter _ errs); discriminate).
      destruct (decide (filter (λ e0, e_row e0 = e_row e) errs = []))
        as [->|_]; reflexivity.
    + rewrite lookup_insert_ne by exact Hne. rewrite IH.
      rewrite (filter_cons_False _ e []) by exact Hne.
      rewrite filter_nil, app_nil_r. reflexivity.
Qed.

Lemma StronglySorted_filter {A} (R : A → A → Prop) (P : A → Prop)
    `{∀ x, Decision (P x)} (l : list A) :
  StronglySorted R l → StronglySorted R (filter P l).
Proof.
  induction 1 as [|x l Hs IH Hall]; [constructor|].
  rewrite filter_cons. destruct (decide (P x)); [|exact IH].
  constructor; [exact IH|]. apply Forall_forall. intros y Hy.
  apply list_elem_of_filter in Hy as [_ Hy].
  rewrite Forall_forall in Hall. exact (Hall y Hy).
Qed.

Lemma sorted_le_NoDup_lt (l : list nat) :
  StronglySorted Nat.le l → NoDup l → StronglySorted lt l.
Proof.
  induction 1 as [|x l Hs IH Hall]; intros Hnd; [constructor|].
  apply NoDup_cons in Hnd as [Hx Hnd]. constructor; [exact (IH Hnd)|].
  apply Forall_forall. intros y Hy. rewrite Forall_forall in Hall.
  specialize (Hall y Hy). assert (x ≠ y) by (intros ->; contradiction).
  unfold Nat.le in Hall. lia.
Qed.

Lemma sorted_rows_split (k : nat) (errs : list error_record) :
  StronglySorted (λ a b, e_row a ≤ e_row b) errs →
  Forall (λ e, k ≤ e_row e) errs →
  errs = filter (λ e, e_row e = k) errs ++ filter (λ e, e_row e ≠ k) errs.
Proof.
  induction 1 as [|e l Hs IH Hall]; intros Hk; [reflexivity|].
  apply Forall_cons in Hk as [He Hk].
  destruct (decide (e_row e = k)) as [Heq|Hne].
  - rewrite (filter_cons_True (λ e, e_row e = k)) by exact Heq.
    rewrite (filter_cons_False (λ e, e_row e ≠ k))
      by (intros H; exact (H Heq)).
    simpl. f_equal. exact (IH Hk).
  - rewrite (filter_cons_False (λ e, e_row e = k)) by exact Hne.
    rewrite (filter_cons_True (λ e, e_row e ≠ k)) by exact Hne.
    assert (Forall (λ x, e_row x ≠ k) l) as Hl.
    { eapply Forall_impl; [exact Hall|]. intros x Hx. simpl in *. lia. }
    rewrite (filter_none (λ e0, e_row e0 = k) l) by exact Hl.
    rewrite (filter_all (λ e0, e_row e0 ≠ k) l) by exact Hl.
    reflexivity.
Qed.

Lemma map_ext_elem {A B} (f g : A → B) (l : list A) :
  (∀ x, x ∈ l → f x = g x) → map f l = map g l.
Proof.
  induction l as [|a l IH]; intros H; [reflexivity|]. cbn [map].
  rewrite (H a) by (apply elem_of_cons; auto). f_equal. apply IH.
  intros x Hx. apply H, elem_of_cons. auto.
Qed.

Lemma grouped_by_sorted_keys (keys : list nat) :
  ∀ errs : list error_record,
    StronglySorted lt keys →
    StronglySorted (λ a b, e_row a ≤ e_row b) errs →
    Forall (λ e, e_row e ∈ keys) errs →
    concat (map (λ k, filter (λ e, e_row e = k) errs) keys) = errs.
Proof.
  induction keys as [|k ks IH]; intros errs Hkeys Hsorted Hin.
  - destruct errs as [|e errs]; [reflexivity|].
    apply Forall_cons in Hin as [He _]. inversion He.
  - cbn [map concat].
    apply StronglySorted_inv in Hkeys as [Hks Hlt].
    rewrite Forall_forall in Hlt.
    assert (Forall (λ e, k ≤ e_row e) errs) as Hge.
    { eapply Forall_impl; [exact Hin|]. intros e He. simpl in He.
      apply elem_of_cons in He as [->|He]; [lia|].
      specialize (Hlt _ He). lia. }
    transitivity (filter (λ e, e_row e = k) errs
                  ++ filter (λ e, e_row e ≠ k) errs);
      [|symmetry; exact (sorted_rows_split k errs Hsorted Hge)].
    f_equal.
    transitivity
      (concat (map (λ k', filter (λ e, e_row e = k')
                            (filter (λ e, e_row e ≠ k) errs)) ks)).
    { f_equal. apply map_ext_elem. intros k' Hk'.
      specialize (Hlt _ Hk').
      rewrite list_filter_filter. apply list_filter_iff.
      intros e. split; [intros ->; split; [reflexivity|lia]|].
      intros [H _]. exact H. }
    apply IH.
    + exact Hks.
    + apply StronglySorted_filter. exact Hsorted.
    + apply Forall_forall. intros e He.
      apply list_elem_of_filter in He as [Hne He].
      rewrite Forall_forall in Hin. specialize (Hin e He). simpl in Hin.
      apply elem_of_cons in Hin as [Heq|Hin]; [contradiction|exact Hin].
Qed.

Lemma detailed_errors_keys (errs : list error_record) :
  StronglySorted lt (map fst (detailed_errors errs))
  ∧ ∀ k, k ∈ map fst (detailed_errors errs)
         ↔ filter (λ e, e_row e = k) errs ≠ [].
Proof.
  unfold detailed_errors. cbv zeta. rewrite map_map. cbn [fst].
  rewrite map_id. split.
  - apply sorted_le_NoDup_lt; [apply StronglySorted_merge_sort; apply _|].
    rewrite merge_sort_Permutation. apply NoDup_elements.
  - intros k. rewrite merge_sort_Permutation, elem_of_elements, elem_of_dom.
    rewrite errors_by_row_lookup.
    destruct (decide (filter (λ e, e_row e = k) errs = [])) as [->|Hne].
    + split; [intros [? [=]]|congruence].
    + split; [intros _; exact Hne|intros _; eexists; reflexivity].
Qed.

Lemma detailed_errors_groups (errs : list error_record) :
  map snd (detailed_errors errs)
  = map (λ k, filter (λ e, e_row e = k) errs)
      (map fst (detailed_errors errs)).
Proof.
  unfold detailed_errors. cbv zeta. rewrite !map_map. cbn [fst snd].
  apply map_ext. intros k. rewrite errors_by_row_lookup.
  destruct (decide (filter (λ e, e_row e = k) errs = [])) as [->|_];
    reflexivity.
Qed.

(** X29: the list "detailed errors by row" of the results view, for any
    list of records: the rows come in strictly increasing order, every
    row that has a record is there, and each is listed with all its
    records, of which there is at least one, in the order they have in the
    list. When the records are those of a run, cancelled or not, the
    listing shows them one after the other exactly as the run produced
    them. *)
Theorem detailed_errors_listing (errs : list error_record) :
  StronglySorted lt (map fst (detailed_errors errs))
  ∧ (∀ e, e ∈ errs → e_row e ∈ map fst (detailed_errors errs))
  ∧ (∀ row l, (row, l) ∈ detailed_errors errs →
              l ≠ [] ∧ l = filter (λ e, e_row e = row) errs)
  ∧ (∀ w cancelled df ending,
       run_validation w cancelled df = (errs, ending) →
       concat (map snd (detailed_errors errs)) = errs).
Proof.
  destruct (detailed_errors_keys errs) as [Hsorted Hkeys].
  assert (∀ e, e ∈ errs → e_row e ∈ map fst (detailed_errors errs))
    as Hall.
  { intros e He. apply Hkeys. intros Hnil.
    assert (e ∈ filter (λ e0, e_row e0 = e_row e) errs) as Hin
      by (apply list_elem_of_filter; auto).
    rewrite Hnil in Hin. inversion Hin. }
  split; [exact Hsorted|]. split; [exact Hall|]. split.
  - intros row l Hin.
    assert (row ∈ map fst (detailed_errors errs)) as Hrow
      by (apply elem_of_map; exists (row, l); auto).
    apply Hkeys in Hrow.
    assert (l = filter (λ e, e_row e = row) errs) as ->; [|auto].
    unfold detailed_errors in Hin. cbv zeta in Hin.
    apply elem_of_map in Hin as (k & [= -> ->] & _).
    rewrite errors_by_row_lookup.
    destruct (decide (filter (λ e, e_row e = k) errs = [])) as [->|_];
      reflexivity.
  - intros w cancelled df ending Hrun.
    apply run_validation_rows in Hrun as (o & Hrun & _).
    apply validate_rows_row_numbers in Hrun as (added & -> & _ & Hs).
    simpl app in *. rewrite detailed_errors_groups.
    apply grouped_by_sorted_keys; [exact Hsorted|exact Hs|].
    apply Forall_forall. exact Hall.
Qed.

Lemma detailed_errors_listing_witness :
  concat
    (map snd
       (detailed_errors
          [ErrorRecord 1 "Course Id" "Numeric" "Course Id must be numeric"
             "abc";
           ErrorRecord 2 "Course Id" "Numeric" "Course Id must be numeric"
             "abc"]))
  = [ErrorRecord 1 "Course Id" "Numeric" "Course Id must be numeric" "abc";
     ErrorRecord 2 "Course Id" "Numeric" "Course Id must be numeric" "abc"].
Proof.
  apply (proj2 (proj2 (proj2 (detailed_errors_listing _)))
           web_gone (λ _, false) frame_text_ids validation_complete).
  vm_compute. reflexivity.
Defined.

(** ** The progress window *)

Lemma error_lookup_snoc (row_errors : list error_record)
    (e : error_record) :
  error_lookup (row_errors ++ [e])
  = <[e_column e := e]> (error_lookup row_errors).
Proof. unfold error_lookup. rewrite foldl_snoc. reflexivity. Qed.

Lemma error_lookup_last (row_errors : list error_record)
    (field : string) :
  error_lookup row_errors !! field
  = last (filter (λ e, e_column e = field) row_errors).
Proof.
  induction row_errors as [|e l IH] using rev_ind; [apply lookup_empty|].
  rewrite error_lookup_snoc, filter_app.
  destruct (decide (e_column e = field)) as [<-|Hne].
  - rewrite lookup_insert_eq.
    rewrite (filter_cons_True _ e []) by reflexivity.
    rewrite filter_nil, last_snoc. reflexivity.
  - rewrite lookup_insert_ne by exact Hne.
    rewrite (filter_cons_False _ e []) by exact Hne.
    rewrite filter_nil, app_nil_r. exact IH.
Qed.

Lemma filter_same_key {A B} `{EqDecision B} (f : A → B) (l : list A)
    (e : A) :
  NoDup (map f l) → e ∈ l → filter (λ x, f x = f e) l = [e].
Proof.
  induction l as [|x l IH]; intros Hnd He; [inversion He|].
  cbn [map] in Hnd. apply NoDup_cons in Hnd as [Hx Hnd].
  apply elem_of_cons in He as [->|He].
  - rewrite filter_cons_True by reflexivity. f_equal.
    apply filter_none, Forall_forall. intros y Hy Heq. apply Hx.
    apply elem_of_map. exists y. auto.
  - rewrite filter_cons_False; [exact (IH Hnd He)|].
    intros Heq. apply Hx. apply elem_of_map. exists e. auto.
Qed.

Lemma filter_members_length {A} `{EqDecision A} (keys cols : list A) :
  NoDup keys → NoDup cols → (∀ c, c ∈ cols → c ∈ keys) →
  length (filter (λ k, k ∈ cols) keys) = length cols.
Proof.
  intros Hk Hc Hsub. apply Permutation_length, NoDup_Permutation.
  - apply NoDup_filter. exact Hk.
  - exact Hc.
  - intros x. rewrite list_elem_of_filter. split; [intros [H _]; exact H|].
    intros H. split; [exact H|exact (Hsub x H)].
Qed.

Lemma validate_all_fields_columns_NoDup (w : web)
    (row : gmap string pyval) (row_index : nat)
    (all_course_ids : list pyval) (errs : list error_record) :
  validate_all_fields w row row_index all_course_ids = Ok errs →
  NoDup (map e_column errs).
Proof.
  intros H. apply validate_all_fields_blocks in H as (tails & -> & Hb).
  eapply sublist_NoDup; [apply validated_columns_NoDup|].
  apply (block_output_columns _ _ _ Hb).
Qed.

(** X30: the progress window is shown the items of the row that was just
    validated and the records returned for it. No record is lost in the
    lookup by column, since a row has at most one record for a column:
    every record is the one found for its column, the line of a field is
    an error line with the record's message exactly when the field has a
    record, and there are as many error lines as records. *)
Theorem progress_display_shows_every_record (w : web)
    (row : gmap string pyval) (row_index : nat)
    (all_course_ids : list pyval) (errs : list error_record)
    (row_data : list (string * pyval)) :
  validate_all_fields w row row_index all_course_ids = Ok errs →
  NoDup (map fst row_data) →
  (∀ field, field ∈ map fst row_data ↔ is_Some (row !! field)) →
  (∀ e, e ∈ errs → error_lookup errs !! e_column e = Some e)
  ∧ (∀ ln, ln ∈ Progress.update_data_display row_data errs →
       (line_tag ln = "error"
        ∧ ∃ e, e ∈ errs ∧ e_column e = line_field ln
               ∧ line_message ln = e_message e)
       ∨ (line_tag ln = "valid"
          ∧ ∀ e, e ∈ errs → e_column e ≠ line_field ln))
  ∧ length (filter (λ ln, line_tag ln = "error")
              (Progress.update_data_display row_data errs))
    = length errs.
Proof.
  intros Hval Hnd Hkeys.
  pose proof (validate_all_fields_columns_NoDup _ _ _ _ _ Hval) as Hcols.
  pose proof (validate_all_fields_record_ok _ _ _ _ _ Hval) as Hok.
  assert (∀ e, e ∈ errs → error_lookup errs !! e_column e = Some e)
    as Hfound.
  { intros e He. rewrite error_lookup_last.
    rewrite (filter_same_key e_column errs e Hcols He). reflexivity. }
  assert (∀ field, error_lookup errs !! field = None
                   ↔ field ∉ map e_column errs) as Hnone.
  { intros field. rewrite error_lookup_last, last_None. split.
    - intros Hnil Hin. apply elem_of_map in Hin as (e & -> & He).
      assert (e ∈ filter (λ e0, e_column e0 = e_column e) errs) as Hf
        by (apply list_elem_of_filter; auto).
      rewrite Hnil in Hf. inversion Hf.
    - intros Hnin. apply filter_none, Forall_forall. intros e He Heq.
      apply Hnin, elem_of_map. exists e. auto. }
  split; [exact Hfound|]. split.
  - intros ln Hln. unfold Progress.update_data_display in Hln.
    cbv zeta in Hln. apply elem_of_map in Hln as ([field v] & -> & _).
    cbn [fst snd].
    destruct (error_lookup errs !! field) as [e|] eqn:E.
    + left. split; [reflexivity|]. exists e. cbn [line_field line_message].
      rewrite error_lookup_last in E. apply last_Some in E as (l' & E).
      assert (e ∈ filter (λ e0, e_column e0 = field) errs) as He.
      { rewrite E. apply elem_of_app. right. apply elem_of_cons. auto. }
      apply list_elem_of_filter in He as [Hc He]. auto.
    + right. split; [reflexivity|]. intros e He Hc. cbn [line_field] in Hc.
      apply Hnone in E. apply E, elem_of_map. exists e. auto.
  - unfold Progress.update_data_display. cbv zeta.
    rewrite filter_map_length.
    transitivity
      (length (filter (λ k, k ∈ map e_column errs) (map fst row_data))).
    + rewrite filter_map_length. f_equal. apply list_filter_iff.
      intros [field v]. cbn [fst snd].
      destruct (error_lookup errs !! field) as [e|] eqn:E; cbn [line_tag].
      * split; [intros _|reflexivity].
        destruct (decide (field ∈ map e_column errs)) as [H|H]; [exact H|].
        apply Hnone in H. congruence.
      * split; [discriminate|]. intros H. apply Hnone in E. contradiction.
    + rewrite (filter_members_length (map fst row_data)
                 (map e_column errs) Hnd Hcols); [apply length_map|].
      intros c Hc. apply elem_of_map in Hc as (e & -> & He).
      apply Hkeys. rewrite Forall_forall in Hok.
      destruct (Hok e He) as (_ & _ & v & Hv & _). exists v. exact Hv.
Qed.

Lemma progress_display_shows_every_record_witness :
  let errs :=
    [ErrorRecord 2 "Course Id" "Numeric" "Course Id must be numeric"
       "abc"] in
  let row_data := [("Course Id", VStr "abc"); ("Course Name", VStr "Law")] in
  (∀ e, e ∈ errs → error_lookup errs !! e_column e = Some e)
  ∧ (∀ ln, ln ∈ Progress.update_data_display row_data errs →
       (line_tag ln = "error"
        ∧ ∃ e, e ∈ errs ∧ e_column e = line_field ln
               ∧ line_message ln = e_message e)
       ∨ (line_tag ln = "valid"
          ∧ ∀ e, e ∈ errs → e_column e ≠ line_field ln))
  ∧ length (filter (λ ln, line_tag ln = "error")
              (Progress.update_data_display row_data errs))
    = length errs.
Proof.
  apply (progress_display_shows_every_record web_gone
           {["Course Id" := VStr "abc"; "Course Name" := VStr "Law"]} 1
           [VStr "abc"; VStr "abc"; VStr "7"]).
  - vm_compute. reflexivity.
  - apply (bool_decide_unpack _). vm_compute. exact I.
  - intros field. cbn [map fst].
    rewrite !elem_of_cons, elem_of_nil.
    destruct (decide (field = "Course Id")) as [->|H1];
      [split; [intros _; eexists; reflexivity|auto]|].
    destruct (decide (field = "Course Name")) as [->|H2];
      [split; [intros _; eexists; reflexivity|auto]|].
    rewrite lookup_insert_ne by congruence.
    rewrite lookup_singleton_ne by congruence.
    split; [intros [?|[?|[]]]; contradiction|intros [? [=]]].
Defined.
